(** * DANR stress engine (danr-zygisk/jni): shallow embedding and properties

    The C++ sources embedded here are
      - [stress/stressor_base.{h,cpp}]     the lifecycle shared by all generators,
      - [stress/{cpu,memory,disk,network,thermal}_stressor.cpp],
      - [stress/stress_manager.cpp]        the orchestrator,
      - [cpu_freq_manager.cpp]             the persistent frequency throttle.

    Conventions of the embedding.
      - [int], [long] and [size_t] values are [Z]; arithmetic on [size_t]
        wraps modulo 2^64 where the source multiplies.
      - [std::string] is [string]; [std::map<std::string, std::string>] is a
        [gmap string string], iterated in key order ([map_items]).
      - The device (clock, sysfs, qdiscs, heap, file system) is an explicit
        [World] threaded through every operation.
      - An uncaught C++ exception or a [std::terminate] ends the process: the
        operations that can reach one return [option], [None] meaning that
        the process is gone.
      - A [std::thread] member is an [option worker]: [None] is a thread
        object that is not joinable, [Some Spawned] a joinable thread whose
        body is accounted for when it is joined (or when it exits by itself),
        [Some Exited] a joinable thread whose body has run to completion.
      - Statements guarded by the generators' internal [mutex_] execute
        atomically in a sequential model and leave no trace here; the
        orchestrator's lock is recorded in the event log of the world. *)

From Stdlib Require Import ZArith Bool Ascii.
From stdpp Require Import gmap strings list fin_maps pretty sorting.

Open Scope Z_scope.

(* ===================================================================== *)
(** * Strings: [std::to_string], [std::getline], trimming, [std::stol]   *)
(* ===================================================================== *)

Module Str.

(** [std::to_string] on an integer: decimal digits, [-] for negatives. *)
Definition to_string (z : Z) : string := pretty z.

Definition code (c : ascii) : Z := Z.of_N (N_of_ascii c).

(** The characters of [" \t\n\r"], the set given to [find_first_not_of]. *)
Definition is_blank (c : ascii) : bool :=
  let n := code c in
  (n =? 32) || (n =? 9) || (n =? 10) || (n =? 13).

(** [isspace] in the C locale, used by [strtol] under [std::stol]. *)
Definition is_space (c : ascii) : bool :=
  let n := code c in
  (n =? 32) || ((9 <=? n) && (n <=? 13)).

(** [std::getline(file, content)]: the text before the first newline. *)
Fixpoint getline (s : string) : string :=
  match s with
  | EmptyString => EmptyString
  | String c rest => if code c =? 10 then EmptyString else String c (getline rest)
  end.

Fixpoint drop_while (p : ascii -> bool) (s : string) : string :=
  match s with
  | EmptyString => EmptyString
  | String c rest => if p c then drop_while p rest else s
  end.

(** [content.substr(start, end - start + 1)] between the first and the last
    character outside [" \t\n\r"]; the empty string when there is none. *)
Definition trim (s : string) : string :=
  String.rev (drop_while is_blank (String.rev (drop_while is_blank s))).

Definition digit (c : ascii) : option Z :=
  let n := code c in
  if (48 <=? n) && (n <=? 57) then Some (n - 48) else None.

Fixpoint digits (acc : Z) (s : string) : Z :=
  match s with
  | EmptyString => acc
  | String c rest =>
      match digit c with
      | Some d => digits (10 * acc + d) rest
      | None => acc
      end
  end.

Definition LONG_MAX : Z := 2 ^ 63 - 1.
Definition LONG_MIN : Z := - 2 ^ 63.

(** [std::stol(value)]: leading white space, an optional sign, then decimal
    digits; trailing text is ignored.  [None] stands for the exception
    ([std::invalid_argument] without a digit, [std::out_of_range] beyond
    [long]). *)
Definition stol (s : string) : option Z :=
  let s1 := drop_while is_space s in
  let '(neg, s2) :=
    match s1 with
    | String c rest =>
        if code c =? 45 then (true, rest)
        else if code c =? 43 then (false, rest)
        else (false, s1)
    | EmptyString => (false, s1)
    end in
  match s2 with
  | String c _ =>
      match digit c with
      | Some _ =>
          let v := digits 0 s2 in
          let v := if neg then - v else v in
          if (LONG_MIN <=? v) && (v <=? LONG_MAX) then Some v else None
      | None => None
      end
  | EmptyString => None
  end.

(** [s.empty()] *)
Definition empty (s : string) : bool :=
  match s with EmptyString => true | _ => false end.

(** [strstr(haystack, needle) != nullptr] *)
Definition contains (needle haystack : string) : bool :=
  match String.index 0 needle haystack with Some _ => true | None => false end.

End Str.

(** Entries of a [std::map<std::string, std::string>] in iteration order
    (ascending keys, compared byte by byte). *)
Definition key_le {A} (a b : string * A) : Prop := String.leb a.1 b.1.

Definition map_items {A} (m : gmap string A) : list (string * A) :=
  merge_sort key_le (map_to_list m).

(** A loop whose body can end the process. *)
Fixpoint foldlM {A B} (f : A -> B -> option A) (a : A) (l : list B) : option A :=
  match l with
  | [] => Some a
  | x :: rest => match f a x with Some a1 => foldlM f a1 rest | None => None end
  end.

(** Two's-complement wrap-around of [std::atomic<long>] arithmetic and of
    [size_t] arithmetic. *)
Definition wrap_long (z : Z) : Z := (z + 2 ^ 63) mod 2 ^ 64 - 2 ^ 63.
Definition wrap_size (z : Z) : Z := z mod 2 ^ 64.

(** The same for [int]; and [PTRDIFF_MAX], beyond which no allocation
    succeeds. *)
Definition wrap_int (z : Z) : Z := (z + 2 ^ 31) mod 2 ^ 32 - 2 ^ 31.
Definition PTRDIFF_MAX : Z := 2 ^ 63 - 1.

(* ===================================================================== *)
(** * The device                                                          *)
(* ===================================================================== *)

(** What the engine does to the device and to its own threads, in order.
    The log holds the orchestrator's lock operations, thread joins, spawned
    commands and every mutation of the device that took effect. *)
Inductive event :=
| EvLock                                  (* StressManager::mutex_ acquired *)
| EvUnlock                                (* StressManager::mutex_ released *)
| EvJoin (owner : string)                 (* std::thread::join returned *)
| EvExec (cmd : string)                   (* popen of a shell command *)
| EvSysWrite (path value : string)        (* a sysfs attribute was set *)
| EvMap (ptr len : Z)                     (* mmap / malloc of a chunk *)
| EvMlock (ptr len : Z)
| EvMunlock (ptr len : Z)
| EvUnmap (ptr len : Z)                   (* munmap(ptr, len) *)
| EvFree (ptr : Z)                        (* free(ptr) *)
| EvCreate (path : string)                (* open(O_CREAT) made a file *)
| EvUnlink (path : string).               (* unlink removed a file *)

(** A joinable [std::thread]. *)
Inductive worker := Spawned | Exited.

(** sysfs: the attribute files under [/sys/devices/system/cpu]. *)
Record SysFs := {
  attrs : gmap string string;     (* path -> content of the file *)
  readonly : gset string;         (* paths on which a write fails *)
  cpu_dirs : Z;                   (* cpuN entries seen by readdir; 0 if opendir fails *)
  nprocessors_conf : Z;           (* sysconf(_SC_NPROCESSORS_CONF) *)
  nprocessors_onln : Z;           (* sysconf(_SC_NPROCESSORS_ONLN) *)
  drift : list (list (list (string * string)))
    (* one entry per thermal worker run: for each pass of its monitoring
       loop, the attributes the system changed since the previous pass *)
}.

(** The shell commands the network generator spawns. *)
Inductive command :=
| WhichTc
| LsSystemBinTc
| TcAddHtbRoot (iface : string)
| TcAddHtbClass (iface : string) (kbit : Z)
| TcAddNetem (iface : string) (under_htb : bool) (delay loss : Z)
| TcDelRoot (iface : string).

Record Net := {
  which_tc : bool * string;       (* exit status ok, stdout of `which tc` *)
  ls_tc : bool * string;          (* the same for `ls /system/bin/tc` *)
  tc_accepts : command -> bool;   (* does the kernel accept this tc add *)
  qdisc : gmap string (list command)  (* rules installed per interface *)
}.

Record Mem := {
  live : gmap Z Z;                (* regions owned by the process: base -> length *)
  allocated_total : Z;            (* bytes ever obtained by allocateChunk *)
  released_total : Z;             (* bytes ever given back *)
  mem_available_mb : Z;           (* getAvailableMemoryMB() read now *)
  mem_runs : list (list (Z * option Z))
    (* one entry per memory worker run: for each pass of its loops, the
       MemAvailable reading in MB and the answer of mmap/malloc should the
       pass allocate ([None]: the allocation fails) *)
}.

Inductive kind := RegularFile | Directory.

(** One pass of the disk worker: does the open for writing succeed, what
    [write] returns, does the open for reading succeed, what [read] returns,
    and the time in ms since the start of the throttling cycle when the pass
    reaches its throttle. *)
Record disk_pass := {
  open_w_ok : bool; written : Z; open_r_ok : bool; readBytes : Z; elapsed : Z
}.

Record Disk := {
  dirs : gmap string (gmap string kind);  (* directory path -> its entries *)
  nondirs : gset string;          (* paths that exist and are not directories *)
  mkdir_ok : string -> bool;      (* would mkdir(path, 0755) succeed *)
  new_ok : Z -> bool;             (* does new char[n] find the memory *)
  memalign_ok : Z -> bool;        (* does posix_memalign(.., 4096, n) *)
  disk_runs : list (list disk_pass)   (* one entry per disk worker run *)
}.

Record World := {
  now : Z;                        (* std::chrono::steady_clock, in ms *)
  wall : Z;                       (* std::chrono::system_clock, in ms *)
  log : list event;
  sys : SysFs;
  net : Net;
  mem : Mem;
  disk : Disk;
  cpu_batches : list Z
    (* one entry per CPU worker thread: how many 1000-operation batches it
       completes before it sees the stop flag or the deadline *)
}.

Definition set_log (l : list event) (w : World) : World :=
  {| now := now w; wall := wall w; log := l; sys := sys w; net := net w; mem := mem w;
     disk := disk w; cpu_batches := cpu_batches w |}.
Definition set_sys (s : SysFs) (w : World) : World :=
  {| now := now w; wall := wall w; log := log w; sys := s; net := net w; mem := mem w;
     disk := disk w; cpu_batches := cpu_batches w |}.
Definition set_net (n : Net) (w : World) : World :=
  {| now := now w; wall := wall w; log := log w; sys := sys w; net := n; mem := mem w;
     disk := disk w; cpu_batches := cpu_batches w |}.
Definition set_mem (m : Mem) (w : World) : World :=
  {| now := now w; wall := wall w; log := log w; sys := sys w; net := net w; mem := m;
     disk := disk w; cpu_batches := cpu_batches w |}.
Definition set_disk (d : Disk) (w : World) : World :=
  {| now := now w; wall := wall w; log := log w; sys := sys w; net := net w; mem := mem w;
     disk := d; cpu_batches := cpu_batches w |}.
Definition set_cpu_batches (b : list Z) (w : World) : World :=
  {| now := now w; wall := wall w; log := log w; sys := sys w; net := net w; mem := mem w;
     disk := disk w; cpu_batches := b |}.

Definition set_now (t : Z) (w : World) : World :=
  {| now := t; wall := wall w; log := log w; sys := sys w; net := net w; mem := mem w;
     disk := disk w; cpu_batches := cpu_batches w |}.

Definition emit (e : event) (w : World) : World := set_log (log w ++ [e]) w.

Definition set_attrs (a : gmap string string) (s : SysFs) : SysFs :=
  {| attrs := a; readonly := readonly s; cpu_dirs := cpu_dirs s;
     nprocessors_conf := nprocessors_conf s;
     nprocessors_onln := nprocessors_onln s; drift := drift s |}.
Definition set_drift (d : list (list (list (string * string)))) (s : SysFs) : SysFs :=
  {| attrs := attrs s; readonly := readonly s; cpu_dirs := cpu_dirs s;
     nprocessors_conf := nprocessors_conf s;
     nprocessors_onln := nprocessors_onln s; drift := d |}.

(** [std::thread::join] on a thread whose body has no effect left to
    account for. *)
Definition joined (owner : string) (w : World) : World := emit (EvJoin owner) w.

(* --------------------------------------------------------------------- *)
(** ** sysfs access, shared by the thermal generator and the throttle     *)
(* --------------------------------------------------------------------- *)

Definition writable (path : string) (w : World) : bool :=
  bool_decide (path ∈ dom (attrs (sys w))) &&
  negb (bool_decide (path ∈ readonly (sys w))).

(** [readSysFile]: the empty string when the file cannot be opened, else its first line
    without surrounding blanks. *)
Definition readSysFile (path : string) (w : World) : string :=
  match attrs (sys w) !! path with
  | None => EmptyString
  | Some content => Str.trim (Str.getline content)
  end.

(** [writeSysFile]: false, and nothing changed, when the file cannot be
    opened for writing.  A file that opens takes the value: the source
    samples [file.good()] before [close()] flushes, so a value that the
    kernel refuses at the flush is reported as written; sysfs here has no
    such file, and [writable] reads "opens and takes the write". *)
Definition writeSysFile (path value : string) (w : World) : bool * World :=
  if writable path w
  then (true, emit (EvSysWrite path value)
                (set_sys (set_attrs (<[path := value]> (attrs (sys w))) (sys w)) w))
  else (false, w).

(** The body of the write-back loops, [writeSysFile(kv.first, kv.second)]:
    the result of the write is ignored. *)
Definition write_back (w : World) (kv : string * string) : World :=
  (writeSysFile kv.1 kv.2 w).2.

Definition cpu_path (cpu : Z) (leaf : string) : string :=
  "/sys/devices/system/cpu/cpu" +:+ Str.to_string cpu +:+ leaf.

(** [getNumCores] of the thermal generator and of the throttle: the cpuN
    directories, or the configured processors when none is seen. *)
Definition getNumCores (w : World) : Z :=
  if 0 <? cpu_dirs (sys w) then cpu_dirs (sys w) else nprocessors_conf (sys w).

(* ===================================================================== *)
(** * cpu_freq_manager.cpp: the persistent frequency throttle            *)
(* ===================================================================== *)

Module CPUFreqManager.

Record t := {
  isLimited_ : bool;
  targetMaxFreq_ : Z;
  originalMaxFreq_ : Z;
  autoRestoreMs_ : Z;
  limitStartTimeMs_ : Z;
  targetCores_ : list Z;
  originalSettings_ : gmap string string;
  workerThread_ : option worker;
  workerRunning_ : bool
}.

Definition set_thread (th : option worker) (run : bool) (m : t) : t :=
  {| isLimited_ := isLimited_ m; targetMaxFreq_ := targetMaxFreq_ m;
     originalMaxFreq_ := originalMaxFreq_ m; autoRestoreMs_ := autoRestoreMs_ m;
     limitStartTimeMs_ := limitStartTimeMs_ m; targetCores_ := targetCores_ m;
     originalSettings_ := originalSettings_ m;
     workerThread_ := th; workerRunning_ := run |}.

Definition set_original (orig : gmap string string) (hwmax : Z) (m : t) : t :=
  {| isLimited_ := isLimited_ m; targetMaxFreq_ := targetMaxFreq_ m;
     originalMaxFreq_ := hwmax; autoRestoreMs_ := autoRestoreMs_ m;
     limitStartTimeMs_ := limitStartTimeMs_ m; targetCores_ := targetCores_ m;
     originalSettings_ := orig;
     workerThread_ := workerThread_ m; workerRunning_ := workerRunning_ m |}.

Definition scaling_max_freq (cpu : Z) : string :=
  cpu_path cpu "/cpufreq/scaling_max_freq".

(** The [try { return std::stol(value); } catch (...) { return 0; }] of
    [getCurrentMaxFreq] and [getHardwareMaxFreq], on the file at [path]. *)
Definition read_freq (path : string) (w : World) : Z :=
  let value := readSysFile path w in
  if Str.empty value then 0
  else match Str.stol value with Some n => n | None => 0 end.

Definition getCurrentMaxFreq (cpu : Z) (w : World) : Z :=
  read_freq (scaling_max_freq cpu) w.

Definition getHardwareMaxFreq (cpu : Z) (w : World) : Z :=
  read_freq (cpu_path cpu "/cpufreq/cpuinfo_max_freq") w.

Definition setCpuMaxFreq (cpu frequency : Z) (w : World) : bool * World :=
  writeSysFile (scaling_max_freq cpu) (Str.to_string frequency) w.

Definition getCurrentTimeMs (w : World) : Z := wall w.

Definition stopWorker (w : World) (m : t) : World * t :=
  if negb (workerRunning_ m) then (w, m)
  else
    match workerThread_ m with
    | Some _ => (joined "cpufreq" w, set_thread None false m)
    | None => (w, set_thread None false m)
    end.

Definition startWorker (w : World) (m : t) : World * t :=
  if workerRunning_ m then (w, m)
  else
    let w1 := match workerThread_ m with
              | Some _ => joined "cpufreq" w
              | None => w
              end in
    (w1, set_thread (Some Spawned) true m).

(** One pass of the snapshot loop: [originalSettings_[path] = to_string(origFreq)]
    when [origFreq > 0]. *)
Definition save_original (w : World) (orig : gmap string string) (cpu : Z)
  : gmap string string :=
  let origFreq := getCurrentMaxFreq cpu w in
  if 0 <? origFreq
  then <[scaling_max_freq cpu := Str.to_string origFreq]> orig
  else orig.

(** One pass of the loop that applies the ceiling. *)
Definition apply_one (frequency : Z) (acc : bool * World) (cpu : Z) : bool * World :=
  let '(ok, w1) := setCpuMaxFreq cpu frequency acc.2 in
  (acc.1 && ok, w1).

(** [targetCores]: the cores given, or every core [0 .. numCores-1] when the
    list is empty. *)
Definition target_cores (cores : list Z) (w : World) : list Z :=
  let numCores := getNumCores w in
  match cores with [] => seqZ 0 numCores | _ => cores end.

Definition setMaxFrequency (frequency : Z) (cores : list Z) (autoRestoreMs : Z)
    (w : World) (m : t) : bool * World * t :=
  let targetCores := target_cores cores w in
  let m1 :=
    if isLimited_ m then m
    else set_original (foldl (save_original w) ∅ targetCores)
                      (getHardwareMaxFreq 0 w) m in
  let '(allSuccess, w1) := foldl (apply_one frequency) (true, w) targetCores in
  if allSuccess then
    let m2 :=
      {| isLimited_ := true; targetMaxFreq_ := frequency;
         originalMaxFreq_ := originalMaxFreq_ m1; autoRestoreMs_ := autoRestoreMs;
         limitStartTimeMs_ := getCurrentTimeMs w1; targetCores_ := targetCores;
         originalSettings_ := originalSettings_ m1;
         workerThread_ := workerThread_ m1; workerRunning_ := workerRunning_ m1 |} in
    let '(w2, m3) := if workerRunning_ m2 then (w1, m2) else startWorker w1 m2 in
    (true, w2, m3)
  else (false, w1, m1).

Definition restore (w : World) (m : t) : bool * World * t :=
  let '(w1, m1) := stopWorker w m in
  if negb (isLimited_ m1) then (true, w1, m1)
  else
    let w2 := foldl write_back w1 (map_items (originalSettings_ m1)) in
    (true, w2,
     {| isLimited_ := false; targetMaxFreq_ := 0;
        originalMaxFreq_ := originalMaxFreq_ m1; autoRestoreMs_ := 0;
        limitStartTimeMs_ := 0; targetCores_ := [];
        originalSettings_ := ∅;
        workerThread_ := workerThread_ m1; workerRunning_ := workerRunning_ m1 |}).

(** [stopWorker] by thread [self]: when [self] is the worker, the join
    is [workerThread_.join()] on the calling thread, which fails with
    [std::system_error] (resource_deadlock_would_occur); nothing catches it. *)
Definition stopWorker_by (self : bool) (w : World) (m : t) : option (World * t) :=
  if negb (workerRunning_ m) then Some (w, m)
  else
    match workerThread_ m with
    | Some _ => if self then None else Some (joined "cpufreq" w, set_thread None false m)
    | None => Some (w, set_thread None false m)
    end.

(** [restore] by thread [self]. *)
Definition restore_by (self : bool) (w : World) (m : t) : option (bool * World * t) :=
  match stopWorker_by self w m with
  | None => None
  | Some (w1, m1) =>
      if negb (isLimited_ m1) then Some (true, w1, m1)
      else
        let w2 := foldl write_back w1 (map_items (originalSettings_ m1)) in
        Some (true, w2,
              {| isLimited_ := false; targetMaxFreq_ := 0;
                 originalMaxFreq_ := originalMaxFreq_ m1; autoRestoreMs_ := 0;
                 limitStartTimeMs_ := 0; targetCores_ := [];
                 originalSettings_ := ∅;
                 workerThread_ := workerThread_ m1; workerRunning_ := workerRunning_ m1 |})
  end.

(** One pass of the re-apply loop of [tick]. *)
Definition reapply (targetFreq : Z) (w : World) (cpu : Z) : World :=
  let currentFreq := getCurrentMaxFreq cpu w in
  if negb (currentFreq =? targetFreq) then (setCpuMaxFreq cpu targetFreq w).2 else w.

(** [tick], run by the worker thread ([self = true]) or by another thread. *)
Definition tick (self : bool) (w : World) (m : t) : option (World * t) :=
  if negb (isLimited_ m) then Some (w, m)
  else
    let autoRestore := autoRestoreMs_ m in
    if (0 <? autoRestore) && (autoRestore <=? getCurrentTimeMs w - limitStartTimeMs_ m)
    then
      match restore_by self w m with
      | None => None
      | Some (_, w1, m1) => Some (w1, m1)
      end
    else Some (foldl (reapply (targetMaxFreq_ m)) w (targetCores_ m), m).

End CPUFreqManager.

(* ===================================================================== *)
(** * stress/stressor_base.{h,cpp}                                        *)
(* ===================================================================== *)

Module StressStatus.
Record t := {
  type : string;
  isRunning : bool;
  remainingTimeMs : Z;
  data : gmap string string
}.
End StressStatus.

Module StressorBase.

Record t := {
  running_ : bool;
  startTimeMs_ : Z;
  durationMs_ : Z
}.

Definition init : t := {| running_ := false; startTimeMs_ := 0; durationMs_ := 0 |}.

Definition isRunning (b : t) : bool := running_ b.

Definition getCurrentTimeMs (w : World) : Z := now w.

(** The two subtractions are on [long]: beyond its range they wrap around
    (signed overflow, which the targets execute as two's complement). *)
Definition getRemainingTimeMs (w : World) (b : t) : Z :=
  if negb (running_ b) then 0
  else
    let elapsed := wrap_long (getCurrentTimeMs w - startTimeMs_ b) in
    let remaining := wrap_long (durationMs_ b - elapsed) in
    if 0 <? remaining then remaining else 0.

Definition setDuration (durationMs : Z) (b : t) : t :=
  {| running_ := running_ b; startTimeMs_ := startTimeMs_ b; durationMs_ := durationMs |}.

Definition markStarted (w : World) (b : t) : t :=
  {| running_ := true; startTimeMs_ := getCurrentTimeMs w; durationMs_ := durationMs_ b |}.

Definition markStopped (b : t) : t :=
  {| running_ := false; startTimeMs_ := startTimeMs_ b; durationMs_ := durationMs_ b |}.

End StressorBase.

Definition bool_string (b : bool) : string := if b then "true" else "false".

(* ===================================================================== *)
(** * stress/network_stressor.cpp                                         *)
(* ===================================================================== *)

Module NetworkStressor.
Import StressorBase.

Record Config := {
  bandwidthLimitKbps : Z;
  latencyMs : Z;
  packetLossPercent : Z;
  durationMs : Z;
  targetInterface : string
}.

Definition default_config : Config :=
  {| bandwidthLimitKbps := 0; latencyMs := 0; packetLossPercent := 0;
     durationMs := 300000; targetInterface := "wlan0" |}.

Record t := {
  base : StressorBase.t;
  config_ : Config;
  workerThread_ : option worker;
  tcRulesApplied_ : bool
}.

Definition init : t :=
  {| base := StressorBase.init; config_ := default_config;
     workerThread_ := None; tcRulesApplied_ := false |}.

Definition set_base (b : StressorBase.t) (s : t) : t :=
  {| base := b; config_ := config_ s; workerThread_ := workerThread_ s;
     tcRulesApplied_ := tcRulesApplied_ s |}.
Definition set_config (c : Config) (s : t) : t :=
  {| base := base s; config_ := c; workerThread_ := workerThread_ s;
     tcRulesApplied_ := tcRulesApplied_ s |}.
Definition set_thread (th : option worker) (s : t) : t :=
  {| base := base s; config_ := config_ s; workerThread_ := th;
     tcRulesApplied_ := tcRulesApplied_ s |}.
Definition set_applied (a : bool) (s : t) : t :=
  {| base := base s; config_ := config_ s; workerThread_ := workerThread_ s;
     tcRulesApplied_ := a |}.

(** The text of each command, as the source assembles it. *)
Definition cmd_string (c : command) : string :=
  match c with
  | WhichTc => "which tc 2>/dev/null"
  | LsSystemBinTc => "ls /system/bin/tc 2>/dev/null"
  | TcAddHtbRoot iface =>
      "tc qdisc add dev " +:+ iface +:+ " root handle 1: htb default 12"
  | TcAddHtbClass iface kbit =>
      "tc class add dev " +:+ iface +:+ " parent 1: classid 1:12 htb rate "
      +:+ Str.to_string kbit +:+ "kbit ceil " +:+ Str.to_string kbit +:+ "kbit"
  | TcAddNetem iface under_htb delay loss =>
      (if under_htb
       then "tc qdisc add dev " +:+ iface +:+ " parent 1:12 handle 10: netem"
       else "tc qdisc add dev " +:+ iface +:+ " root netem")
      +:+ (if 0 <? delay then " delay " +:+ Str.to_string delay +:+ "ms" else EmptyString)
      +:+ (if 0 <? loss then " loss " +:+ Str.to_string loss +:+ "%" else EmptyString)
  | TcDelRoot iface => "tc qdisc del dev " +:+ iface +:+ " root 2>/dev/null"
  end.

Definition set_qdisc (q : gmap string (list command)) (n : Net) : Net :=
  {| which_tc := which_tc n; ls_tc := ls_tc n; tc_accepts := tc_accepts n;
     qdisc := q |}.

Definition rules_on (iface : string) (w : World) : list command :=
  default [] (qdisc (net w) !! iface).

Definition install (iface : string) (c : command) (w : World) : World :=
  set_net (set_qdisc (<[iface := rules_on iface w ++ [c]]> (qdisc (net w))) (net w)) w.

(** What the device does with a command: exit status 0?, standard output,
    and the device afterwards.  A tc add that the kernel accepts installs
    its rule on the interface; deleting the root qdisc removes every rule
    of the interface and fails when there is none. *)
Definition run_command (c : command) (w : World) : bool * string * World :=
  match c with
  | WhichTc => (which_tc (net w), w)
  | LsSystemBinTc => (ls_tc (net w), w)
  | TcAddHtbRoot iface | TcAddHtbClass iface _ | TcAddNetem iface _ _ _ =>
      if tc_accepts (net w) c then (true, EmptyString, install iface c w)
      else (false, EmptyString, w)
  | TcDelRoot iface =>
      match rules_on iface w with
      | [] => (false, EmptyString, w)
      | _ => (true, EmptyString,
              set_net (set_qdisc (delete iface (qdisc (net w))) (net w)) w)
      end
  end.

(** [executeCommand(cmd, &output)]: popen, collect the output, pclose. *)
Definition executeCommand (c : command) (w : World) : bool * string * World :=
  run_command c (emit (EvExec (cmd_string c)) w).

Definition checkTcAvailable (w : World) : bool * World :=
  let '(ok, output, w1) := executeCommand WhichTc w in
  if ok then (negb (Str.empty output), w1)
  else
    let '(ok2, output2, w2) := executeCommand LsSystemBinTc w1 in
    (* [output] is shared by both calls and the first one may have filled it *)
    if ok2 then (negb (Str.empty (output +:+ output2)), w2)
    else (false, w2).

Definition removeTcRules (w : World) (s : t) : World * t :=
  if negb (tcRulesApplied_ s) then (w, s)
  else
    let iface := targetInterface (config_ s) in
    let '(_, _, w1) := executeCommand (TcDelRoot iface) w in
    (w1, set_applied false s).

(** The netem stage of [applyTcRules] and its end. *)
Definition apply_netem (w : World) (s : t) : bool * World * t :=
  let iface := targetInterface (config_ s) in
  let bandwidthKbps := bandwidthLimitKbps (config_ s) in
  let latency := latencyMs (config_ s) in
  let packetLoss := packetLossPercent (config_ s) in
  if (0 <? latency) || (0 <? packetLoss) then
    let '(ok, _, w1) :=
      executeCommand (TcAddNetem iface (0 <? bandwidthKbps) latency packetLoss) w in
    if negb ok then
      let '(w2, s2) := removeTcRules w1 s in (false, w2, s2)
    else (true, w1, set_applied true s)
  else (true, w, set_applied true s).

Definition applyTcRules (w0 : World) (s0 : t) : bool * World * t :=
  let iface := targetInterface (config_ s0) in
  let bandwidthKbps := bandwidthLimitKbps (config_ s0) in
  let latency := latencyMs (config_ s0) in
  let packetLoss := packetLossPercent (config_ s0) in
  (* First remove any existing rules *)
  let '(w, s) := removeTcRules w0 s0 in
  if (bandwidthKbps =? 0) && (latency =? 0) && (packetLoss =? 0) then
    (true, w, set_applied true s)
  else if 0 <? bandwidthKbps then
    let '(ok1, _, w1) := executeCommand (TcAddHtbRoot iface) w in
    if negb ok1 then (false, w1, s)
    else
      let '(ok2, _, w2) := executeCommand (TcAddHtbClass iface bandwidthKbps) w1 in
      if negb ok2 then
        let '(w3, s3) := removeTcRules w2 s in (false, w3, s3)
      else apply_netem w2 s
  else apply_netem w s.

(** The worker: apply the rules, idle until the flag clears or the deadline
    passes (the wait changes nothing), then mark stopped and remove. *)
Definition workerFunction (w : World) (s : t) : World * t :=
  let '(ok, w1, s1) := applyTcRules w s in
  if negb ok then (w1, set_base (markStopped (base s1)) s1)
  else removeTcRules w1 (set_base (markStopped (base s1)) s1).

Definition start (config : Config) (w : World) (s : t) : option (bool * World * t) :=
  if isRunning (base s) then Some (false, w, s)
  else
    let '(avail, w1) := checkTcAvailable w in
    if negb avail then Some (false, w1, s)
    else
      let s1 := set_config config s in
      let s2 := set_base (setDuration (durationMs config) (base s1)) s1 in
      let s3 := set_base (markStarted w1 (base s2)) s2 in
      match workerThread_ s3 with
      | Some _ => None     (* assignment to a joinable std::thread *)
      | None => Some (true, w1, set_thread (Some Spawned) s3)
      end.

(** [if (wasRunning) markStopped();] at the head of [stop]. *)
Definition request_stop (s : t) : t :=
  if isRunning (base s) then set_base (markStopped (base s)) s else s.

(** [if (workerThread_.joinable()) workerThread_.join();] *)
Definition join (w : World) (s : t) : World * t :=
  match workerThread_ s with
  | None => (w, s)
  | Some Exited => (joined "network" w, set_thread None s)
  | Some Spawned =>
      let '(w1, s1) := workerFunction w s in
      (joined "network" w1, set_thread None s1)
  end.

(** The worker reaches its end by itself (the deadline passed). *)
Definition worker_exit (w : World) (s : t) : World * t :=
  match workerThread_ s with
  | Some Spawned =>
      let '(w1, s1) := workerFunction w s in (w1, set_thread (Some Exited) s1)
  | _ => (w, s)
  end.

Definition stop (w : World) (s : t) : World * t :=
  let s1 := request_stop s in
  let '(w2, s2) := join w s1 in
  removeTcRules w2 s2.

Definition getStatus (w : World) (s : t) : StressStatus.t :=
  let running := isRunning (base s) in
  {| StressStatus.type := "network";
     StressStatus.isRunning := running;
     StressStatus.remainingTimeMs := getRemainingTimeMs w (base s);
     StressStatus.data :=
       if running then
         <["rulesApplied" := bool_string (tcRulesApplied_ s)]>
         (<["packetLossPercent" := Str.to_string (packetLossPercent (config_ s))]>
         (<["latencyMs" := Str.to_string (latencyMs (config_ s))]>
         (<["bandwidthLimitKbps" := Str.to_string (bandwidthLimitKbps (config_ s))]>
         (<["interface" := targetInterface (config_ s)]> ∅))))
       else ∅ |}.

End NetworkStressor.

(* ===================================================================== *)
(** * stress/thermal_stressor.cpp                                         *)
(* ===================================================================== *)

Module ThermalStressor.
Import StressorBase.

Record Config := {
  disableThermalThrottling : bool;
  maxFrequencyPercent : Z;
  forceAllCoresOnline : bool;
  durationMs : Z
}.

Definition default_config : Config :=
  {| disableThermalThrottling := false; maxFrequencyPercent := 100;
     forceAllCoresOnline := true; durationMs := 300000 |}.

Record t := {
  base : StressorBase.t;
  config_ : Config;
  workerThread_ : option worker;
  originalSettings_ : gmap string string;
  coresOnline_ : Z;
  totalCores_ : Z
}.

Definition init : t :=
  {| base := StressorBase.init; config_ := default_config;
     workerThread_ := None; originalSettings_ := ∅;
     coresOnline_ := 0; totalCores_ := 0 |}.

Definition set_base (b : StressorBase.t) (s : t) : t :=
  {| base := b; config_ := config_ s; workerThread_ := workerThread_ s;
     originalSettings_ := originalSettings_ s; coresOnline_ := coresOnline_ s;
     totalCores_ := totalCores_ s |}.
Definition set_thread (th : option worker) (s : t) : t :=
  {| base := base s; config_ := config_ s; workerThread_ := th;
     originalSettings_ := originalSettings_ s; coresOnline_ := coresOnline_ s;
     totalCores_ := totalCores_ s |}.
Definition set_original (o : gmap string string) (s : t) : t :=
  {| base := base s; config_ := config_ s; workerThread_ := workerThread_ s;
     originalSettings_ := o; coresOnline_ := coresOnline_ s;
     totalCores_ := totalCores_ s |}.
Definition set_coresOnline (n : Z) (s : t) : t :=
  {| base := base s; config_ := config_ s; workerThread_ := workerThread_ s;
     originalSettings_ := originalSettings_ s; coresOnline_ := n;
     totalCores_ := totalCores_ s |}.

Definition online_path (cpu : Z) : string := cpu_path cpu "/online".
Definition governor_path (cpu : Z) : string := cpu_path cpu "/cpufreq/scaling_governor".
Definition scaling_max_freq (cpu : Z) : string := cpu_path cpu "/cpufreq/scaling_max_freq".
Definition cpuinfo_max_freq (cpu : Z) : string := cpu_path cpu "/cpufreq/cpuinfo_max_freq".
Definition cpuinfo_min_freq (cpu : Z) : string := cpu_path cpu "/cpufreq/cpuinfo_min_freq".

Definition setCoreOnline (cpu : Z) (online : bool) (w : World) : bool * World :=
  if cpu =? 0 then (true, w)   (* CPU0 cannot be offlined *)
  else writeSysFile (online_path cpu) (if online then "1" else "0") w.

Definition isCoreOnline (cpu : Z) (w : World) : bool :=
  if cpu =? 0 then true        (* CPU0 is always online *)
  else Str.contains "1" (readSysFile (online_path cpu) w).

Definition getCpuGovernor (cpu : Z) (w : World) : string :=
  readSysFile (governor_path cpu) w.

Definition setCpuGovernor (cpu : Z) (governor : string) (w : World) : bool * World :=
  writeSysFile (governor_path cpu) governor w.

(** [value.empty() ? 0 : std::stol(value)], with no handler around it: an
    exception of [std::stol] ends the process. *)
Definition read_long (path : string) (w : World) : option Z :=
  let value := readSysFile path w in
  if Str.empty value then Some 0 else Str.stol value.

Definition getMaxFrequency (cpu : Z) (w : World) : option Z :=
  read_long (cpuinfo_max_freq cpu) w.

Definition getMinFrequency (cpu : Z) (w : World) : option Z :=
  read_long (cpuinfo_min_freq cpu) w.

Definition setMaxFrequency (cpu frequency : Z) (w : World) : bool * World :=
  writeSysFile (scaling_max_freq cpu) (Str.to_string frequency) w.

(** One pass of the first loop of [applySettings] (cores 1 .. numCores-1). *)
Definition force_online (ws : World * t) (cpu : Z) : World * t :=
  let '(w, s) := ws in
  let path := online_path cpu in
  let original := readSysFile path w in
  let s1 := if negb (Str.empty original)
            then set_original (<[path := original]> (originalSettings_ s)) s
            else s in
  ((setCoreOnline cpu true w).2, s1).

(** One pass of the second loop of [applySettings] (cores 0 .. numCores-1). *)
Definition pin_frequency (maxFreqPercent : Z) (ws : World * t) (cpu : Z)
  : option (World * t) :=
  let '(w, s) := ws in
  if negb (isCoreOnline cpu w) then Some (w, s)
  else
    let origGov := getCpuGovernor cpu w in
    let s1 := if negb (Str.empty origGov)
              then set_original (<[governor_path cpu := origGov]> (originalSettings_ s)) s
              else s in
    let w1 := (setCpuGovernor cpu "performance" w).2 in
    match getMaxFrequency cpu w1 with
    | None => None
    | Some maxFreq =>
      match getMinFrequency cpu w1 with
      | None => None
      | Some minFreq =>
          if (0 <? maxFreq) && (maxFreqPercent <? 100) then
            let targetFreq :=
              wrap_long (minFreq
                         + Z.quot (wrap_long (wrap_long (maxFreq - minFreq)
                                              * maxFreqPercent)) 100) in
            let s2 := set_original
                        (<[scaling_max_freq cpu := Str.to_string maxFreq]>
                           (originalSettings_ s1)) s1 in
            Some ((setMaxFrequency cpu targetFreq w1).2, s2)
          else Some (w1, s1)
      end
    end.

Definition applySettings (w : World) (s : t) : option (World * t) :=
  let numCores := totalCores_ s in
  let forceAllCores := forceAllCoresOnline (config_ s) in
  let maxFreqPercent := maxFrequencyPercent (config_ s) in
  let ws1 := if forceAllCores
             then foldl force_online (w, s) (seqZ 1 (numCores - 1))
             else (w, s) in
  foldlM (pin_frequency maxFreqPercent) ws1 (seqZ 0 numCores).

(** The system rewrote some attributes behind the generator's back. *)
Definition system_sets (w : World) (kv : string * string) : World :=
  set_sys (set_attrs (<[kv.1 := kv.2]> (attrs (sys w))) (sys w)) w.

Definition reonline (w : World) (cpu : Z) : World :=
  if negb (isCoreOnline cpu w) then (setCoreOnline cpu true w).2 else w.

(** One pass of the monitoring loop, after the system made [changes]. *)
Definition monitor (ws : World * t) (changes : list (string * string)) : World * t :=
  let '(w0, s) := ws in
  let w := foldl system_sets w0 changes in
  let total := totalCores_ s in
  let online := Z.of_nat (length (filter (fun cpu => isCoreOnline cpu w = true) (seqZ 0 total))) in
  let s1 := set_coresOnline online s in
  if forceAllCoresOnline (config_ s1) && (online <? total)
  then (foldl reonline w (seqZ 1 (total - 1)), s1)
  else (w, s1).

(** The passes the next worker run makes, taken from the device. *)
Definition next_run (w : World) : list (list (string * string)) * World :=
  match drift (sys w) with
  | [] => ([], w)
  | r :: rest => (r, set_sys (set_drift rest (sys w)) w)
  end.

Definition workerFunction (w : World) (s : t) : option (World * t) :=
  match applySettings w s with
  | None => None
  | Some (w1, s1) =>
      let '(passes, w2) := next_run w1 in
      let '(w3, s3) := foldl monitor (w2, s1) passes in
      Some (w3, set_base (markStopped (base s3)) s3)
  end.

Definition restoreSettings (w : World) (s : t) : World * t :=
  (foldl write_back w (map_items (originalSettings_ s)), set_original ∅ s).

Definition start (config : Config) (w : World) (s : t) : option (bool * World * t) :=
  if isRunning (base s) then Some (false, w, s)
  else
    let s1 :=
      {| base := markStarted w (setDuration (durationMs config) (base s));
         config_ := config; workerThread_ := workerThread_ s;
         originalSettings_ := ∅; coresOnline_ := coresOnline_ s;
         totalCores_ := getNumCores w |} in
    match workerThread_ s1 with
    | Some _ => None     (* assignment to a joinable std::thread *)
    | None => Some (true, w, set_thread (Some Spawned) s1)
    end.

(** [if (wasRunning) markStopped();] at the head of [stop]. *)
Definition request_stop (s : t) : t :=
  if isRunning (base s) then set_base (markStopped (base s)) s else s.

Definition join (w : World) (s : t) : option (World * t) :=
  match workerThread_ s with
  | None => Some (w, s)
  | Some Exited => Some (joined "thermal" w, set_thread None s)
  | Some Spawned =>
      match workerFunction w s with
      | None => None
      | Some (w1, s1) => Some (joined "thermal" w1, set_thread None s1)
      end
  end.

Definition worker_exit (w : World) (s : t) : option (World * t) :=
  match workerThread_ s with
  | Some Spawned =>
      match workerFunction w s with
      | None => None
      | Some (w1, s1) => Some (w1, set_thread (Some Exited) s1)
      end
  | _ => Some (w, s)
  end.

Definition stop (w : World) (s : t) : option (World * t) :=
  let s1 := request_stop s in
  match join w s1 with
  | None => None
  | Some (w2, s2) => Some (restoreSettings w2 s2)
  end.

Definition getStatus (w : World) (s : t) : StressStatus.t :=
  let running := isRunning (base s) in
  {| StressStatus.type := "thermal";
     StressStatus.isRunning := running;
     StressStatus.remainingTimeMs := getRemainingTimeMs w (base s);
     StressStatus.data :=
       if running then
         <["forceAllCoresOnline" := bool_string (forceAllCoresOnline (config_ s))]>
         (<["maxFrequencyPercent" := Str.to_string (maxFrequencyPercent (config_ s))]>
         (<["onlineCores" := Str.to_string (coresOnline_ s)]>
         (<["totalCores" := Str.to_string (totalCores_ s)]> ∅)))
       else ∅ |}.

End ThermalStressor.

(* ===================================================================== *)
(** * stress/memory_stressor.cpp                                          *)
(* ===================================================================== *)

Module MemoryStressor.
Import StressorBase.

Record Config := {
  targetFreeMB : Z;
  chunkSizeMB : Z;
  durationMs : Z;
  useAnonymousMmap : bool;
  lockMemory : bool
}.

Definition default_config : Config :=
  {| targetFreeMB := 100; chunkSizeMB := 10; durationMs := 300000;
     useAnonymousMmap := true; lockMemory := false |}.

Record t := {
  base : StressorBase.t;
  config_ : Config;
  workerThread_ : option worker;
  allocations_ : list Z;
  allocatedBytes_ : Z
}.

Definition init : t :=
  {| base := StressorBase.init; config_ := default_config;
     workerThread_ := None; allocations_ := []; allocatedBytes_ := 0 |}.

Definition set_base (b : StressorBase.t) (s : t) : t :=
  {| base := b; config_ := config_ s; workerThread_ := workerThread_ s;
     allocations_ := allocations_ s; allocatedBytes_ := allocatedBytes_ s |}.
Definition set_thread (th : option worker) (s : t) : t :=
  {| base := base s; config_ := config_ s; workerThread_ := th;
     allocations_ := allocations_ s; allocatedBytes_ := allocatedBytes_ s |}.
Definition set_allocations (l : list Z) (bytes : Z) (s : t) : t :=
  {| base := base s; config_ := config_ s; workerThread_ := workerThread_ s;
     allocations_ := l; allocatedBytes_ := bytes |}.

Definition set_heap (l : gmap Z Z) (a r : Z) (m : Mem) : Mem :=
  {| live := l; allocated_total := a; released_total := r;
     mem_available_mb := mem_available_mb m; mem_runs := mem_runs m |}.
Definition set_mem_runs (r : list (list (Z * option Z))) (m : Mem) : Mem :=
  {| live := live m; allocated_total := allocated_total m;
     released_total := released_total m;
     mem_available_mb := mem_available_mb m; mem_runs := r |}.

(** [static_cast<size_t>(chunkSizeMB) * 1024 * 1024] *)
Definition chunk_size (c : Config) : Z :=
  wrap_size (wrap_size (chunkSizeMB c) * 1024 * 1024).

Definition getAvailableMemoryMB (w : World) : Z := mem_available_mb (mem w).

(** [allocateChunk(size)]: [mmap] or [malloc] according to the
    configuration; [answer] is the address the system would hand out, [None]
    for [MAP_FAILED] or a null pointer.  The system never hands out the base
    of a region that is still owned. *)
Definition allocateChunk (size : Z) (answer : option Z) (w : World) : option Z * World :=
  match answer with
  | None => (None, w)
  | Some ptr =>
      match live (mem w) !! ptr with
      | Some _ => (None, w)
      | None =>
          (Some ptr,
           emit (EvMap ptr size)
             (set_mem (set_heap (<[ptr := size]> (live (mem w)))
                                (allocated_total (mem w) + size)
                                (released_total (mem w)) (mem w)) w))
      end
  end.

(** [munmap(ptr, len)] on the base of an owned region gives the region back
    and accounts [len] bytes; [free(ptr)] accounts the length the block was
    obtained with.  On any other address nothing is given back. *)
Definition munmap (ptr len : Z) (w : World) : World :=
  match live (mem w) !! ptr with
  | Some _ =>
      emit (EvUnmap ptr len)
        (set_mem (set_heap (delete ptr (live (mem w))) (allocated_total (mem w))
                           (released_total (mem w) + len) (mem w)) w)
  | None => w
  end.

Definition free (ptr : Z) (w : World) : World :=
  match live (mem w) !! ptr with
  | Some n =>
      emit (EvFree ptr)
        (set_mem (set_heap (delete ptr (live (mem w))) (allocated_total (mem w))
                           (released_total (mem w) + n) (mem w)) w)
  | None => w
  end.

(** The tail shared by both phases once a chunk was obtained: touch it,
    pin it if asked to, record it, count it. *)
Definition record_chunk (ptr chunkSize : Z) (lock : bool) (ws : World * t) : World * t :=
  let '(w, s) := ws in
  let w1 := if lock then emit (EvMlock ptr chunkSize) w else w in
  (w1, set_allocations (allocations_ s ++ [ptr])
                       (wrap_long (allocatedBytes_ s + chunkSize)) s).

(** Phase 1 over the passes its loop makes; returns the passes left for
    phase 2.  The loop is left by [break] once the available memory is at or
    below the target, or because the flag cleared or the deadline passed (no
    pass is left). *)
Fixpoint phase1 (cfg : Config) (chunkSize : Z) (passes : list (Z * option Z))
    (ws : World * t) : list (Z * option Z) * (World * t) :=
  match passes with
  | [] => ([], ws)
  | (availableMB, answer) :: rest =>
      if availableMB <=? targetFreeMB cfg then (rest, ws)
      else
        match allocateChunk chunkSize answer ws.1 with
        | (None, w1) => phase1 cfg chunkSize rest (w1, ws.2)
        | (Some ptr, w1) =>
            phase1 cfg chunkSize rest
              (record_chunk ptr chunkSize (lockMemory cfg) (w1, ws.2))
        end
  end.

(** One pass of phase 2. *)
Definition phase2 (cfg : Config) (chunkSize : Z) (ws : World * t)
    (pass : Z * option Z) : World * t :=
  let '(availableMB, answer) := pass in
  if targetFreeMB cfg + chunkSizeMB cfg <? availableMB then
    match allocateChunk chunkSize answer ws.1 with
    | (None, w1) => (w1, ws.2)
    | (Some ptr, w1) => record_chunk ptr chunkSize (lockMemory cfg) (w1, ws.2)
    end
  else ws.

(** The locked section of [releaseMemory]: read the configuration, move the
    allocation list out, clear it, zero the counter. *)
Definition take_allocations (s : t) : list Z * t :=
  (allocations_ s, set_allocations [] 0 s).

(** The loop body of [releaseMemory], outside the lock. *)
Definition release_one (cfg : Config) (w : World) (ptr : Z) : World :=
  let chunkSize := chunk_size cfg in
  let w1 := if lockMemory cfg then emit (EvMunlock ptr chunkSize) w else w in
  if useAnonymousMmap cfg then munmap ptr chunkSize w1 else free ptr w1.

Definition releaseMemory (w : World) (s : t) : World * t :=
  let '(toFree, s1) := take_allocations s in
  (foldl (release_one (config_ s)) w toFree, s1).

(** The states [releaseMemory] goes through: after the locked section, then
    after each region given back. *)
Fixpoint release_states (cfg : Config) (w : World) (s1 : t) (toFree : list Z)
  : list (World * t) :=
  (w, s1) ::
  match toFree with
  | [] => []
  | ptr :: rest => release_states cfg (release_one cfg w ptr) s1 rest
  end.

Definition releaseMemory_states (w : World) (s : t) : list (World * t) :=
  let '(toFree, s1) := take_allocations s in
  release_states (config_ s) w s1 toFree.

Definition next_run (w : World) : list (Z * option Z) * World :=
  match mem_runs (mem w) with
  | [] => ([], w)
  | r :: rest => (r, set_mem (set_mem_runs rest (mem w)) w)
  end.

Definition workerFunction (w : World) (s : t) : World * t :=
  let cfg := config_ s in
  let chunkSize := chunk_size cfg in
  let '(passes, w0) := next_run w in
  let '(rest, ws1) := phase1 cfg chunkSize passes (w0, s) in
  let '(w2, s2) := foldl (phase2 cfg chunkSize) ws1 rest in
  releaseMemory w2 (set_base (markStopped (base s2)) s2).

Definition start (config : Config) (w : World) (s : t) : option (bool * World * t) :=
  if isRunning (base s) then Some (false, w, s)
  else
    let s1 :=
      {| base := markStarted w (setDuration (durationMs config) (base s));
         config_ := config; workerThread_ := workerThread_ s;
         allocations_ := allocations_ s; allocatedBytes_ := 0 |} in
    match workerThread_ s1 with
    | Some _ => None     (* assignment to a joinable std::thread *)
    | None => Some (true, w, set_thread (Some Spawned) s1)
    end.

(** [if (wasRunning) markStopped();] at the head of [stop]. *)
Definition request_stop (s : t) : t :=
  if isRunning (base s) then set_base (markStopped (base s)) s else s.

Definition join (w : World) (s : t) : World * t :=
  match workerThread_ s with
  | None => (w, s)
  | Some Exited => (joined "memory" w, set_thread None s)
  | Some Spawned =>
      let '(w1, s1) := workerFunction w s in
      (joined "memory" w1, set_thread None s1)
  end.

Definition worker_exit (w : World) (s : t) : World * t :=
  match workerThread_ s with
  | Some Spawned =>
      let '(w1, s1) := workerFunction w s in (w1, set_thread (Some Exited) s1)
  | _ => (w, s)
  end.

Definition stop (w : World) (s : t) : World * t :=
  let s1 := request_stop s in
  let '(w2, s2) := join w s1 in
  releaseMemory w2 s2.

Definition getStatus (w : World) (s : t) : StressStatus.t :=
  let running := isRunning (base s) in
  {| StressStatus.type := "memory";
     StressStatus.isRunning := running;
     StressStatus.remainingTimeMs := getRemainingTimeMs w (base s);
     StressStatus.data :=
       if running then
         <["availableMB" := Str.to_string (getAvailableMemoryMB w)]>
         (<["targetFreeMB" := Str.to_string (targetFreeMB (config_ s))]>
         (<["allocatedMB" := Str.to_string (Z.quot (allocatedBytes_ s) (1024 * 1024))]> ∅))
       else ∅ |}.

End MemoryStressor.

(* ===================================================================== *)
(** * stress/disk_stressor.cpp                                            *)
(* ===================================================================== *)

Module DiskStressor.
Import StressorBase.

Record Config := {
  throughputMBps : Z;
  chunkSizeKB : Z;
  durationMs : Z;
  testPath : string;
  useDirectIO : bool;
  syncWrites : bool
}.

Definition default_config : Config :=
  {| throughputMBps := 5; chunkSizeKB := 100; durationMs := 300000;
     testPath := "/data/local/tmp/danr_stress";
     useDirectIO := false; syncWrites := false |}.

Record t := {
  base : StressorBase.t;
  config_ : Config;
  workerThread_ : option worker;
  bytesWritten_ : Z;
  bytesRead_ : Z
}.

Definition init : t :=
  {| base := StressorBase.init; config_ := default_config;
     workerThread_ := None; bytesWritten_ := 0; bytesRead_ := 0 |}.

Definition set_base (b : StressorBase.t) (s : t) : t :=
  {| base := b; config_ := config_ s; workerThread_ := workerThread_ s;
     bytesWritten_ := bytesWritten_ s; bytesRead_ := bytesRead_ s |}.
Definition set_config (c : Config) (s : t) : t :=
  {| base := base s; config_ := c; workerThread_ := workerThread_ s;
     bytesWritten_ := bytesWritten_ s; bytesRead_ := bytesRead_ s |}.
Definition set_thread (th : option worker) (s : t) : t :=
  {| base := base s; config_ := config_ s; workerThread_ := th;
     bytesWritten_ := bytesWritten_ s; bytesRead_ := bytesRead_ s |}.
Definition set_counters (wr rd : Z) (s : t) : t :=
  {| base := base s; config_ := config_ s; workerThread_ := workerThread_ s;
     bytesWritten_ := wr; bytesRead_ := rd |}.

Definition set_dirs (d : gmap string (gmap string kind)) (k : Disk) : Disk :=
  {| dirs := d; nondirs := nondirs k; mkdir_ok := mkdir_ok k;
     new_ok := new_ok k; memalign_ok := memalign_ok k;
     disk_runs := disk_runs k |}.
Definition set_disk_runs (r : list (list disk_pass)) (k : Disk) : Disk :=
  {| dirs := dirs k; nondirs := nondirs k; mkdir_ok := mkdir_ok k;
     new_ok := new_ok k; memalign_ok := memalign_ok k;
     disk_runs := r |}.

(** [stat(path)]: what is at [path], if anything. *)
Definition stat (path : string) (w : World) : option kind :=
  if bool_decide (path ∈ dom (dirs (disk w))) then Some Directory
  else if bool_decide (path ∈ nondirs (disk w)) then Some RegularFile
  else None.

(** [path] cut at its last slash: the text before it and the text after. *)
Fixpoint split_last (path : string) : option (string * string) :=
  match path with
  | EmptyString => None
  | String c rest =>
      match split_last rest with
      | Some (d, n) => Some (String c d, n)
      | None => if Str.code c =? 47 then Some (EmptyString, rest) else None
      end
  end.

(** [path] without its trailing slashes, which path resolution ignores. *)
Definition strip_slashes (path : string) : string :=
  String.rev (Str.drop_while (fun c => Str.code c =? 47) (String.rev path)).

(** The directory that holds [path] and the name of [path] in it: [/] for
    a path right under the root, [.] for a path without a slash; none for a
    path without a name. *)
Definition parent_dir (path : string) : option (string * string) :=
  let p := strip_slashes path in
  if Str.empty p then None
  else
    match split_last p with
    | None => Some (".", p)
    | Some (d, n) =>
        Some (if Str.empty (strip_slashes d) then "/" else strip_slashes d, n)
    end.

(** [mkdir(path, 0755) == 0].  It fails when [path] names something, when
    the directory that is to hold it is not there, when the name is taken
    in it or is [.] or [..], and when the system refuses ([mkdir_ok]).
    When it succeeds the new directory is empty and the holding directory
    has one entry more. *)
Definition mkdir (path : string) (w : World) : bool * World :=
  match stat path w, parent_dir path with
  | None, Some (parent, name) =>
      match dirs (disk w) !! parent with
      | None => (false, w)
      | Some es =>
          match es !! name with
          | Some _ => (false, w)
          | None =>
              if mkdir_ok (disk w) path
                 && negb (bool_decide (name = "." \/ name = ".."))
              then (true, set_disk
                            (set_dirs (<[path := ∅]>
                                         (<[parent := <[name := Directory]> es]>
                                            (dirs (disk w)))) (disk w)) w)
              else (false, w)
          end
      end
  | _, _ => (false, w)
  end.

Definition ensureDirectory (path : string) (w : World) : bool * World :=
  match stat path w with
  | Some Directory => (true, w)
  | Some RegularFile => (false, w)
  | None => mkdir path w
  end.

(** The entries of a directory, [None] when [opendir] fails. *)
Definition entries (dir : string) (w : World) : option (gmap string kind) :=
  dirs (disk w) !! dir.

(** [open(dir + "/" + name, O_WRONLY | O_CREAT | O_TRUNC, 0644)]: succeeds
    when the system lets it ([allowed]), the directory is there and the name
    is not taken by a directory. *)
Definition open_create (dir name : string) (allowed : bool) (w : World) : bool * World :=
  match entries dir w with
  | None => (false, w)
  | Some es =>
      match es !! name with
      | Some Directory => (false, w)
      | Some RegularFile => (allowed, w)
      | None =>
          if allowed
          then (true, emit (EvCreate (dir +:+ "/" +:+ name))
                        (set_disk (set_dirs (<[dir := <[name := RegularFile]> es]>
                                               (dirs (disk w))) (disk w)) w))
          else (false, w)
      end
  end.

(** [unlink(dir + "/" + name)]: removes a regular file, fails otherwise. *)
Definition unlink (dir name : string) (w : World) : World :=
  match entries dir w with
  | None => w
  | Some es =>
      match es !! name with
      | Some RegularFile =>
          emit (EvUnlink (dir +:+ "/" +:+ name))
            (set_disk (set_dirs (<[dir := delete name es]> (dirs (disk w))) (disk w)) w)
      | _ => w
      end
  end.

(** [chunkSize] and [targetBytesPerSecond] of the worker: [chunkSizeKB]
    converted to [size_t] and [throughputMBps] to [long], then multiplied. *)
Definition chunkSize (cfg : Config) : Z :=
  wrap_size (wrap_size (chunkSizeKB cfg) * 1024).
Definition targetBytesPerSecond (cfg : Config) : Z :=
  wrap_long (throughputMBps cfg * 1024 * 1024).

(** The buffer of the worker: [posix_memalign] under direct I/O,
    [new char[chunkSize]] otherwise and when [posix_memalign] fails.  No
    request beyond [PTRDIFF_MAX] bytes is granted.  [false]: [new] throws,
    and nothing in the thread function catches it. *)
Definition allocate_buffer (cfg : Config) (w : World) : bool :=
  let n := chunkSize cfg in
  (n <=? PTRDIFF_MAX)
  && ((useDirectIO cfg && memalign_ok (disk w) n) || new_ok (disk w) n).

(** The loop variables of the worker. *)
Record loop := { fileCounter : Z; bytesThisCycle : Z }.

(** One pass of the worker loop.  A failed open goes on with the next file
    at once.  Otherwise the pass ends with the throttle: with more bytes
    moved than expected after [elapsed] ms it computes a sleep, dividing by
    [targetBytesPerSecond]; [None] is that division with 0 as the divisor.
    (The divisor is a multiple of 2^20, never -1.)  The sleep changes
    nothing; after a second the byte count starts again from 0. *)
Definition cycle (cfg : Config) (acc : loop * (World * t)) (p : disk_pass)
  : option (loop * (World * t)) :=
  let '(l, (w, s)) := acc in
  let name := "stress_" +:+ Str.to_string (fileCounter l) +:+ ".tmp" in
  let next := wrap_int (fileCounter l + 1) in
  let '(opened, w1) := open_create (testPath cfg) name (open_w_ok p) w in
  if negb opened
  then Some ({| fileCounter := next; bytesThisCycle := bytesThisCycle l |}, (w1, s))
  else
    let wr := if 0 <? written p then wrap_long (bytesWritten_ s + written p)
              else bytesWritten_ s in
    let b1 := if 0 <? written p then wrap_long (bytesThisCycle l + written p)
              else bytesThisCycle l in
    let rd := if open_r_ok p && (0 <? readBytes p)
              then wrap_long (bytesRead_ s + readBytes p)
              else bytesRead_ s in
    let b2 := if open_r_ok p && (0 <? readBytes p)
              then wrap_long (b1 + readBytes p)
              else b1 in
    let w2 := unlink (testPath cfg) name w1 in
    let expectedBytes :=
      Z.quot (wrap_long (targetBytesPerSecond cfg * elapsed p)) 1000 in
    if (0 <? elapsed p) && (expectedBytes <? b2) && (targetBytesPerSecond cfg =? 0)
    then None
    else Some ({| fileCounter := next;
                  bytesThisCycle := if 1000 <=? elapsed p then 0 else b2 |},
               (w2, set_counters wr rd s)).

(** The test of [cleanup] on a directory entry. *)
Definition is_temp (name : string) : bool :=
  Str.contains "stress_" name && Str.contains ".tmp" name.

Definition cleanup (w : World) (s : t) : World :=
  let dir := testPath (config_ s) in
  match entries dir w with
  | None => w
  | Some es =>
      foldl (fun w1 name => unlink dir name w1) w
            (filter (fun name => is_temp name = true) (map_items es).*1)
  end.

Definition next_run (w : World) : list disk_pass * World :=
  match disk_runs (disk w) with
  | [] => ([], w)
  | r :: rest => (r, set_disk (set_disk_runs rest (disk w)) w)
  end.

(** [None]: the worker ends the process, at its buffer or in a pass. *)
Definition workerFunction (w : World) (s : t) : option (World * t) :=
  let cfg := config_ s in
  if negb (allocate_buffer cfg w) then None
  else
    let '(passes, w0) := next_run w in
    match foldlM (cycle cfg)
                 ({| fileCounter := 0; bytesThisCycle := 0 |}, (w0, s)) passes with
    | None => None
    | Some (_, (w1, s1)) =>
        let s2 := set_base (markStopped (base s1)) s1 in
        Some (cleanup w1 s2, s2)
    end.

Definition start (config : Config) (w : World) (s : t) : option (bool * World * t) :=
  if isRunning (base s) then Some (false, w, s)
  else
    let s1 := set_config config s in
    let '(ok, w1) := ensureDirectory (testPath config) w in
    if negb ok then Some (false, w1, s1)
    else
      let s2 :=
        {| base := markStarted w1 (setDuration (durationMs config) (base s1));
           config_ := config_ s1; workerThread_ := workerThread_ s1;
           bytesWritten_ := 0; bytesRead_ := 0 |} in
      match workerThread_ s2 with
      | Some _ => None     (* assignment to a joinable std::thread *)
      | None => Some (true, w1, set_thread (Some Spawned) s2)
      end.

(** [if (wasRunning) markStopped();] at the head of [stop]. *)
Definition request_stop (s : t) : t :=
  if isRunning (base s) then set_base (markStopped (base s)) s else s.

Definition join (w : World) (s : t) : option (World * t) :=
  match workerThread_ s with
  | None => Some (w, s)
  | Some Exited => Some (joined "disk_io" w, set_thread None s)
  | Some Spawned =>
      match workerFunction w s with
      | None => None
      | Some (w1, s1) => Some (joined "disk_io" w1, set_thread None s1)
      end
  end.

Definition worker_exit (w : World) (s : t) : option (World * t) :=
  match workerThread_ s with
  | Some Spawned =>
      match workerFunction w s with
      | None => None
      | Some (w1, s1) => Some (w1, set_thread (Some Exited) s1)
      end
  | _ => Some (w, s)
  end.

Definition stop (w : World) (s : t) : option (World * t) :=
  let s1 := request_stop s in
  match join w s1 with
  | None => None
  | Some (w2, s2) => Some (cleanup w2 s2, s2)
  end.

Definition getStatus (w : World) (s : t) : StressStatus.t :=
  let running := isRunning (base s) in
  {| StressStatus.type := "disk_io";
     StressStatus.isRunning := running;
     StressStatus.remainingTimeMs := getRemainingTimeMs w (base s);
     StressStatus.data :=
       if running then
         <["throughputMBps" := Str.to_string (throughputMBps (config_ s))]>
         (<["bytesReadMB" := Str.to_string (Z.quot (bytesRead_ s) (1024 * 1024))]>
         (<["bytesWrittenMB" := Str.to_string (Z.quot (bytesWritten_ s) (1024 * 1024))]> ∅))
       else ∅ |}.

End DiskStressor.

(* ===================================================================== *)
(** * stress/cpu_stressor.cpp                                             *)
(* ===================================================================== *)

Module CPUStressor.
Import StressorBase.

Record Config := {
  threadCount : Z;
  loadPercentage : Z;
  durationMs : Z;
  pinToCores : bool;
  targetCores : list Z
}.

Definition default_config : Config :=
  {| threadCount := 4; loadPercentage := 100; durationMs := 300000;
     pinToCores := false; targetCores := [] |}.

(** An element of [workerThreads_]: a joinable thread started as
    [workerFunction(threadId, coreId)]. *)
Record thread := { state : worker; threadId : Z; coreId : Z }.

Record t := {
  base : StressorBase.t;
  config_ : Config;
  workerThreads_ : list thread;
  totalOpsCompleted_ : Z
}.

Definition init : t :=
  {| base := StressorBase.init; config_ := default_config;
     workerThreads_ := []; totalOpsCompleted_ := 0 |}.

Definition set_base (b : StressorBase.t) (s : t) : t :=
  {| base := b; config_ := config_ s; workerThreads_ := workerThreads_ s;
     totalOpsCompleted_ := totalOpsCompleted_ s |}.
Definition set_threads (l : list thread) (s : t) : t :=
  {| base := base s; config_ := config_ s; workerThreads_ := l;
     totalOpsCompleted_ := totalOpsCompleted_ s |}.
Definition set_ops (n : Z) (s : t) : t :=
  {| base := base s; config_ := config_ s; workerThreads_ := workerThreads_ s;
     totalOpsCompleted_ := n |}.

Definition getNumCores (w : World) : Z :=
  if 0 <? nprocessors_onln (sys w) then nprocessors_onln (sys w) else 4.

(** The core given to thread [i] by the loop of [start]. *)
Definition core_for (config : Config) (numCores i : Z) : Z :=
  if pinToCores config && negb (bool_decide (targetCores config = [])) then
    default 0 (targetCores config
                 !! Z.to_nat (Z.rem i (Z.of_nat (length (targetCores config)))))
  else if pinToCores config then Z.rem i numCores
  else -1.


Definition next_batches (w : World) : Z * World :=
  match cpu_batches w with
  | [] => (0, w)
  | n :: rest => (n, set_cpu_batches rest w)
  end.

(** The body of one worker thread: [batches] times 1000 operations, then
    [markStopped].  Pinning and sleeping change nothing here. *)
Definition workerFunction (w : World) (s : t) : World * t :=
  let '(batches, w1) := next_batches w in
  let s1 := Nat.iter (Z.to_nat batches)
              (fun s0 => set_ops (wrap_long (totalOpsCompleted_ s0 + 1000)) s0) s in
  (w1, set_base (markStopped (base s1)) s1).

Definition start (config : Config) (w : World) (s : t) : option (bool * World * t) :=
  if isRunning (base s) then Some (false, w, s)
  else
    let numCores := getNumCores w in
    match workerThreads_ s with
    | _ :: _ => None       (* clear() destroys joinable std::thread objects *)
    | [] =>
        let threads :=
          (fun i => {| state := Spawned; threadId := i;
                       coreId := core_for config numCores i |})
            <$> seqZ 0 (threadCount config) in
        Some (true, w,
              {| base := markStarted w (setDuration (durationMs config) (base s));
                 config_ := config; workerThreads_ := threads;
                 totalOpsCompleted_ := 0 |})
    end.

(** [if (wasRunning) markStopped();] at the head of [stop]. *)
Definition request_stop (s : t) : t :=
  if isRunning (base s) then set_base (markStopped (base s)) s else s.

(** [if (thread.joinable()) thread.join();] for one element of the vector. *)
Definition join_one (ws : World * t) (th : thread) : World * t :=
  let '(w, s) := ws in
  match state th with
  | Exited => (joined "cpu" w, s)
  | Spawned =>
      let '(w1, s1) := workerFunction w s in (joined "cpu" w1, s1)
  end.

(** Every worker reaches its end by itself (the deadline passed). *)
Definition exit_one (ws : World * t) (th : thread) : World * t :=
  match state th with
  | Exited => ws
  | Spawned => workerFunction ws.1 ws.2
  end.

Definition worker_exit (w : World) (s : t) : World * t :=
  let '(w1, s1) := foldl exit_one (w, s) (workerThreads_ s) in
  (w1, set_threads ((fun th => {| state := Exited; threadId := threadId th;
                                  coreId := coreId th |}) <$> workerThreads_ s) s1).

Definition stop (w : World) (s : t) : World * t :=
  let s1 := request_stop s in
  let '(w2, s2) := foldl join_one (w, s1) (workerThreads_ s1) in
  (w2, set_threads [] s2).

Definition getStatus (w : World) (s : t) : StressStatus.t :=
  let running := isRunning (base s) in
  {| StressStatus.type := "cpu";
     StressStatus.isRunning := running;
     StressStatus.remainingTimeMs := getRemainingTimeMs w (base s);
     StressStatus.data :=
       if running then
         <["opsCompleted" := Str.to_string (totalOpsCompleted_ s)]>
         (<["loadPercentage" := Str.to_string (loadPercentage (config_ s))]>
         (<["threadCount" := Str.to_string (threadCount (config_ s))]> ∅))
       else ∅ |}.

End CPUStressor.

(* ===================================================================== *)
(** * The generator family behind the [StressorBase] interface           *)
(* ===================================================================== *)

(** The five classes derived from [StressorBase], and the virtual calls
    resolved on each. *)
Inductive StressorKind := Cpu | Memory | DiskIo | Network | Thermal.

Module Stressor.

Definition state (k : StressorKind) : Type :=
  match k with
  | Cpu => CPUStressor.t
  | Memory => MemoryStressor.t
  | DiskIo => DiskStressor.t
  | Network => NetworkStressor.t
  | Thermal => ThermalStressor.t
  end.

Definition config (k : StressorKind) : Type :=
  match k with
  | Cpu => CPUStressor.Config
  | Memory => MemoryStressor.Config
  | DiskIo => DiskStressor.Config
  | Network => NetworkStressor.Config
  | Thermal => ThermalStressor.Config
  end.

Definition base (k : StressorKind) : state k -> StressorBase.t :=
  match k with
  | Cpu => CPUStressor.base
  | Memory => MemoryStressor.base
  | DiskIo => DiskStressor.base
  | Network => NetworkStressor.base
  | Thermal => ThermalStressor.base
  end.

Definition config_ (k : StressorKind) : state k -> config k :=
  match k with
  | Cpu => CPUStressor.config_
  | Memory => MemoryStressor.config_
  | DiskIo => DiskStressor.config_
  | Network => NetworkStressor.config_
  | Thermal => ThermalStressor.config_
  end.

Definition isRunning (k : StressorKind) (s : state k) : bool :=
  StressorBase.isRunning (base k s).

Definition getType (k : StressorKind) : string :=
  match k with
  | Cpu => "cpu"
  | Memory => "memory"
  | DiskIo => "disk_io"
  | Network => "network"
  | Thermal => "thermal"
  end.

Definition start (k : StressorKind)
  : config k -> World -> state k -> option (bool * World * state k) :=
  match k with
  | Cpu => CPUStressor.start
  | Memory => MemoryStressor.start
  | DiskIo => DiskStressor.start
  | Network => NetworkStressor.start
  | Thermal => ThermalStressor.start
  end.

Definition stop (k : StressorKind) : World -> state k -> option (World * state k) :=
  match k with
  | Cpu => fun w s => Some (CPUStressor.stop w s)
  | Memory => fun w s => Some (MemoryStressor.stop w s)
  | DiskIo => DiskStressor.stop
  | Network => fun w s => Some (NetworkStressor.stop w s)
  | Thermal => ThermalStressor.stop
  end.

Definition getStatus (k : StressorKind) : World -> state k -> StressStatus.t :=
  match k with
  | Cpu => CPUStressor.getStatus
  | Memory => MemoryStressor.getStatus
  | DiskIo => DiskStressor.getStatus
  | Network => NetworkStressor.getStatus
  | Thermal => ThermalStressor.getStatus
  end.

(** The worker threads of the generator that are joinable. *)
Definition threads (k : StressorKind) : state k -> list worker :=
  match k with
  | Cpu => fun s => CPUStressor.state <$> CPUStressor.workerThreads_ s
  | Memory => fun s => option_list (MemoryStressor.workerThread_ s)
  | DiskIo => fun s => option_list (DiskStressor.workerThread_ s)
  | Network => fun s => option_list (NetworkStressor.workerThread_ s)
  | Thermal => fun s => option_list (ThermalStressor.workerThread_ s)
  end.

(** The worker threads reach their end by themselves. *)
Definition worker_exit (k : StressorKind) : World -> state k -> option (World * state k) :=
  match k with
  | Cpu => fun w s => Some (CPUStressor.worker_exit w s)
  | Memory => fun w s => Some (MemoryStressor.worker_exit w s)
  | DiskIo => DiskStressor.worker_exit
  | Network => fun w s => Some (NetworkStressor.worker_exit w s)
  | Thermal => ThermalStressor.worker_exit
  end.

(** What [stop] has to undo: is there anything the generator still holds
    (rules marked applied, a snapshot to write back, regions to give back,
    temp files in the test directory)? *)
Definition holds_nothing (k : StressorKind) : World -> state k -> Prop :=
  match k with
  | Cpu => fun _ _ => True
  | Memory => fun _ s => MemoryStressor.allocations_ s = []
                         /\ MemoryStressor.allocatedBytes_ s = 0
  | DiskIo => fun w s =>
      forall es name,
        DiskStressor.entries (DiskStressor.testPath (DiskStressor.config_ s)) w = Some es ->
        DiskStressor.is_temp name = true -> es !! name <> Some RegularFile
  | Network => fun _ s => NetworkStressor.tcRulesApplied_ s = false
  | Thermal => fun _ s => ThermalStressor.originalSettings_ s = ∅
  end.

(** The restoration step at the end of [stop]. *)
Definition cleanup (k : StressorKind) : World -> state k -> World * state k :=
  match k with
  | Cpu => fun w s => (w, CPUStressor.set_threads [] s)
  | Memory => MemoryStressor.releaseMemory
  | DiskIo => fun w s => (DiskStressor.cleanup w s, s)
  | Network => NetworkStressor.removeTcRules
  | Thermal => ThermalStressor.restoreSettings
  end.

(** The thread objects after their joins. *)
Definition detach (k : StressorKind) : state k -> state k :=
  match k with
  | Cpu => fun s => s
  | Memory => MemoryStressor.set_thread None
  | DiskIo => DiskStressor.set_thread None
  | Network => NetworkStressor.set_thread None
  | Thermal => ThermalStressor.set_thread None
  end.

(** [if (wasRunning) markStopped();] at the head of [stop]. *)
Definition request_stop (k : StressorKind) : state k -> state k :=
  match k with
  | Cpu => CPUStressor.request_stop
  | Memory => MemoryStressor.request_stop
  | DiskIo => DiskStressor.request_stop
  | Network => NetworkStressor.request_stop
  | Thermal => ThermalStressor.request_stop
  end.

(** The device after the joins of [stop] when every worker has exited. *)
Definition joins (k : StressorKind) (s : state k) (w : World) : World :=
  foldl (fun w1 _ => joined (getType k) w1) w (threads k s).

(** A worker that [stop] waits for ends the process: the thermal worker
    when [std::stol] throws in [applySettings], the disk worker at its
    buffer or in the division of its throttle. *)
Definition worker_aborts (k : StressorKind) : World -> state k -> Prop :=
  match k with
  | Thermal => fun w s =>
      ThermalStressor.workerThread_ s = Some Spawned
      /\ ThermalStressor.workerFunction w (ThermalStressor.request_stop s) = None
  | DiskIo => fun w s =>
      DiskStressor.workerThread_ s = Some Spawned
      /\ DiskStressor.workerFunction w (DiskStressor.request_stop s) = None
  | _ => fun _ _ => False
  end.

End Stressor.

(* ===================================================================== *)
(** * stress/stress_manager.cpp                                           *)
(* ===================================================================== *)

Module StressManager.

Record t := {
  cpuStressor_ : CPUStressor.t;
  memoryStressor_ : MemoryStressor.t;
  diskStressor_ : DiskStressor.t;
  networkStressor_ : NetworkStressor.t;
  thermalStressor_ : ThermalStressor.t
}.

Definition init : t :=
  {| cpuStressor_ := CPUStressor.init; memoryStressor_ := MemoryStressor.init;
     diskStressor_ := DiskStressor.init; networkStressor_ := NetworkStressor.init;
     thermalStressor_ := ThermalStressor.init |}.

Definition get (k : StressorKind) : t -> Stressor.state k :=
  match k with
  | Cpu => cpuStressor_
  | Memory => memoryStressor_
  | DiskIo => diskStressor_
  | Network => networkStressor_
  | Thermal => thermalStressor_
  end.

Definition set (k : StressorKind) : Stressor.state k -> t -> t :=
  match k with
  | Cpu => fun s m =>
      {| cpuStressor_ := s; memoryStressor_ := memoryStressor_ m;
         diskStressor_ := diskStressor_ m; networkStressor_ := networkStressor_ m;
         thermalStressor_ := thermalStressor_ m |}
  | Memory => fun s m =>
      {| cpuStressor_ := cpuStressor_ m; memoryStressor_ := s;
         diskStressor_ := diskStressor_ m; networkStressor_ := networkStressor_ m;
         thermalStressor_ := thermalStressor_ m |}
  | DiskIo => fun s m =>
      {| cpuStressor_ := cpuStressor_ m; memoryStressor_ := memoryStressor_ m;
         diskStressor_ := s; networkStressor_ := networkStressor_ m;
         thermalStressor_ := thermalStressor_ m |}
  | Network => fun s m =>
      {| cpuStressor_ := cpuStressor_ m; memoryStressor_ := memoryStressor_ m;
         diskStressor_ := diskStressor_ m; networkStressor_ := s;
         thermalStressor_ := thermalStressor_ m |}
  | Thermal => fun s m =>
      {| cpuStressor_ := cpuStressor_ m; memoryStressor_ := memoryStressor_ m;
         diskStressor_ := diskStressor_ m; networkStressor_ := networkStressor_ m;
         thermalStressor_ := s |}
  end.

(** [std::lock_guard<std::mutex> lock(mutex_);] and the end of its scope. *)
Definition lock (w : World) : World := emit EvLock w.
Definition unlock (w : World) : World := emit EvUnlock w.

(** [{ lock_guard lock(mutex_); return xStressor_->start(config); }] *)
Definition start_stress (k : StressorKind) (config : Stressor.config k)
    (w : World) (m : t) : option (bool * World * t) :=
  match Stressor.start k config (lock w) (get k m) with
  | None => None
  | Some (r, w1, s) => Some (r, unlock w1, set k s m)
  end.

(** [{ lock_guard lock(mutex_); xStressor_->stop(); }] *)
Definition stop_stress (k : StressorKind) (w : World) (m : t) : option (World * t) :=
  match Stressor.stop k (lock w) (get k m) with
  | None => None
  | Some (w1, s) => Some (unlock w1, set k s m)
  end.

(** [{ lock_guard lock(mutex_); return xStressor_->getStatus(); }] *)
Definition get_status (k : StressorKind) (w : World) (m : t) : StressStatus.t * World :=
  let w1 := lock w in
  (Stressor.getStatus k w1 (get k m), unlock w1).

Definition startCpuStress := start_stress Cpu.
Definition stopCpuStress := stop_stress Cpu.
Definition getCpuStatus := get_status Cpu.
Definition startMemoryStress := start_stress Memory.
Definition stopMemoryStress := stop_stress Memory.
Definition getMemoryStatus := get_status Memory.
Definition startDiskStress := start_stress DiskIo.
Definition stopDiskStress := stop_stress DiskIo.
Definition getDiskStatus := get_status DiskIo.
Definition startNetworkStress := start_stress Network.
Definition stopNetworkStress := stop_stress Network.
Definition getNetworkStatus := get_status Network.
Definition startThermalStress := start_stress Thermal.
Definition stopThermalStress := stop_stress Thermal.
Definition getThermalStatus := get_status Thermal.

(** One [xStressor_->stop()] of [stopAll], inside its lock. *)
Definition stop_next (acc : World * t) (k : StressorKind) : option (World * t) :=
  match Stressor.stop k acc.1 (get k acc.2) with
  | None => None
  | Some (w1, s) => Some (w1, set k s acc.2)
  end.

Definition stopAll (w : World) (m : t) : option (World * t) :=
  match foldlM stop_next (lock w, m) [Cpu; Memory; DiskIo; Network; Thermal] with
  | None => None
  | Some (w1, m1) => Some (unlock w1, m1)
  end.

Definition isAnyRunning (w : World) (m : t) : bool * World :=
  let w1 := lock w in
  (Stressor.isRunning Cpu (cpuStressor_ m) ||
   Stressor.isRunning Memory (memoryStressor_ m) ||
   Stressor.isRunning DiskIo (diskStressor_ m) ||
   Stressor.isRunning Network (networkStressor_ m) ||
   Stressor.isRunning Thermal (thermalStressor_ m),
   unlock w1).

End StressManager.

(** Does a thread block or work on the device while the orchestrator's lock
    is held?  [held] says whether the lock is held before the first event. *)
Definition blocking (e : event) : bool :=
  match e with
  | EvLock | EvUnlock => false
  | _ => true
  end.

Fixpoint blocks_under_lock (held : bool) (l : list event) : bool :=
  match l with
  | [] => false
  | EvLock :: rest => blocks_under_lock true rest
  | EvUnlock :: rest => blocks_under_lock false rest
  | e :: rest => (held && blocking e) || blocks_under_lock held rest
  end.

(* ===================================================================== *)
(** * A concrete device, for the examples                                 *)
(* ===================================================================== *)

Module Example.

(** Two cores; both are capped by the vendor at 1.5 GHz, below the
    hardware maximum of 2 GHz; core 1 is online. *)
Definition core_files (cpu : Z) : list (string * string) :=
  [ (cpu_path cpu "/cpufreq/scaling_governor", "schedutil");
    (cpu_path cpu "/cpufreq/scaling_max_freq", "1500000");
    (cpu_path cpu "/cpufreq/cpuinfo_max_freq", "2000000");
    (cpu_path cpu "/cpufreq/cpuinfo_min_freq", "500000") ].

Definition sysfs : SysFs :=
  {| attrs := list_to_map (core_files 0 ++ (cpu_path 1 "/online", "1") :: core_files 1);
     readonly := {[ cpu_path 0 "/cpufreq/cpuinfo_max_freq";
                    cpu_path 0 "/cpufreq/cpuinfo_min_freq";
                    cpu_path 1 "/cpufreq/cpuinfo_max_freq";
                    cpu_path 1 "/cpufreq/cpuinfo_min_freq" ]};
     cpu_dirs := 2; nprocessors_conf := 2; nprocessors_onln := 2;
     drift := [] |}.

(** tc is installed; the kernel takes qdiscs but refuses htb classes. *)
Definition network : Net :=
  {| which_tc := (true, "/system/bin/tc"); ls_tc := (true, "/system/bin/tc");
     tc_accepts := fun c => match c with TcAddHtbClass _ _ => false | _ => true end;
     qdisc := ∅ |}.

(** The next memory worker makes three passes: two allocations in phase 1
    until the target is reached, none after. *)
Definition memory : Mem :=
  {| live := ∅; allocated_total := 0; released_total := 0;
     mem_available_mb := 900;
     mem_runs := [[(900, Some 4096); (500, Some 8192); (90, None)]] |}.

(** [/data/local/tmp] holds a regular file named [notes]. *)
Definition storage : Disk :=
  {| dirs := {[ "/data/local/tmp" := {[ "notes" := RegularFile ]} ]};
     nondirs := {[ "/data/local/tmp/notes" ]};
     mkdir_ok := fun path => bool_decide (path = "/data/local/tmp/danr_stress");
     new_ok := fun _ => true; memalign_ok := fun _ => true;
     disk_runs := [] |}.

Definition device : World :=
  {| now := 1000; wall := 1700000000000; log := []; sys := sysfs; net := network; mem := memory;
     disk := storage; cpu_batches := [] |}.

(** A device with nothing on it: no sysfs file, no tc, no memory oracle, an
    empty file system. *)
Definition bare : World :=
  {| now := 0; wall := 0; log := [];
     sys := {| attrs := ∅; readonly := ∅; cpu_dirs := 0; nprocessors_conf := 0;
               nprocessors_onln := 0; drift := [] |};
     net := {| which_tc := (false, EmptyString); ls_tc := (false, EmptyString);
               tc_accepts := fun _ => false; qdisc := ∅ |};
     mem := {| live := ∅; allocated_total := 0; released_total := 0;
               mem_available_mb := 0; mem_runs := [] |};
     disk := {| dirs := ∅; nondirs := ∅; mkdir_ok := fun _ => false;
                new_ok := fun _ => true; memalign_ok := fun _ => true;
                disk_runs := [] |};
     cpu_batches := [] |}.

End Example.

(* ===================================================================== *)
(** * Vocabulary of the properties                                        *)
(* ===================================================================== *)

(** The snapshot loop stores, under the path of a core, the ceiling read
    from that path. *)
Definition captured (w : World) (path : string) : string :=
  Str.to_string (CPUFreqManager.read_freq path w).

(** The throttle as its constructor leaves it on the example device. *)
Definition throttle0 : CPUFreqManager.t :=
  {| CPUFreqManager.isLimited_ := false;
     CPUFreqManager.targetMaxFreq_ := 0;
     CPUFreqManager.originalMaxFreq_ := CPUFreqManager.getHardwareMaxFreq 0 Example.device;
     CPUFreqManager.autoRestoreMs_ := 0;
     CPUFreqManager.limitStartTimeMs_ := 0;
     CPUFreqManager.targetCores_ := [];
     CPUFreqManager.originalSettings_ := ∅;
     CPUFreqManager.workerThread_ := None;
     CPUFreqManager.workerRunning_ := false |}.

(** The memory generator of the example device, started and not yet
    stopped, refuses a second start. *)
Definition memory_running : MemoryStressor.t :=
  match MemoryStressor.start MemoryStressor.default_config Example.device
          MemoryStressor.init with
  | Some (_, _, s) => s
  | None => MemoryStressor.init
  end.

(** The two commands by which [checkTcAvailable] looks for tc. *)
Definition probe (e : event) : Prop :=
  e = EvExec "which tc 2>/dev/null" \/ e = EvExec "ls /system/bin/tc 2>/dev/null".

(** The example device without tc: [which] finds nothing, [ls] fails. *)
Definition device_without_tc : World :=
  set_net {| which_tc := (true, EmptyString); ls_tc := (false, EmptyString);
             tc_accepts := fun _ => true; qdisc := ∅ |} Example.device.

(** A whole run of a generator: start on [w], then stop. *)
Definition run (k : StressorKind) (config : Stressor.config k) (w : World)
    (s : Stressor.state k) : option (World * Stressor.state k) :=
  match Stressor.start k config w s with
  | Some (_, w1, s1) => Stressor.stop k w1 s1
  | None => None
  end.


(** The thermal generator on the example device, started at 50 percent and
    left alone until its worker has reached the deadline and exited. *)
Definition thermal_expired : World * ThermalStressor.t :=
  let config :=
    {| ThermalStressor.disableThermalThrottling := false;
       ThermalStressor.maxFrequencyPercent := 50;
       ThermalStressor.forceAllCoresOnline := true;
       ThermalStressor.durationMs := 60000 |} in
  match ThermalStressor.start config Example.device ThermalStressor.init with
  | Some (_, w1, s1) =>
      match ThermalStressor.worker_exit w1 s1 with
      | Some ws => ws
      | None => (w1, s1)
      end
  | None => (Example.device, ThermalStressor.init)
  end.

(** The heap while the memory worker runs, against the device [w0] it
    started on: the regions recorded in [l] are distinct, owned with length
    [len] and were not owned in [w0]; nothing else changed; the bytes
    obtained since are those of [l] and nothing was given back. *)
Definition heap_inv (len : Z) (w0 w : World) (l : list Z) : Prop :=
  NoDup l
  /\ (forall p, p ∈ l -> live (mem w0) !! p = None)
  /\ (forall q, live (mem w) !! q
                = if bool_decide (q ∈ l) then Some len else live (mem w0) !! q)
  /\ allocated_total (mem w) = allocated_total (mem w0) + len * Z.of_nat (length l)
  /\ released_total (mem w) = released_total (mem w0).

(** The memory generator of the example device after phase 1 of its run. *)
Definition memory_after_phase1 : World * MemoryStressor.t :=
  (MemoryStressor.phase1 MemoryStressor.default_config
     (MemoryStressor.chunk_size MemoryStressor.default_config)
     [(900, Some 4096); (500, Some 8192); (90, None)]
     (Example.device, memory_running)).2.

(** The order the claim gives to [releaseMemory]: in every state it goes
    through in which the allocation list is clear, each region that was
    recorded has been given back. *)
Definition released_before_cleared (w : World) (s : MemoryStressor.t) : Prop :=
  forall st, st ∈ MemoryStressor.releaseMemory_states w s ->
    MemoryStressor.allocations_ st.2 = [] ->
    forall p, p ∈ MemoryStressor.allocations_ s -> live (mem st.1) !! p = None.

(** Between [w] and [w1] the memory generator obtained [n] regions of [len]
    bytes and gave all of them back: the bytes obtained and the bytes
    released since [w] are both [len * n], and the regions owned are those
    of [w] again. *)
Definition balanced (len : Z) (w w1 : World) (n : nat) : Prop :=
  live (mem w1) = live (mem w)
  /\ allocated_total (mem w1) - allocated_total (mem w) = len * Z.of_nat n
  /\ released_total (mem w1) - released_total (mem w) = len * Z.of_nat n.

(** [w1] is [w] after some steps of the generators: its log is the log of
    [w] followed by [evs], none of which is an operation on the
    orchestrator's lock. *)
Definition appends (w w1 : World) (evs : list event) : Prop :=
  log w1 = log w ++ evs /\ Forall (fun e => blocking e = true) evs.

Definition extends (w w1 : World) : Prop := exists evs, appends w w1 evs.

(** The CPU generator of the example device, started with one worker. *)
Definition manager_cpu_started : World * StressManager.t :=
  match StressManager.startCpuStress
          {| CPUStressor.threadCount := 1; CPUStressor.loadPercentage := 50;
             CPUStressor.durationMs := 60000; CPUStressor.pinToCores := false;
             CPUStressor.targetCores := [] |}
          Example.device StressManager.init with
  | Some (_, w, m) => (w, m)
  | None => (Example.device, StressManager.init)
  end.

(** The claim on the orchestrator's lock, for a stop call: nothing that
    blocks or works on the device happens between the lock being taken and
    its release. *)
Definition lock_only_dispatches (k : StressorKind) (w : World) (m : StressManager.t) : Prop :=
  forall w1 m1, StressManager.stop_stress k w m = Some (w1, m1) ->
    blocks_under_lock false (drop (length (log w)) (log w1)) = false.

(** As [extends], with the join of a thread of the generator [owner] among
    the new events. *)
Definition joins_in (owner : string) (w w1 : World) : Prop :=
  exists evs, appends w w1 evs /\ EvJoin owner ∈ evs.

(** The example device with a kernel that takes every tc command. *)
Definition device_with_htb : World :=
  set_net {| which_tc := (true, "/system/bin/tc"); ls_tc := (true, "/system/bin/tc");
             tc_accepts := fun _ => true; qdisc := ∅ |} Example.device.

(** The tc commands a configuration asks for, in the order [applyTcRules]
    issues them: the htb root and its class when a bandwidth cap is set, then
    netem (under the class, or as the root without a cap) when a delay or a
    loss is set. *)
Definition tc_pipeline (c : NetworkStressor.Config) : list command :=
  let iface := NetworkStressor.targetInterface c in
  let bw := NetworkStressor.bandwidthLimitKbps c in
  (if 0 <? bw then [TcAddHtbRoot iface; TcAddHtbClass iface bw] else [])
  ++ (if (0 <? NetworkStressor.latencyMs c) || (0 <? NetworkStressor.packetLossPercent c)
      then [TcAddNetem iface (0 <? bw) (NetworkStressor.latencyMs c)
                       (NetworkStressor.packetLossPercent c)]
      else []).

(** A bare device with tc installed, a kernel that takes every tc command,
    and a foreign qdisc already on wlan0. *)
Definition device_shaped : World :=
  set_net {| which_tc := (true, "/system/bin/tc"); ls_tc := (true, "/system/bin/tc");
             tc_accepts := fun _ => true;
             qdisc := {[ "wlan0" := [TcAddNetem "wlan0" false 5 0] ]} |} Example.bare.

(** The network generator with a worker pending for a capped, delayed run
    on wlan0. *)
Definition network_pending : NetworkStressor.t :=
  {| NetworkStressor.base :=
       {| StressorBase.running_ := true; StressorBase.startTimeMs_ := 0;
          StressorBase.durationMs_ := 60000 |};
     NetworkStressor.config_ :=
       {| NetworkStressor.bandwidthLimitKbps := 1000; NetworkStressor.latencyMs := 50;
          NetworkStressor.packetLossPercent := 0; NetworkStressor.durationMs := 60000;
          NetworkStressor.targetInterface := "wlan0" |};
     NetworkStressor.workerThread_ := Some Spawned;
     NetworkStressor.tcRulesApplied_ := false |}.

(** Every character of [s] satisfies [p]. *)
Fixpoint string_all (p : ascii -> bool) (s : string) : bool :=
  match s with
  | EmptyString => true
  | String c rest => p c && string_all p rest
  end.

Definition is_digit (c : ascii) : bool :=
  match Str.digit c with Some _ => true | None => false end.

(** The characters [std::to_string] produces: digits and the minus sign. *)
Definition is_numeric (c : ascii) : bool := is_digit c || (Str.code c =? 45).

(** A path component that cannot be mistaken for the end of a number. *)
Definition is_leaf (l : string) : bool :=
  match l with
  | EmptyString => false
  | String c _ => negb (is_numeric c)
  end.

(** A bare device with two cores whose frequency ceiling is 1800000; the
    file of core 1 refuses writes. *)
Definition device_two_cores : World :=
  set_sys {| attrs := {[ CPUFreqManager.scaling_max_freq 0 := "1800000";
                         CPUFreqManager.scaling_max_freq 1 := "1800000" ]};
             readonly := {[ CPUFreqManager.scaling_max_freq 1 ]};
             cpu_dirs := 2; nprocessors_conf := 2; nprocessors_onln := 2;
             drift := [] |} Example.bare.

(** The throttle as constructed on a device: nothing limited, no worker. *)
Definition throttle_idle : CPUFreqManager.t :=
  {| CPUFreqManager.isLimited_ := false; CPUFreqManager.targetMaxFreq_ := 0;
     CPUFreqManager.originalMaxFreq_ := 0; CPUFreqManager.autoRestoreMs_ := 0;
     CPUFreqManager.limitStartTimeMs_ := 0; CPUFreqManager.targetCores_ := [];
     CPUFreqManager.originalSettings_ := ∅;
     CPUFreqManager.workerThread_ := None; CPUFreqManager.workerRunning_ := false |}.

(** The throttle holding core 0 at 900000 with a worker running. *)
Definition throttle_on (autoRestore : Z) : CPUFreqManager.t :=
  {| CPUFreqManager.isLimited_ := true; CPUFreqManager.targetMaxFreq_ := 900000;
     CPUFreqManager.originalMaxFreq_ := 2000000;
     CPUFreqManager.autoRestoreMs_ := autoRestore;
     CPUFreqManager.limitStartTimeMs_ := 0; CPUFreqManager.targetCores_ := [0];
     CPUFreqManager.originalSettings_ :=
       {[ CPUFreqManager.scaling_max_freq 0 := "1800000" ]};
     CPUFreqManager.workerThread_ := Some Spawned;
     CPUFreqManager.workerRunning_ := true |}.

Definition set_wall (t : Z) (w : World) : World :=
  {| now := now w; wall := t; log := log w; sys := sys w; net := net w; mem := mem w;
     disk := disk w; cpu_batches := cpu_batches w |}.

(** The two-core device after the system put the ceiling of core 0 back to
    1800000 behind the throttle's back. *)
Definition system_sets_freq (w : World) : World :=
  ThermalStressor.system_sets w (CPUFreqManager.scaling_max_freq 0, "1800000").

(** The check of the environment that [start] makes before it launches a
    worker: the disk generator wants its directory, the network generator
    wants tc; the others check nothing. *)
Definition start_check (k : StressorKind) : Stressor.config k -> World -> bool :=
  match k with
  | DiskIo => fun c w => (DiskStressor.ensureDirectory (DiskStressor.testPath c) w).1
  | Network => fun _ w => (NetworkStressor.checkTcAvailable w).1
  | _ => fun _ _ => true
  end.

(** [config.durationMs] *)
Definition duration_of (k : StressorKind) : Stressor.config k -> Z :=
  match k with
  | Cpu => CPUStressor.durationMs
  | Memory => MemoryStressor.durationMs
  | DiskIo => DiskStressor.durationMs
  | Network => NetworkStressor.durationMs
  | Thermal => ThermalStressor.durationMs
  end.

(** The number of worker threads a configuration asks for. *)
Definition workers_of (k : StressorKind) : Stressor.config k -> nat :=
  match k with
  | Cpu => fun c => Z.to_nat (CPUStressor.threadCount c)
  | _ => fun _ => 1%nat
  end.

(** The memory generator after a run that reached its deadline: the flag is
    down, the thread object is still joinable. *)
Definition memory_expired : MemoryStressor.t :=
  MemoryStressor.set_thread (Some Exited) MemoryStressor.init.

(** Three CPU workers pinned in turn to cores 2 and 5. *)
Definition cpu_pinned_config : CPUStressor.Config :=
  {| CPUStressor.threadCount := 3; CPUStressor.loadPercentage := 50;
     CPUStressor.durationMs := 1000; CPUStressor.pinToCores := true;
     CPUStressor.targetCores := [2; 5] |}.

Definition cpu_pinned_run : CPUStressor.t :=
  {| CPUStressor.base :=
       {| StressorBase.running_ := true; StressorBase.startTimeMs_ := 0;
          StressorBase.durationMs_ := 1000 |};
     CPUStressor.config_ := cpu_pinned_config;
     CPUStressor.workerThreads_ :=
       [ {| CPUStressor.state := Spawned; CPUStressor.threadId := 0;
            CPUStressor.coreId := 2 |};
         {| CPUStressor.state := Spawned; CPUStressor.threadId := 1;
            CPUStressor.coreId := 5 |};
         {| CPUStressor.state := Spawned; CPUStressor.threadId := 2;
            CPUStressor.coreId := 2 |} ];
     CPUStressor.totalOpsCompleted_ := 0 |}.

(** A CPU run asked for with no thread at all. *)
Definition cpu_no_thread_config : CPUStressor.Config :=
  {| CPUStressor.threadCount := 0; CPUStressor.loadPercentage := 50;
     CPUStressor.durationMs := 1000; CPUStressor.pinToCores := false;
     CPUStressor.targetCores := [] |}.

Definition cpu_second_thread : CPUStressor.thread :=
  {| CPUStressor.state := Spawned; CPUStressor.threadId := 1; CPUStressor.coreId := 5 |}.

(** A bare device short of memory: the one run of the memory worker reads
    100 MB then 60 MB available. *)
Definition device_low_memory : World :=
  set_mem {| live := ∅; allocated_total := 0; released_total := 0;
             mem_available_mb := 100;
             mem_runs := [[(100, Some 4096); (60, Some 8192)]] |} Example.bare.

(** The orchestrator with the CPU and the memory generator running. *)
Definition manager_two_running : StressManager.t :=
  StressManager.set Memory
    (MemoryStressor.set_thread (Some Spawned)
       (MemoryStressor.set_base
          {| StressorBase.running_ := true; StressorBase.startTimeMs_ := 0;
             StressorBase.durationMs_ := 1000 |} MemoryStressor.init))
    (StressManager.set Cpu cpu_pinned_run StressManager.init).

Definition stopAll_result : World * StressManager.t :=
  match StressManager.stopAll Example.bare manager_two_running with
  | Some r => r
  | None => (Example.bare, manager_two_running)
  end.

(** A bare device whose test directory holds two files of the user; the
    one run of the disk worker makes a single pass. *)
Definition device_with_files : World :=
  set_disk {| dirs := {[ "/data/local/tmp/danr_stress" :=
                           {[ "notes.txt" := RegularFile;
                              "old_stress_1.tmp.bak" := RegularFile ]} ]};
              nondirs := ∅; mkdir_ok := fun _ => false;
              new_ok := fun _ => true; memalign_ok := fun _ => true;
              disk_runs := [[ {| open_w_ok := true; written := 1024;
                                 open_r_ok := true; readBytes := 1024;
                                 elapsed := 3 |} ]] |}
           Example.bare.

(** A bare device with one core: governor schedutil, hardware range
    500000 to 2000000, ceiling 1800000. *)
Definition device_one_core : World :=
  set_sys {| attrs := {[ ThermalStressor.governor_path 0 := "schedutil";
                         ThermalStressor.cpuinfo_max_freq 0 := "2000000";
                         ThermalStressor.cpuinfo_min_freq 0 := "500000";
                         ThermalStressor.scaling_max_freq 0 := "1800000" ]};
             readonly := ∅; cpu_dirs := 1; nprocessors_conf := 1;
             nprocessors_onln := 1; drift := [] |} Example.bare.

(** The thermal generator as [start] hands it to its worker on a device of
    [cores] cores. *)
Definition thermal_started (pct cores : Z) : ThermalStressor.t :=
  {| ThermalStressor.base :=
       {| StressorBase.running_ := true; StressorBase.startTimeMs_ := 0;
          StressorBase.durationMs_ := 1000 |};
     ThermalStressor.config_ :=
       {| ThermalStressor.disableThermalThrottling := false;
          ThermalStressor.maxFrequencyPercent := pct;
          ThermalStressor.forceAllCoresOnline := true;
          ThermalStressor.durationMs := 1000 |};
     ThermalStressor.workerThread_ := Some Spawned;
     ThermalStressor.originalSettings_ := ∅;
     ThermalStressor.coresOnline_ := 0;
     ThermalStressor.totalCores_ := cores |}.

Definition thermal_fresh (pct : Z) : ThermalStressor.t := thermal_started pct 1.

Definition thermal_applied (pct : Z) : World * ThermalStressor.t :=
  match ThermalStressor.applySettings device_one_core (thermal_fresh pct) with
  | Some r => r
  | None => (device_one_core, thermal_fresh pct)
  end.

(** The one-core device with a second core that is offline. *)
Definition device_core_offline : World :=
  set_sys {| attrs := <[ThermalStressor.online_path 1 := "0"]> (attrs (sys device_one_core));
             readonly := ∅; cpu_dirs := 2; nprocessors_conf := 2;
             nprocessors_onln := 1; drift := [] |} Example.bare.

Definition thermal_fresh_two : ThermalStressor.t := thermal_started 100 2.

Definition thermal_applied_two : World * ThermalStressor.t :=
  match ThermalStressor.applySettings device_core_offline thermal_fresh_two with
  | Some r => r
  | None => (device_core_offline, thermal_fresh_two)
  end.

(** The system leaves the file [p] alone in every pass of the monitoring
    loop of the coming run of the thermal worker. *)
Definition untouched (p : string) (w : World) : Prop :=
  Forall (Forall (fun kv : string * string => kv.1 <> p))
         (ThermalStressor.next_run w).1.

(** The one-core device on which the coming thermal run makes two monitoring
    passes; before the first the system lowers the ceiling of the core. *)
Definition device_ceiling_moved : World :=
  set_sys (set_drift [[ [(ThermalStressor.scaling_max_freq 0, "1700000"%string)]; [] ]]
                     (sys device_one_core)) device_one_core.


Definition thermal_expired_one : World * ThermalStressor.t :=
  match ThermalStressor.worker_exit device_ceiling_moved (thermal_fresh 100) with
  | Some r => r
  | None => (device_ceiling_moved, thermal_fresh 100)
  end.

(** The memory generator at the end of the two phases of a run that reads
    900, 500, 90 and then 300 MB available. *)
Definition memory_after_phases : MemoryStressor.t :=
  (foldl (MemoryStressor.phase2 MemoryStressor.default_config
            (MemoryStressor.chunk_size MemoryStressor.default_config))
         (MemoryStressor.phase1 MemoryStressor.default_config
            (MemoryStressor.chunk_size MemoryStressor.default_config)
            [(900, Some 4096); (500, Some 8192); (90, None); (300, Some 12288)]
            (Example.bare, MemoryStressor.init)).2
         (MemoryStressor.phase1 MemoryStressor.default_config
            (MemoryStressor.chunk_size MemoryStressor.default_config)
            [(900, Some 4096); (500, Some 8192); (90, None); (300, Some 12288)]
            (Example.bare, MemoryStressor.init)).1).2.


(** The request [{"threadCount": 0, "durationMs": -9223372036854775808}] to
    the CPU start handler: [atol] gives [LONG_MIN], the other fields take
    their defaults.  With no worker nothing lowers the running flag before
    [stop] does. *)
Definition cpu_min_duration : CPUStressor.Config :=
  {| CPUStressor.threadCount := 0; CPUStressor.loadPercentage := 100;
     CPUStressor.durationMs := Str.LONG_MIN; CPUStressor.pinToCores := false;
     CPUStressor.targetCores := [] |}.

(** Is [z] a value of [long]? *)
Definition in_long (z : Z) : Prop := Str.LONG_MIN <= z <= Str.LONG_MAX.

(* ===================================================================== *)
(** * Properties                                                          *)
(* ===================================================================== *)

(** ** The event log and the sysfs store under the primitives *)

Lemma writeSysFile_attrs path value w ok w1 :
  writeSysFile path value w = (ok, w1) ->
  attrs (sys w1) = (if ok then <[path := value]> (attrs (sys w)) else attrs (sys w))
  /\ readonly (sys w1) = readonly (sys w)
  /\ ok = writable path w.
Proof.
  unfold writeSysFile. destruct (writable path w) eqn:Hw; intros H; inversion H; subst; done.
Qed.

Lemma writable_insert path p v w w1 :
  attrs (sys w1) = <[p := v]> (attrs (sys w)) ->
  readonly (sys w1) = readonly (sys w) ->
  writable p w = true ->
  writable path w1 = writable path w.
Proof.
  unfold writable. intros Ha Hr Hp. rewrite Ha, Hr. f_equal.
  destruct (andb_prop _ _ Hp) as [Hp1 _]. apply bool_decide_eq_true_1 in Hp1.
  apply bool_decide_ext. rewrite dom_insert_L, elem_of_union, elem_of_singleton.
  split; [intros [->|?]; done|by right].
Qed.

Lemma writeSysFile_writable path value w p :
  writable p (writeSysFile path value w).2 = writable p w.
Proof.
  destruct (writeSysFile path value w) as [ok w1] eqn:E. simpl.
  destruct (writeSysFile_attrs _ _ _ _ _ E) as (Ha & Hr & Hok).
  destruct ok.
  - eapply writable_insert; eauto.
  - unfold writable. by rewrite Ha, Hr.
Qed.

Lemma write_back_writable w kv p : writable p (write_back w kv) = writable p w.
Proof. apply writeSysFile_writable. Qed.

Lemma write_back_other w kv p :
  kv.1 <> p -> attrs (sys (write_back w kv)) !! p = attrs (sys w) !! p.
Proof.
  intros Hne. unfold write_back.
  destruct (writeSysFile kv.1 kv.2 w) as [ok w1] eqn:E. simpl.
  destruct (writeSysFile_attrs _ _ _ _ _ E) as (-> & _ & _).
  destruct ok; [by rewrite lookup_insert_ne|done].
Qed.

Lemma write_back_same w kv :
  writable kv.1 w = true -> attrs (sys (write_back w kv)) !! kv.1 = Some kv.2.
Proof.
  intros Hw. unfold write_back.
  destruct (writeSysFile kv.1 kv.2 w) as [ok w1] eqn:E. simpl.
  destruct (writeSysFile_attrs _ _ _ _ _ E) as (-> & _ & ->).
  rewrite Hw. apply lookup_insert_eq.
Qed.

Lemma foldl_write_back_other l w p :
  p ∉ l.*1 -> attrs (sys (foldl write_back w l)) !! p = attrs (sys w) !! p.
Proof.
  revert w. induction l as [|kv l IH]; intros w Hp; simpl; [done|].
  rewrite fmap_cons, not_elem_of_cons in Hp. destruct Hp as [Hne Hp].
  rewrite IH by done. by apply write_back_other.
Qed.

(** Writing back a list of settings with distinct paths leaves every
    writable path at its listed value. *)
Lemma foldl_write_back_lookup l w p v :
  NoDup l.*1 -> (p, v) ∈ l -> writable p w = true ->
  attrs (sys (foldl write_back w l)) !! p = Some v.
Proof.
  revert w. induction l as [|kv l IH]; intros w Hnd Hin Hw; simpl.
  - by apply elem_of_nil in Hin.
  - rewrite fmap_cons in Hnd. apply NoDup_cons in Hnd as [Hhd Hnd].
    apply elem_of_cons in Hin as [<-|Hin].
    + rewrite foldl_write_back_other by done. by apply write_back_same.
    + apply IH; [done|done|]. by rewrite write_back_writable.
Qed.

Lemma map_items_perm {A} (m : gmap string A) : map_items m ≡ₚ map_to_list m.
Proof. apply merge_sort_Permutation. Qed.

Lemma map_items_NoDup {A} (m : gmap string A) : NoDup (map_items m).*1.
Proof. rewrite map_items_perm. apply NoDup_fst_map_to_list. Qed.

Lemma elem_of_map_items {A} (m : gmap string A) p v :
  (p, v) ∈ map_items m <-> m !! p = Some v.
Proof. rewrite map_items_perm. apply elem_of_map_to_list. Qed.

Lemma map_items_empty {A} : map_items (∅ : gmap string A) = [].
Proof.
  apply Permutation_nil_r. rewrite map_items_perm. by rewrite map_to_list_empty.
Qed.

(* --------------------------------------------------------------------- *)
(** ** The frequency throttle                                             *)
(* --------------------------------------------------------------------- *)

Section Throttle.
Import CPUFreqManager.


Lemma save_original_keeps w orig cpu p :
  orig !! p = Some (captured w p) ->
  save_original w orig cpu !! p = Some (captured w p).
Proof.
  intros H. unfold save_original, getCurrentMaxFreq.
  destruct (0 <? _); [|done].
  destruct (decide (scaling_max_freq cpu = p)) as [<-|Hne].
  - by rewrite lookup_insert_eq.
  - by rewrite lookup_insert_ne.
Qed.

Lemma snapshot_keeps w cores orig p :
  orig !! p = Some (captured w p) ->
  foldl (save_original w) orig cores !! p = Some (captured w p).
Proof.
  revert orig. induction cores as [|c cores IH]; intros orig H; simpl; [done|].
  apply IH. by apply save_original_keeps.
Qed.

Lemma snapshot_lookup w cores orig cpu :
  cpu ∈ cores -> 0 < getCurrentMaxFreq cpu w ->
  foldl (save_original w) orig cores !! scaling_max_freq cpu
  = Some (Str.to_string (getCurrentMaxFreq cpu w)).
Proof.
  revert orig. induction cores as [|c cores IH]; intros orig Hin Hpos.
  - by apply elem_of_nil in Hin.
  - simpl. apply elem_of_cons in Hin as [<-|Hin]; [|by apply IH].
    apply (snapshot_keeps w cores _ (scaling_max_freq cpu)).
    unfold save_original. apply Z.ltb_lt in Hpos. rewrite Hpos.
    by rewrite lookup_insert_eq.
Qed.


Lemma apply_one_fst F acc cpu : (apply_one F acc cpu).1 = true -> acc.1 = true.
Proof.
  unfold apply_one. destruct (setCpuMaxFreq cpu F acc.2) as [ok w1]. simpl.
  by intros [? _]%andb_prop.
Qed.

Lemma foldl_apply_one_fst F cores acc :
  (foldl (apply_one F) acc cores).1 = true -> acc.1 = true.
Proof.
  revert acc. induction cores as [|c cores IH]; intros acc H; simpl in *; [done|].
  eapply apply_one_fst, IH, H.
Qed.

Lemma apply_one_writable F acc cpu p :
  writable p (apply_one F acc cpu).2 = writable p acc.2.
Proof.
  unfold apply_one, setCpuMaxFreq.
  pose proof (writeSysFile_writable (scaling_max_freq cpu) (Str.to_string F) acc.2 p) as H.
  by destruct (writeSysFile _ _ _).
Qed.

Lemma foldl_apply_one_writable F cores acc p :
  writable p (foldl (apply_one F) acc cores).2 = writable p acc.2.
Proof.
  revert acc. induction cores as [|c cores IH]; intros acc; simpl; [done|].
  by rewrite IH, apply_one_writable.
Qed.

(** When the loop that applies the ceiling reports success, every target
    core's file took the write and holds the new ceiling. *)
Lemma foldl_apply_one_success F cores acc cpu :
  (foldl (apply_one F) acc cores).1 = true -> cpu ∈ cores ->
  writable (scaling_max_freq cpu) acc.2 = true
  /\ attrs (sys (foldl (apply_one F) acc cores).2) !! scaling_max_freq cpu
     = Some (Str.to_string F).
Proof.
  revert acc. induction cores as [|c cores IH]; intros acc Hok Hin.
  - by apply elem_of_nil in Hin.
  - simpl in *.
    assert (Hc : (apply_one F acc c).1 = true) by (eapply foldl_apply_one_fst, Hok).
    assert (Hwc : writable (scaling_max_freq c) acc.2 = true
                  /\ attrs (sys (apply_one F acc c).2) !! scaling_max_freq c
                     = Some (Str.to_string F)).
    { revert Hc. unfold apply_one, setCpuMaxFreq.
      destruct (writeSysFile _ _ _) as [ok w1] eqn:E. simpl.
      intros [_ ->]%andb_prop.
      destruct (writeSysFile_attrs _ _ _ _ _ E) as (-> & _ & Hw).
      split; [done|]. apply lookup_insert_eq. }
    destruct (decide (cpu ∈ cores)) as [Hin'|Hnin].
    + destruct (IH _ Hok Hin') as [Hw Ha]. split; [|done].
      by rewrite apply_one_writable in Hw.
    + apply elem_of_cons in Hin as [->|?]; [|done].
      destruct Hwc as [Hw Ha]. split; [done|].
      clear IH Hok Hc. revert Ha Hnin. generalize (apply_one F acc c).
      induction cores as [|d cores IH]; intros acc' Ha Hnin; simpl; [done|].
      apply not_elem_of_cons in Hnin as [Hne Hnin].
      apply IH; [|done].
      unfold apply_one, setCpuMaxFreq.
      destruct (writeSysFile _ _ acc'.2) as [ok w1] eqn:E. simpl.
      destruct (writeSysFile_attrs _ _ _ _ _ E) as (-> & _ & _).
      destruct ok; [|done].
      destruct (decide (scaling_max_freq d = scaling_max_freq c)) as [->|Hp].
      * apply lookup_insert_eq.
      * by rewrite lookup_insert_ne.
Qed.


Lemma startWorker_world w m p :
  attrs (sys (startWorker w m).1) = attrs (sys w)
  /\ writable p (startWorker w m).1 = writable p w
  /\ originalSettings_ (startWorker w m).2 = originalSettings_ m
  /\ isLimited_ (startWorker w m).2 = isLimited_ m.
Proof.
  unfold startWorker. destruct (workerRunning_ m); [done|].
  by destruct (workerThread_ m).
Qed.

Lemma stopWorker_world w m p :
  attrs (sys (stopWorker w m).1) = attrs (sys w)
  /\ writable p (stopWorker w m).1 = writable p w
  /\ originalSettings_ (stopWorker w m).2 = originalSettings_ m
  /\ isLimited_ (stopWorker w m).2 = isLimited_ m.
Proof.
  unfold stopWorker. destruct (workerRunning_ m); [|done].
  by destruct (workerThread_ m).
Qed.

(** What a successful [setMaxFrequency] leaves behind. *)
Lemma setMaxFrequency_success F cores ar w m w1 m1 :
  setMaxFrequency F cores ar w m = (true, w1, m1) ->
  isLimited_ m1 = true
  /\ originalSettings_ m1
     = (if isLimited_ m then originalSettings_ m
        else foldl (save_original w) ∅ (target_cores cores w))
  /\ (forall p, writable p w1 = writable p w)
  /\ (forall cpu, cpu ∈ target_cores cores w ->
        writable (scaling_max_freq cpu) w = true
        /\ attrs (sys w1) !! scaling_max_freq cpu = Some (Str.to_string F)).
Proof.
  unfold setMaxFrequency.
  destruct (foldl (apply_one F) (true, w) (target_cores cores w)) as [ok wa] eqn:E.
  destruct ok; [|by intros [=]].
  set (m' := if isLimited_ m then m else _).
  set (m2 := Build_t _ _ _ _ _ _ _ _ _).
  assert (Hsnap : originalSettings_ m'
     = (if isLimited_ m then originalSettings_ m
        else foldl (save_original w) ∅ (target_cores cores w))).
  { subst m'. by destruct (isLimited_ m). }
  assert (Hw : forall p, writable p wa = writable p w).
  { intros p. pose proof (foldl_apply_one_writable F (target_cores cores w) (true, w) p) as H.
    by rewrite E in H. }
  assert (Hcore : forall cpu, cpu ∈ target_cores cores w ->
        writable (scaling_max_freq cpu) w = true
        /\ attrs (sys wa) !! scaling_max_freq cpu = Some (Str.to_string F)).
  { intros cpu Hin.
    pose proof (foldl_apply_one_success F (target_cores cores w) (true, w) cpu) as H.
    rewrite E in H. by apply H. }
  destruct (workerRunning_ m2) eqn:Hrun.
  - intros H; inversion H; subst w1 m1; clear H. simpl. by rewrite Hsnap.
  - destruct (startWorker wa m2) as [w2 m3] eqn:Es.
    intros H; inversion H; subst w1 m1; clear H.
    pose proof (fun p => startWorker_world wa m2 p) as Hs. rewrite Es in Hs. simpl in Hs.
    destruct (Hs EmptyString) as (Ha & _ & Ho & Hl).
    rewrite Hl, Ho. simpl. rewrite Hsnap. repeat split; try done.
    + intros p. destruct (Hs p) as (_ & -> & _). apply Hw.
    + by apply Hcore.
    + rewrite Ha. by apply Hcore.
Qed.

(** C3.  Frequency throttle: when two calls of [setMaxFrequency] succeed in
    one limiting session (the controller was not limiting before the first,
    and nothing restores between them), the per-core snapshot is the one the
    first call took from the device as it was before that call; the second
    call leaves it as it is; and the [restore] that follows writes back, to
    every snapshotted core, the ceiling captured before the first call (not
    the ceiling of the first call, which was in effect after it), then
    clears the snapshot.  Between the calls the content of the files may
    change in any way (the worker re-asserting the ceiling, the system
    moving it): [w1'] and [w2'] are the device as the second call and the
    restore find it. *)
Theorem restore_writes_first_snapshot
    F1 cores1 ar1 F2 cores2 ar2 w0 m0 w1 m1 w1' w2 m2 w2' :
  isLimited_ m0 = false ->
  setMaxFrequency F1 cores1 ar1 w0 m0 = (true, w1, m1) ->
  (forall p, writable p w1' = writable p w1) ->
  setMaxFrequency F2 cores2 ar2 w1' m1 = (true, w2, m2) ->
  (forall p, writable p w2' = writable p w2) ->
  originalSettings_ m1 = foldl (save_original w0) ∅ (target_cores cores1 w0)
  /\ originalSettings_ m2 = originalSettings_ m1
  /\ (forall cpu, cpu ∈ target_cores cores1 w0 -> 0 < getCurrentMaxFreq cpu w0 ->
        let before_F1 := Str.to_string (getCurrentMaxFreq cpu w0) in
        originalSettings_ m2 !! scaling_max_freq cpu = Some before_F1
        /\ attrs (sys (restore w2' m2).1.2) !! scaling_max_freq cpu = Some before_F1
        /\ attrs (sys w1) !! scaling_max_freq cpu = Some (Str.to_string F1)
        /\ (getCurrentMaxFreq cpu w0 <> F1 ->
            attrs (sys (restore w2' m2).1.2) !! scaling_max_freq cpu
            <> attrs (sys w1) !! scaling_max_freq cpu))
  /\ originalSettings_ (restore w2' m2).2 = ∅
  /\ isLimited_ (restore w2' m2).2 = false.
Proof.
  intros Hfresh H1 Hd1 H2 Hd2.
  destruct (setMaxFrequency_success _ _ _ _ _ _ _ H1) as (Hl1 & Hs1 & Hw1 & Hc1).
  destruct (setMaxFrequency_success _ _ _ _ _ _ _ H2) as (Hl2 & Hs2 & Hw2 & Hc2).
  rewrite Hfresh in Hs1. rewrite Hl1 in Hs2.
  (* the shape of restore on a limiting controller *)
  assert (Hr : restore w2' m2
    = (true, foldl write_back (stopWorker w2' m2).1 (map_items (originalSettings_ m2)),
       (restore w2' m2).2)
    /\ originalSettings_ (restore w2' m2).2 = ∅
    /\ isLimited_ (restore w2' m2).2 = false).
  { unfold restore. destruct (stopWorker w2' m2) as [wr mr] eqn:Es.
    pose proof (stopWorker_world w2' m2 EmptyString) as Hst. rewrite Es in Hst.
    simpl in Hst. destruct Hst as (_ & _ & Ho & Hl).
    rewrite Hl, Hl2, Ho. simpl. done. }
  destruct Hr as (Hr & Hclear & Hidle).
  split; [done|]. split; [done|]. split; [|done].
  intros cpu Hin Hpos before_F1.
  assert (Hsnap : originalSettings_ m2 !! scaling_max_freq cpu = Some before_F1).
  { rewrite Hs2, Hs1. by apply snapshot_lookup. }
  destruct (Hc1 cpu Hin) as [Hwr Hval1].
  assert (Hrest : attrs (sys (restore w2' m2).1.2) !! scaling_max_freq cpu = Some before_F1).
  { rewrite Hr. simpl. apply foldl_write_back_lookup.
    - apply map_items_NoDup.
    - by apply elem_of_map_items.
    - destruct (stopWorker_world w2' m2 (scaling_max_freq cpu)) as (_ & -> & _).
      by rewrite Hd2, Hw2, Hd1, Hw1. }
  repeat split; try done.
  intros Hne. rewrite Hrest, Hval1. intros [= Heq].
  apply Hne. unfold before_F1, Str.to_string in Heq. by apply (inj pretty) in Heq.
Qed.

(** On the example device: limit core 0 to 1 GHz, then every core to
    0.8 GHz, then restore; core 0 is back at the 1.5 GHz it had at first. *)
Lemma restore_writes_first_snapshot_witness :
  let r1 := setMaxFrequency 1000000 [0] 0 Example.device throttle0 in
  let r2 := setMaxFrequency 800000 [] 0 r1.1.2 r1.2 in
  attrs (sys (restore r2.1.2 r2.2).1.2) !! scaling_max_freq 0 = Some "1500000"%string.
Proof.
  intros r1 r2.
  assert (H0 : isLimited_ throttle0 = false) by reflexivity.
  assert (H1 : setMaxFrequency 1000000 [0] 0 Example.device throttle0
               = (true, r1.1.2, r1.2)) by (vm_compute; reflexivity).
  assert (H2 : setMaxFrequency 800000 [] 0 r1.1.2 r1.2 = (true, r2.1.2, r2.2))
    by (vm_compute; reflexivity).
  destruct (restore_writes_first_snapshot _ _ _ _ _ _ _ _ _ _ _ _ _ _
              H0 H1 (fun p => eq_refl) H2 (fun p => eq_refl))
    as (_ & _ & Hcores & _).
  destruct (Hcores 0) as (_ & Hrestored & _).
  - vm_compute. by left.
  - vm_compute. reflexivity.
  - rewrite Hrestored. vm_compute. reflexivity.
Defined.

End Throttle.

(* --------------------------------------------------------------------- *)
(** ** The lifecycle shared by the five generators                        *)
(* --------------------------------------------------------------------- *)

(** C5.  For every generator, [start(config)] on a generator that is running
    returns false and has no effect at all: the generator (its stored
    configuration, its duration and start time, its running flag, its
    counters, its worker threads) and the device are exactly as before. *)
Theorem start_while_running_is_refused
    (k : StressorKind) (config : Stressor.config k) (w : World) (s : Stressor.state k) :
  Stressor.isRunning k s = true ->
  Stressor.start k config w s = Some (false, w, s).
Proof.
  destruct k; simpl in *; unfold Stressor.isRunning; simpl; intros Hrun.
  - unfold CPUStressor.start. by rewrite Hrun.
  - unfold MemoryStressor.start. by rewrite Hrun.
  - unfold DiskStressor.start. by rewrite Hrun.
  - unfold NetworkStressor.start. by rewrite Hrun.
  - unfold ThermalStressor.start. by rewrite Hrun.
Qed.


Lemma start_while_running_is_refused_witness :
  Stressor.start Memory
    {| MemoryStressor.targetFreeMB := 50; MemoryStressor.chunkSizeMB := 1;
       MemoryStressor.durationMs := 10; MemoryStressor.useAnonymousMmap := false;
       MemoryStressor.lockMemory := true |}
    Example.device memory_running
  = Some (false, Example.device, memory_running).
Proof.
  apply (start_while_running_is_refused Memory). reflexivity.
Defined.

(** C8 (the code departs from the claim).  The remaining time of a running
    generator is meant to be [max(0, duration - elapsed)], and
    [getRemainingTimeMs] computes it by two subtractions on [long].  With
    the duration [LONG_MIN], which the start handler takes from the request
    unchecked, the second subtraction leaves the range of [long] as soon as
    a millisecond has passed: the CPU generator started on the example
    device with that duration (and no worker thread, so that it runs until
    it is stopped) and asked 1 ms later is running,
    [max(0, duration - elapsed)] is 0, and the snapshot reports [LONG_MAX]
    ms as remaining. *)
Theorem remaining_time_wraps_around :
  exists w1 s1,
    Stressor.start Cpu cpu_min_duration Example.device CPUStressor.init
    = Some (true, w1, s1)
    /\ let w2 := set_now (now w1 + 1) w1 in
       let st := Stressor.getStatus Cpu w2 s1 in
       let b := Stressor.base Cpu s1 in
       let elapsed := now w2 - StressorBase.startTimeMs_ b in
       StressStatus.isRunning st = true
       /\ StressorBase.durationMs_ b = Str.LONG_MIN
       /\ elapsed = 1
       /\ Z.max 0 (StressorBase.durationMs_ b - elapsed) = 0
       /\ StressStatus.remainingTimeMs st = Str.LONG_MAX.
Proof.
  eexists _, _. split; [reflexivity|]. by vm_compute.
Qed.

(* --------------------------------------------------------------------- *)
(** ** The network generator                                              *)
(* --------------------------------------------------------------------- *)

Section Network.
Import NetworkStressor.


Lemma set_log_same (w : World) : set_log (log w) w = w.
Proof. by destruct w. Qed.

(** [checkTcAvailable] only looks: the device is as before, the log has
    gained the probes. *)
Lemma checkTcAvailable_world (w : World) :
  exists probes, (checkTcAvailable w).2 = set_log (log w ++ probes) w
                 /\ Forall probe probes.
Proof.
  unfold checkTcAvailable, executeCommand. simpl.
  destruct (which_tc (net w)) as [ok out]. simpl.
  destruct ok.
  - exists [EvExec "which tc 2>/dev/null"]. split; [done|].
    constructor; [by left|constructor].
  - simpl. destruct (ls_tc (net w)) as [ok2 out2].
    exists [EvExec "which tc 2>/dev/null"; EvExec "ls /system/bin/tc 2>/dev/null"].
    split.
    + destruct ok2; unfold emit; simpl; by rewrite <- app_assoc.
    + constructor; [by left|]. constructor; [by right|constructor].
Qed.

(** C7.  Network generator: when tc is not available, [start(config)]
    returns false and touches nothing: the generator is exactly as before (no
    configuration stored, no duration set, the running flag as it was, no
    worker thread), and so is the device (no rule applied or removed); the
    log has gained nothing but the probes for tc. *)
Theorem start_without_tc_touches_nothing (config : Config) (w : World) (s : t) :
  (checkTcAvailable w).1 = false ->
  exists probes,
    start config w s = Some (false, set_log (log w ++ probes) w, s)
    /\ Forall probe probes
    /\ qdisc (net (set_log (log w ++ probes) w)) = qdisc (net w).
Proof.
  intros Hno. unfold start.
  destruct (StressorBase.isRunning (base s)).
  - exists []. rewrite app_nil_r, set_log_same. by repeat split.
  - destruct (checkTcAvailable_world w) as (probes & Hw & Hp).
    exists probes. destruct (checkTcAvailable w) as [avail w1].
    simpl in *. subst avail w1. by repeat split.
Qed.


Lemma start_without_tc_touches_nothing_witness :
  exists probes,
    start default_config device_without_tc init
    = Some (false, set_log (log device_without_tc ++ probes) device_without_tc, init)
    /\ Forall probe probes
    /\ qdisc (net (set_log (log device_without_tc ++ probes) device_without_tc))
       = qdisc (net device_without_tc).
Proof.
  apply (start_without_tc_touches_nothing default_config device_without_tc init).
  reflexivity.
Defined.

End Network.

(* --------------------------------------------------------------------- *)
(** ** The disk generator                                                 *)
(* --------------------------------------------------------------------- *)

Section Disk.
Import DiskStressor.


(** What [mkdir] changes, if anything, is the map of directories. *)
Lemma mkdir_disk path w :
  exists d, (mkdir path w).2 = set_disk (set_dirs d (disk w)) w.
Proof.
  assert (Hw : exists d, w = set_disk (set_dirs d (disk w)) w).
  { exists (dirs (disk w)). by destruct w as [? ? ? ? ? ? [] ?]. }
  unfold mkdir. destruct (stat path w); [done|].
  destruct (parent_dir path) as [[parent name]|]; [|done].
  destruct (dirs (disk w) !! parent) as [es|]; [|done].
  destruct (es !! name); [done|].
  destruct (_ && _); [|done]. by eexists.
Qed.



End Disk.

(* --------------------------------------------------------------------- *)
(** ** Runs that leave the device changed                                 *)
(* --------------------------------------------------------------------- *)


(** C1 (the code departs from the claim).  Network generator on the example
    device, whose kernel takes the htb root qdisc and refuses the htb class:
    a run with a bandwidth cap of 1000 kbit on wlan0 is started and stopped.
    [applyTcRules] and [stop] both call [removeTcRules], which returns at once
    because [tcRulesApplied_] was never set; no [tc qdisc del] is issued and
    the root qdisc installed by the run is still on the interface after
    [stop] has returned. *)
Theorem network_stop_leaves_root_qdisc :
  let config :=
    {| NetworkStressor.bandwidthLimitKbps := 1000; NetworkStressor.latencyMs := 0;
       NetworkStressor.packetLossPercent := 0; NetworkStressor.durationMs := 60000;
       NetworkStressor.targetInterface := "wlan0" |} in
  exists w s,
    run Network config Example.device NetworkStressor.init = Some (w, s)
    /\ NetworkStressor.rules_on "wlan0" Example.device = []
    /\ NetworkStressor.rules_on "wlan0" w = [TcAddHtbRoot "wlan0"]
    /\ (EvExec "tc qdisc del dev wlan0 root 2>/dev/null" ∉ log w)
    /\ StressorBase.isRunning (NetworkStressor.base s) = false
    /\ NetworkStressor.workerThread_ s = None.
Proof.
  intros config. eexists _, _. split; [vm_compute; reflexivity|].
  split; [reflexivity|]. split; [vm_compute; reflexivity|].
  split; [|split; reflexivity].
  vm_compute. intros H. repeat (apply elem_of_cons in H as [H|H]; [discriminate H|]).
  by apply elem_of_nil in H.
Qed.

(** C2 (the code departs from the claim).  Thermal generator on the example
    device, where both cores are capped at 1500000 kHz below the hardware
    maximum of 2000000 kHz: a run at 50 percent is started and stopped.  The
    governor and the online state are back at their values from before the
    run, but the value [applySettings] saved for [scaling_max_freq] is the
    hardware maximum read from [cpuinfo_max_freq], and that is what [stop]
    writes back: the ceiling is 2000000 after the run, not 1500000. *)
Theorem thermal_stop_writes_hardware_maximum :
  let config :=
    {| ThermalStressor.disableThermalThrottling := false;
       ThermalStressor.maxFrequencyPercent := 50;
       ThermalStressor.forceAllCoresOnline := true;
       ThermalStressor.durationMs := 60000 |} in
  exists w s,
    run Thermal config Example.device ThermalStressor.init = Some (w, s)
    /\ attrs (sys Example.device) !! ThermalStressor.scaling_max_freq 0 = Some "1500000"%string
    /\ attrs (sys w) !! ThermalStressor.scaling_max_freq 0 = Some "2000000"%string
    /\ attrs (sys w) !! ThermalStressor.scaling_max_freq 1 = Some "2000000"%string
    /\ attrs (sys w) !! ThermalStressor.governor_path 0
       = attrs (sys Example.device) !! ThermalStressor.governor_path 0
    /\ attrs (sys w) !! ThermalStressor.online_path 1
       = attrs (sys Example.device) !! ThermalStressor.online_path 1
    /\ ThermalStressor.originalSettings_ s = ∅.
Proof.
  intros config. eexists _, _. split; [vm_compute; reflexivity|].
  repeat split; vm_compute; reflexivity.
Qed.

(* --------------------------------------------------------------------- *)
(** ** Stopping twice                                                     *)
(* --------------------------------------------------------------------- *)

Section NetworkStop.
Import NetworkStressor.

Lemma net_removeTcRules w s :
  tcRulesApplied_ (removeTcRules w s).2 = false
  /\ base (removeTcRules w s).2 = base s
  /\ workerThread_ (removeTcRules w s).2 = workerThread_ s.
Proof.
  unfold removeTcRules. destruct (tcRulesApplied_ s) eqn:E; [|done].
  cbn [negb].
  by destruct (executeCommand (TcDelRoot (targetInterface (config_ s))) w) as [[? ?] ?].
Qed.

Lemma net_removeTcRules_idle w s :
  tcRulesApplied_ s = false -> removeTcRules w s = (w, s).
Proof. intros H. unfold removeTcRules. by rewrite H. Qed.

Lemma net_workerFunction_stopped w s :
  StressorBase.running_ (base (workerFunction w s).2) = false.
Proof.
  unfold workerFunction. destruct (applyTcRules w s) as [[ok w1] s1].
  destruct ok; simpl; [|done].
  by destruct (net_removeTcRules w1 (set_base (StressorBase.markStopped (base s1)) s1))
    as (_ & -> & _).
Qed.

Lemma net_request_stop s :
  StressorBase.running_ (base (request_stop s)) = false
  /\ workerThread_ (request_stop s) = workerThread_ s.
Proof.
  unfold request_stop, StressorBase.isRunning.
  by destruct (StressorBase.running_ (base s)) eqn:E.
Qed.

Lemma net_join w s :
  StressorBase.running_ (base s) = false ->
  workerThread_ (join w s).2 = None
  /\ StressorBase.running_ (base (join w s).2) = false.
Proof.
  intros Hs. unfold join. destruct (workerThread_ s) as [[|]|] eqn:E; simpl; try done.
  pose proof (net_workerFunction_stopped w s) as H.
  by destruct (workerFunction w s) as [w1 s1].
Qed.

Lemma net_stop_post w s :
  workerThread_ (stop w s).2 = None
  /\ StressorBase.running_ (base (stop w s).2) = false
  /\ tcRulesApplied_ (stop w s).2 = false.
Proof.
  unfold stop. destruct (net_request_stop s) as [Hr Ht].
  destruct (net_join w (request_stop s) Hr) as [Hj1 Hj2].
  destruct (join w (request_stop s)) as [w2 s2]. simpl in *.
  destruct (net_removeTcRules w2 s2) as (Ha & Hb & Hc).
  by rewrite Ha, Hb, Hc.
Qed.

Lemma net_stop_idle w s :
  workerThread_ s = None -> StressorBase.running_ (base s) = false ->
  tcRulesApplied_ s = false -> stop w s = (w, s).
Proof.
  intros Ht Hr Ha. unfold stop, request_stop, StressorBase.isRunning, join.
  rewrite Hr, Ht. by apply net_removeTcRules_idle.
Qed.

Lemma net_set_thread_None s : workerThread_ s = None -> set_thread None s = s.
Proof. destruct s; simpl; by intros ->. Qed.

Lemma net_stop_exited w s :
  StressorBase.running_ (base s) = false ->
  Forall (eq Exited) (option_list (workerThread_ s)) ->
  stop w s = removeTcRules (Stressor.joins Network s w) (set_thread None s).
Proof.
  intros Hr Hex. unfold stop, request_stop, StressorBase.isRunning, join, Stressor.joins.
  rewrite Hr. simpl. destruct (workerThread_ s) as [[|]|] eqn:E; simpl in *.
  - by inversion Hex.
  - done.
  - by rewrite net_set_thread_None.
Qed.

End NetworkStop.

Section ThermalStop.
Import ThermalStressor.

Lemma thermal_request_stop s :
  StressorBase.running_ (base (request_stop s)) = false
  /\ workerThread_ (request_stop s) = workerThread_ s.
Proof.
  unfold request_stop, StressorBase.isRunning.
  by destruct (StressorBase.running_ (base s)) eqn:E.
Qed.

Lemma thermal_workerFunction_stopped w s w1 s1 :
  workerFunction w s = Some (w1, s1) -> StressorBase.running_ (base s1) = false.
Proof.
  unfold workerFunction. destruct (applySettings w s) as [[wa sa]|]; [|done].
  destruct (next_run wa) as [passes w2].
  destruct (foldl monitor (w2, sa) passes) as [w3 s3].
  intros H; inversion H; subst. done.
Qed.

Lemma thermal_join w s w1 s1 :
  StressorBase.running_ (base s) = false ->
  join w s = Some (w1, s1) ->
  workerThread_ s1 = None /\ StressorBase.running_ (base s1) = false.
Proof.
  intros Hs. unfold join. destruct (workerThread_ s) as [[|]|] eqn:E.
  - destruct (workerFunction w s) as [[wf sf]|] eqn:Ew; [|done].
    intros H; inversion H; subst. simpl. split; [done|].
    by eapply thermal_workerFunction_stopped.
  - intros H; inversion H; subst. done.
  - intros H; inversion H; subst. done.
Qed.

Lemma thermal_stop_post w s w1 s1 :
  stop w s = Some (w1, s1) ->
  workerThread_ s1 = None
  /\ StressorBase.running_ (base s1) = false
  /\ originalSettings_ s1 = ∅.
Proof.
  unfold stop. destruct (thermal_request_stop s) as [Hr Ht].
  destruct (join w (request_stop s)) as [[w2 s2]|] eqn:Ej; [|done].
  destruct (thermal_join _ _ _ _ Hr Ej) as [Hj1 Hj2].
  intros H; inversion H; subst. done.
Qed.

Lemma thermal_stop_aborts w s :
  stop w s = None -> Stressor.worker_aborts Thermal w s.
Proof.
  unfold stop, join. simpl. destruct (thermal_request_stop s) as [_ Ht]. rewrite Ht.
  destruct (workerThread_ s) as [[|]|]; try done.
  by destruct (workerFunction w (request_stop s)) as [[? ?]|].
Qed.

Lemma thermal_set_original_empty s : originalSettings_ s = ∅ -> set_original ∅ s = s.
Proof. destruct s; simpl; by intros ->. Qed.

Lemma thermal_set_thread_None s : workerThread_ s = None -> set_thread None s = s.
Proof. destruct s; simpl; by intros ->. Qed.

Lemma thermal_stop_idle w s :
  workerThread_ s = None -> StressorBase.running_ (base s) = false ->
  originalSettings_ s = ∅ -> stop w s = Some (w, s).
Proof.
  intros Ht Hr Ho. unfold stop, request_stop, StressorBase.isRunning, join, restoreSettings.
  rewrite Hr, Ht, Ho, map_items_empty. simpl.
  by rewrite thermal_set_original_empty.
Qed.

Lemma thermal_stop_exited w s :
  StressorBase.running_ (base s) = false ->
  Forall (eq Exited) (option_list (workerThread_ s)) ->
  stop w s = Some (restoreSettings (Stressor.joins Thermal s w) (set_thread None s)).
Proof.
  intros Hr Hex. unfold stop, request_stop, StressorBase.isRunning, join, Stressor.joins.
  rewrite Hr. simpl. destruct (workerThread_ s) as [[|]|] eqn:E; simpl in *.
  - by inversion Hex.
  - done.
  - by rewrite thermal_set_thread_None.
Qed.

End ThermalStop.

Section MemoryStop.
Import MemoryStressor.

Lemma memory_request_stop s :
  StressorBase.running_ (base (request_stop s)) = false
  /\ workerThread_ (request_stop s) = workerThread_ s
  /\ allocations_ (request_stop s) = allocations_ s
  /\ config_ (request_stop s) = config_ s.
Proof.
  unfold request_stop, StressorBase.isRunning.
  by destruct (StressorBase.running_ (base s)) eqn:E.
Qed.

Lemma memory_workerFunction_stopped w s :
  StressorBase.running_ (base (workerFunction w s).2) = false.
Proof.
  unfold workerFunction. destruct (next_run w) as [passes w0].
  destruct (phase1 _ _ passes (w0, s)) as [rest ws1].
  destruct (foldl _ ws1 rest) as [w2 s2]. done.
Qed.

Lemma memory_join w s :
  StressorBase.running_ (base s) = false ->
  workerThread_ (join w s).2 = None
  /\ StressorBase.running_ (base (join w s).2) = false.
Proof.
  intros Hs. unfold join. destruct (workerThread_ s) as [[|]|] eqn:E; simpl; try done.
  pose proof (memory_workerFunction_stopped w s) as H.
  by destruct (workerFunction w s) as [w1 s1].
Qed.

Lemma memory_stop_post w s :
  workerThread_ (stop w s).2 = None
  /\ StressorBase.running_ (base (stop w s).2) = false
  /\ allocations_ (stop w s).2 = [] /\ allocatedBytes_ (stop w s).2 = 0.
Proof.
  unfold stop. destruct (memory_request_stop s) as (Hr & _).
  destruct (memory_join w (request_stop s) Hr) as [Hj1 Hj2].
  destruct (join w (request_stop s)) as [w2 s2]. simpl in *. done.
Qed.

Lemma memory_stop_idle w s :
  workerThread_ s = None -> StressorBase.running_ (base s) = false ->
  allocations_ s = [] -> allocatedBytes_ s = 0 -> stop w s = (w, s).
Proof.
  intros Ht Hr Ha Hb.
  unfold stop, request_stop, StressorBase.isRunning, join, releaseMemory, take_allocations.
  rewrite Hr, Ht, Ha. simpl. f_equal. destruct s; simpl in *; by subst.
Qed.

Lemma memory_set_thread_None s : workerThread_ s = None -> set_thread None s = s.
Proof. destruct s; simpl; by intros ->. Qed.

Lemma memory_stop_exited w s :
  StressorBase.running_ (base s) = false ->
  Forall (eq Exited) (option_list (workerThread_ s)) ->
  stop w s = releaseMemory (Stressor.joins Memory s w) (set_thread None s).
Proof.
  intros Hr Hex. unfold stop, request_stop, StressorBase.isRunning, join, Stressor.joins.
  rewrite Hr. simpl. destruct (workerThread_ s) as [[|]|] eqn:E; simpl in *.
  - by inversion Hex.
  - done.
  - by rewrite memory_set_thread_None.
Qed.

End MemoryStop.

Section CpuStop.
Import CPUStressor.

Lemma cpu_request_stop s :
  StressorBase.running_ (base (request_stop s)) = false
  /\ workerThreads_ (request_stop s) = workerThreads_ s.
Proof.
  unfold request_stop, StressorBase.isRunning.
  by destruct (StressorBase.running_ (base s)) eqn:E.
Qed.

Lemma cpu_workerFunction_stopped w s :
  StressorBase.running_ (base (workerFunction w s).2) = false.
Proof. unfold workerFunction. by destruct (next_batches w). Qed.

Lemma cpu_join_all ths w s :
  StressorBase.running_ (base s) = false ->
  StressorBase.running_ (base (foldl join_one (w, s) ths).2) = false.
Proof.
  revert w s. induction ths as [|th ths IH]; intros w s Hs; simpl; [done|].
  destruct (state th).
  - pose proof (cpu_workerFunction_stopped w s) as H.
    destruct (workerFunction w s) as [w1 s1]. by apply IH.
  - by apply IH.
Qed.

Lemma cpu_stop_post w s :
  workerThreads_ (stop w s).2 = []
  /\ StressorBase.running_ (base (stop w s).2) = false.
Proof.
  unfold stop. destruct (cpu_request_stop s) as [Hr Ht].
  pose proof (cpu_join_all (workerThreads_ (request_stop s)) w _ Hr) as H.
  by destruct (foldl join_one _ _) as [w2 s2].
Qed.

Lemma cpu_stop_idle w s :
  workerThreads_ s = [] -> StressorBase.running_ (base s) = false ->
  stop w s = (w, s).
Proof.
  intros Ht Hr. unfold stop, request_stop, StressorBase.isRunning.
  rewrite Hr, Ht. simpl. f_equal. destruct s; simpl in *; by subst.
Qed.

Lemma cpu_join_exited ths w s :
  Forall (eq Exited) (state <$> ths) ->
  foldl join_one (w, s) ths
  = (foldl (fun w1 _ => joined "cpu" w1) w (state <$> ths), s).
Proof.
  revert w. induction ths as [|th ths IH]; intros w Hex; simpl; [done|].
  rewrite fmap_cons in Hex. apply Forall_cons in Hex as [<- Hex]. by apply IH.
Qed.

Lemma cpu_stop_exited w s :
  StressorBase.running_ (base s) = false ->
  Forall (eq Exited) (state <$> workerThreads_ s) ->
  stop w s = (Stressor.joins Cpu s w, set_threads [] s).
Proof.
  intros Hr Hex. unfold stop, request_stop, StressorBase.isRunning, Stressor.joins.
  rewrite Hr. simpl. by rewrite cpu_join_exited.
Qed.

End CpuStop.

Section DiskStop.
Import DiskStressor.

Lemma unlink_entries dir name w es :
  entries dir w = Some es ->
  entries dir (unlink dir name w)
  = Some (match es !! name with Some RegularFile => delete name es | _ => es end).
Proof.
  intros He. unfold unlink. rewrite He.
  destruct (es !! name) as [[|]|]; try done.
  unfold entries. simpl. apply lookup_insert_eq.
Qed.

Lemma unlink_noop dir name w es :
  entries dir w = Some es -> es !! name <> Some RegularFile -> unlink dir name w = w.
Proof.
  intros He Hn. unfold unlink. rewrite He. by destruct (es !! name) as [[|]|].
Qed.

Lemma foldl_unlink_noop dir names w es :
  entries dir w = Some es ->
  (forall n, n ∈ names -> es !! n <> Some RegularFile) ->
  foldl (fun w1 name => unlink dir name w1) w names = w.
Proof.
  intros He. induction names as [|a names IH]; intros Hn; simpl; [done|].
  rewrite (unlink_noop dir a w es) by (try done; apply Hn; by left).
  apply IH. intros n Hin. apply Hn. by right.
Qed.

(** After the unlink loop over [names], a regular file among [names] is
    gone and every other entry is as before. *)
Lemma foldl_unlink_entries dir names w es :
  entries dir w = Some es ->
  exists es1,
    entries dir (foldl (fun w1 name => unlink dir name w1) w names) = Some es1
    /\ (forall n, n ∈ names -> es !! n = Some RegularFile -> es1 !! n = None)
    /\ (forall n, n ∉ names \/ es !! n <> Some RegularFile -> es1 !! n = es !! n).
Proof.
  revert w es. induction names as [|a names IH]; intros w es He; simpl.
  - exists es. split; [done|]. split; [|done]. intros n Hin. by apply elem_of_nil in Hin.
  - pose proof (unlink_entries dir a w es He) as Hu.
    destruct (IH _ _ Hu) as (es1 & He1 & Hgone & Hkept).
    exists es1. split; [done|]. split.
    + intros n Hin Hreg. destruct (decide (n = a)) as [->|Hne].
      * rewrite Hkept; [by rewrite Hreg, lookup_delete_eq|].
        right. by rewrite Hreg, lookup_delete_eq.
      * apply elem_of_cons in Hin as [?|Hin]; [done|].
        apply Hgone; [done|].
        destruct (es !! a) as [[|]|]; [by rewrite lookup_delete_ne|done|done].
    + intros n Hn.
      assert (Hsame : (match es !! a with
                       | Some RegularFile => delete a es | _ => es end) !! n = es !! n
                      \/ (n = a /\ es !! a = Some RegularFile)).
      { destruct (decide (n = a)) as [->|Hne].
        - destruct (es !! a) as [[|]|] eqn:Ea; [by right|by left|by left].
        - left. destruct (es !! a) as [[|]|]; [by rewrite lookup_delete_ne|done|done]. }
      destruct Hsame as [Hsame|[-> Hreg]].
      * rewrite Hkept; [done|].
        destruct Hn as [Hn|Hn]; [left|right].
        -- intros Hin. apply Hn. by right.
        -- by rewrite Hsame.
      * destruct Hn as [Hn|Hn]; [|done]. exfalso. apply Hn. by left.
Qed.

Lemma temp_names_elem (es : gmap string kind) n :
  n ∈ filter (fun name => is_temp name = true) (map_items es).*1
  <-> is_temp n = true /\ is_Some (es !! n).
Proof.
  rewrite list_elem_of_filter, list_elem_of_fmap. split.
  - intros [Ht ([k v] & -> & Hin)]. split; [done|].
    apply elem_of_map_items in Hin. by exists v.
  - intros [Ht [v Hv]]. split; [done|]. exists (n, v). split; [done|].
    by apply elem_of_map_items.
Qed.

Lemma disk_cleanup_post w s : Stressor.holds_nothing DiskIo (cleanup w s) s.
Proof.
  simpl. intros es1 name He1 Htemp Hreg. unfold cleanup in He1.
  destruct (entries (testPath (config_ s)) w) as [es|] eqn:He.
  - destruct (foldl_unlink_entries (testPath (config_ s))
                (filter (fun name => is_temp name = true) (map_items es).*1) w es He)
      as (es2 & He2 & Hgone & Hkept).
    rewrite He2 in He1. injection He1 as ->.
    destruct (es !! name) as [[|]|] eqn:Hn.
    + rewrite Hgone in Hreg; [done| |done].
      apply temp_names_elem. split; [done|]. by rewrite Hn.
    + rewrite Hkept in Hreg by (right; by rewrite Hn). by rewrite Hn in Hreg.
    + rewrite Hkept in Hreg by (right; by rewrite Hn). by rewrite Hn in Hreg.
  - by rewrite He in He1.
Qed.

Lemma disk_cleanup_idle w s : Stressor.holds_nothing DiskIo w s -> cleanup w s = w.
Proof.
  simpl. intros Hn. unfold cleanup.
  destruct (entries (testPath (config_ s)) w) as [es|] eqn:He; [|done].
  apply (foldl_unlink_noop _ _ _ es He).
  intros n Hin. apply temp_names_elem in Hin as [Ht _]. by apply Hn.
Qed.

Lemma disk_request_stop s :
  StressorBase.running_ (base (request_stop s)) = false
  /\ workerThread_ (request_stop s) = workerThread_ s.
Proof.
  unfold request_stop, StressorBase.isRunning.
  by destruct (StressorBase.running_ (base s)) eqn:E.
Qed.

Lemma disk_workerFunction_stopped w s w1 s1 :
  workerFunction w s = Some (w1, s1) ->
  StressorBase.running_ (base s1) = false.
Proof.
  unfold workerFunction. destruct (negb _); [done|].
  destruct (next_run w) as [passes w0].
  destruct (foldlM _ _ passes) as [[l [wf sf]]|]; [|done].
  intros H; inversion H; subst. done.
Qed.

Lemma disk_join w s w1 s1 :
  StressorBase.running_ (base s) = false ->
  join w s = Some (w1, s1) ->
  workerThread_ s1 = None
  /\ StressorBase.running_ (base s1) = false.
Proof.
  intros Hs. unfold join. destruct (workerThread_ s) as [[|]|] eqn:E.
  - destruct (workerFunction w s) as [[wf sf]|] eqn:Ew; [|done].
    intros H; inversion H; subst. simpl. split; [done|].
    by eapply disk_workerFunction_stopped.
  - intros H; inversion H; subst. done.
  - intros H; inversion H; subst. done.
Qed.

Lemma disk_stop_post w s w1 s1 :
  stop w s = Some (w1, s1) ->
  workerThread_ s1 = None
  /\ StressorBase.running_ (base s1) = false
  /\ Stressor.holds_nothing DiskIo w1 s1.
Proof.
  unfold stop. destruct (disk_request_stop s) as (Hr & _).
  destruct (join w (request_stop s)) as [[w2 s2]|] eqn:Ej; [|done].
  destruct (disk_join _ _ _ _ Hr Ej) as [Hj1 Hj2].
  intros H; inversion H; subst.
  split; [done|]. split; [done|]. apply disk_cleanup_post.
Qed.

Lemma disk_stop_aborts w s :
  stop w s = None -> Stressor.worker_aborts DiskIo w s.
Proof.
  unfold stop, join. simpl. destruct (disk_request_stop s) as [_ Ht]. rewrite Ht.
  destruct (workerThread_ s) as [[|]|]; try done.
  by destruct (workerFunction w (request_stop s)) as [[? ?]|].
Qed.

Lemma disk_stop_idle w s :
  workerThread_ s = None -> StressorBase.running_ (base s) = false ->
  Stressor.holds_nothing DiskIo w s -> stop w s = Some (w, s).
Proof.
  intros Ht Hr Hn. unfold stop, request_stop, StressorBase.isRunning, join.
  rewrite Hr, Ht. by rewrite disk_cleanup_idle.
Qed.

Lemma disk_set_thread_None s : workerThread_ s = None -> set_thread None s = s.
Proof. destruct s; simpl; by intros ->. Qed.

Lemma disk_stop_exited w s :
  StressorBase.running_ (base s) = false ->
  Forall (eq Exited) (option_list (workerThread_ s)) ->
  stop w s
  = Some (cleanup (Stressor.joins DiskIo s w) (set_thread None s), set_thread None s).
Proof.
  intros Hr Hex. unfold stop, request_stop, StressorBase.isRunning, join, Stressor.joins.
  rewrite Hr. simpl. destruct (workerThread_ s) as [[|]|] eqn:E; simpl in *.
  - by inversion Hex.
  - done.
  - by rewrite disk_set_thread_None.
Qed.

End DiskStop.

(** C6.  For every generator, [stop] is idempotent.  Whatever the state it
    is called in, when it returns the worker threads have been joined, the
    generator is not running and holds nothing that is left to undo, and a
    second [stop] changes neither the generator nor the device.  In
    particular, on a run that ended by itself (not running, every worker
    exited) [stop] still joins the workers and runs the restoration step.
    [stop] fails to return only if a worker it waits for ends the process:
    the thermal worker can, and the disk worker. *)
Theorem stop_is_idempotent (k : StressorKind) (w : World) (s : Stressor.state k) :
  (Stressor.isRunning k s = false ->
   Forall (eq Exited) (Stressor.threads k s) ->
   Stressor.stop k w s
   = Some (Stressor.cleanup k (Stressor.joins k s w) (Stressor.detach k s)))
  /\ match Stressor.stop k w s with
     | Some (w1, s1) =>
         Stressor.threads k s1 = []
         /\ Stressor.isRunning k s1 = false
         /\ Stressor.holds_nothing k w1 s1
         /\ Stressor.stop k w1 s1 = Some (w1, s1)
     | None => Stressor.worker_aborts k w s
     end.
Proof.
  destruct k; unfold Stressor.isRunning, StressorBase.isRunning; simpl.
  - split.
    + intros Hr Hex. by rewrite cpu_stop_exited.
    + destruct (cpu_stop_post w s) as [Ht Hr].
      destruct (CPUStressor.stop w s) as [w1 s1]. simpl in *.
      rewrite Ht. repeat split; try done. by rewrite cpu_stop_idle.
  - split.
    + intros Hr Hex. by rewrite memory_stop_exited.
    + destruct (memory_stop_post w s) as (Ht & Hr & Ha & Hb).
      destruct (MemoryStressor.stop w s) as [w1 s1]. simpl in *.
      rewrite Ht. repeat split; try done. by rewrite memory_stop_idle.
  - split.
    + intros Hr Hex. by rewrite disk_stop_exited.
    + destruct (DiskStressor.stop w s) as [[w1 s1]|] eqn:Es.
      * destruct (disk_stop_post _ _ _ _ Es) as (Ht & Hr & Hn).
        rewrite Ht. repeat split; try done. by apply disk_stop_idle.
      * by apply disk_stop_aborts.
  - split.
    + intros Hr Hex. by rewrite net_stop_exited.
    + destruct (net_stop_post w s) as (Ht & Hr & Ha).
      destruct (NetworkStressor.stop w s) as [w1 s1]. simpl in *.
      rewrite Ht. repeat split; try done. by rewrite net_stop_idle.
  - split.
    + intros Hr Hex. by rewrite thermal_stop_exited.
    + destruct (ThermalStressor.stop w s) as [[w1 s1]|] eqn:Es.
      * destruct (thermal_stop_post _ _ _ _ Es) as (Ht & Hr & Ho).
        rewrite Ht. repeat split; try done. by apply thermal_stop_idle.
      * by apply thermal_stop_aborts.
Qed.

(** The thermal run of the example device that ended by itself: its
    snapshot is still there; [stop] joins the worker and writes the snapshot
    back (the governor is the one from before the run), and a second [stop]
    changes nothing. *)
Lemma stop_is_idempotent_witness :
  ThermalStressor.originalSettings_ thermal_expired.2 <> ∅
  /\ exists w1 s1,
       Stressor.stop Thermal thermal_expired.1 thermal_expired.2 = Some (w1, s1)
       /\ attrs (sys w1) !! ThermalStressor.governor_path 0 = Some "schedutil"%string
       /\ ThermalStressor.originalSettings_ s1 = ∅
       /\ Stressor.stop Thermal w1 s1 = Some (w1, s1).
Proof.
  split; [by vm_compute|].
  destruct (stop_is_idempotent Thermal thermal_expired.1 thermal_expired.2)
    as [Hexited Hpost].
  assert (Hr : Stressor.isRunning Thermal thermal_expired.2 = false) by (vm_compute; reflexivity).
  assert (Hex : Forall (eq Exited) (Stressor.threads Thermal thermal_expired.2)).
  { vm_compute. by repeat constructor. }
  specialize (Hexited Hr Hex). rewrite Hexited in Hpost.
  destruct (Stressor.cleanup Thermal _ _) as [w1 s1] eqn:Ec.
  exists w1, s1. split; [exact Hexited|].
  destruct Hpost as (_ & _ & Ho & Hidem). split; [|by split].
  replace w1 with (Stressor.cleanup Thermal
      (Stressor.joins Thermal thermal_expired.2 thermal_expired.1)
      (Stressor.detach Thermal thermal_expired.2)).1 by (by rewrite Ec).
  vm_compute. reflexivity.
Defined.

(* --------------------------------------------------------------------- *)
(** ** The memory generator                                               *)
(* --------------------------------------------------------------------- *)

Section MemoryRun.
Import MemoryStressor.

Lemma heap_inv_start len w : heap_inv len w w [].
Proof.
  repeat split; try done; try (simpl; lia).
  - constructor.
  - intros p Hp. by apply elem_of_nil in Hp.
Qed.

(** Steps that leave the heap alone (log entries, the loop oracle). *)
Lemma heap_inv_same len w0 w w1 l :
  live (mem w1) = live (mem w) ->
  allocated_total (mem w1) = allocated_total (mem w) ->
  released_total (mem w1) = released_total (mem w) ->
  heap_inv len w0 w l -> heap_inv len w0 w1 l.
Proof. intros H1 H2 H3 (?&?&?&?&?). unfold heap_inv. by rewrite H1, H2, H3. Qed.

Lemma allocateChunk_failed len answer w w1 :
  allocateChunk len answer w = (None, w1) -> w1 = w.
Proof.
  unfold allocateChunk. destruct answer as [p|]; [|by intros [= <-]].
  destruct (live (mem w) !! p); [by intros [= <-]|by intros [=]].
Qed.

Lemma heap_inv_alloc len w0 w l answer p w1 :
  heap_inv len w0 w l ->
  allocateChunk len answer w = (Some p, w1) ->
  heap_inv len w0 w1 (l ++ [p]).
Proof.
  intros (Hnd & Hfresh & Hlive & Ha & Hr). unfold allocateChunk.
  destruct answer as [q|]; [|by intros [=]].
  destruct (live (mem w) !! q) eqn:Hq; [by intros [=]|].
  intros H; inversion H; subst q w1; clear H.
  unfold heap_inv.
  cbn [emit set_log set_mem set_heap mem live allocated_total released_total].
  assert (Hnl : p ∉ l).
  { intros Hin. rewrite Hlive, bool_decide_true in Hq by done. done. }
  assert (Hp0 : live (mem w0) !! p = None).
  { rewrite Hlive, bool_decide_false in Hq by done. done. }
  repeat split.
  - apply NoDup_app. split; [done|]. split; [|apply NoDup_singleton].
    intros x Hx Hx'. apply list_elem_of_singleton in Hx'. by subst.
  - intros x Hx. apply elem_of_app in Hx as [Hx|Hx]; [by apply Hfresh|].
    apply list_elem_of_singleton in Hx. by subst.
  - intros x. destruct (decide (x = p)) as [->|Hne].
    + rewrite lookup_insert_eq, bool_decide_true; [done|].
      apply elem_of_app. right. by apply list_elem_of_singleton.
    + rewrite lookup_insert_ne by done. rewrite Hlive.
      rewrite (bool_decide_ext (x ∈ l ++ [p]) (x ∈ l)); [done|].
      rewrite elem_of_app, list_elem_of_singleton.
      split; [intros [?|?]; done|by left].
  - rewrite Ha, length_app. simpl. lia.
  - done.
Qed.

Lemma heap_inv_record len w0 ptr lock w s :
  heap_inv len w0 w (allocations_ s ++ [ptr]) ->
  heap_inv len w0 (record_chunk ptr len lock (w, s)).1
           (allocations_ (record_chunk ptr len lock (w, s)).2).
Proof.
  intros H. unfold record_chunk. simpl.
  destruct lock; [|done]. by eapply heap_inv_same; [..|exact H].
Qed.

Lemma record_chunk_config ptr len lock ws :
  config_ (record_chunk ptr len lock ws).2 = config_ ws.2.
Proof. by destruct ws. Qed.

(** Phase 1 keeps the heap accounted for, whatever passes it makes. *)
Lemma heap_inv_phase1 cfg w0 passes ws rest ws1 :
  phase1 cfg (chunk_size cfg) passes ws = (rest, ws1) ->
  heap_inv (chunk_size cfg) w0 ws.1 (allocations_ ws.2) ->
  heap_inv (chunk_size cfg) w0 ws1.1 (allocations_ ws1.2)
  /\ config_ ws1.2 = config_ ws.2.
Proof.
  revert ws. induction passes as [|[availableMB answer] passes IH];
    intros ws Heq H; cbn [phase1] in Heq.
  - by inversion Heq; subst.
  - destruct (availableMB <=? targetFreeMB cfg); [by inversion Heq; subst|].
    destruct (allocateChunk (chunk_size cfg) answer ws.1) as [[ptr|] w1] eqn:Ea.
    + pose proof (heap_inv_alloc _ _ _ _ _ _ _ H Ea) as H1.
      apply (heap_inv_record _ _ _ (lockMemory cfg)) in H1.
      destruct (IH _ Heq H1) as [Hi Hc]. split; [done|].
      by rewrite Hc, record_chunk_config.
    + apply allocateChunk_failed in Ea as ->.
      by destruct (IH _ Heq H) as [Hi Hc].
Qed.

Lemma heap_inv_phase2_pass cfg w0 ws pass :
  heap_inv (chunk_size cfg) w0 ws.1 (allocations_ ws.2) ->
  heap_inv (chunk_size cfg) w0 (phase2 cfg (chunk_size cfg) ws pass).1
           (allocations_ (phase2 cfg (chunk_size cfg) ws pass).2)
  /\ config_ (phase2 cfg (chunk_size cfg) ws pass).2 = config_ ws.2.
Proof.
  intros H. unfold phase2. destruct pass as [availableMB answer].
  destruct (_ <? availableMB); [|done].
  destruct (allocateChunk (chunk_size cfg) answer ws.1) as [[ptr|] w1] eqn:Ea.
  - pose proof (heap_inv_alloc _ _ _ _ _ _ _ H Ea) as H1.
    apply (heap_inv_record _ _ _ (lockMemory cfg)) in H1.
    split; [done|]. by rewrite record_chunk_config.
  - by apply allocateChunk_failed in Ea as ->.
Qed.

Lemma heap_inv_phase2 cfg w0 passes ws :
  heap_inv (chunk_size cfg) w0 ws.1 (allocations_ ws.2) ->
  heap_inv (chunk_size cfg) w0 (foldl (phase2 cfg (chunk_size cfg)) ws passes).1
           (allocations_ (foldl (phase2 cfg (chunk_size cfg)) ws passes).2)
  /\ config_ (foldl (phase2 cfg (chunk_size cfg)) ws passes).2 = config_ ws.2.
Proof.
  revert ws. induction passes as [|pass passes IH]; intros ws H; [done|].
  cbn [foldl].
  destruct (heap_inv_phase2_pass cfg w0 ws pass H) as [H1 Hc1].
  destruct (IH _ H1) as [Hi Hc]. split; [done|]. by rewrite Hc.
Qed.

(** Giving back the recorded regions one by one returns the heap to what it
    was, and accounts their bytes as released. *)
Lemma release_all cfg w0 l w :
  NoDup l ->
  (forall p, p ∈ l -> live (mem w0) !! p = None) ->
  (forall q, live (mem w) !! q
             = if bool_decide (q ∈ l) then Some (chunk_size cfg) else live (mem w0) !! q) ->
  let w1 := foldl (release_one cfg) w l in
  live (mem w1) = live (mem w0)
  /\ allocated_total (mem w1) = allocated_total (mem w)
  /\ released_total (mem w1)
     = released_total (mem w) + chunk_size cfg * Z.of_nat (length l).
Proof.
  revert w. induction l as [|p l IH]; intros w Hnd Hfresh Hlive; cbn [foldl].
  - cbn zeta. split; [|split; [done|simpl; lia]].
    apply map_eq. intros q. by rewrite Hlive.
  - apply NoDup_cons in Hnd as [Hp Hnd].
    assert (Hown : live (mem w) !! p = Some (chunk_size cfg)).
    { rewrite Hlive, bool_decide_true; [done|by left]. }
    assert (Hone : live (mem (release_one cfg w p)) = delete p (live (mem w))
                   /\ allocated_total (mem (release_one cfg w p)) = allocated_total (mem w)
                   /\ released_total (mem (release_one cfg w p))
                      = released_total (mem w) + chunk_size cfg).
    { unfold release_one, munmap, free.
      destruct (lockMemory cfg), (useAnonymousMmap cfg);
        cbn [emit set_log mem live]; by rewrite Hown. }
    destruct Hone as (Hl1 & Ha1 & Hr1).
    destruct (IH (release_one cfg w p)) as (Hl & Ha & Hr).
    + done.
    + intros q Hq. apply Hfresh. by right.
    + intros q. rewrite Hl1. destruct (decide (q = p)) as [->|Hne].
      * rewrite lookup_delete_eq, bool_decide_false by done.
        symmetry. apply Hfresh. by left.
      * rewrite lookup_delete_ne by done. rewrite Hlive.
        rewrite (bool_decide_ext (q ∈ p :: l) (q ∈ l)); [done|].
        rewrite elem_of_cons. split; [intros [?|?]; done|by right].
    + cbn zeta. split; [done|]. split; [by rewrite Ha|].
      rewrite Hr, Hr1. rewrite length_cons. lia.
Qed.

Lemma balanced_refl len w w1 :
  live (mem w1) = live (mem w) ->
  allocated_total (mem w1) = allocated_total (mem w) ->
  released_total (mem w1) = released_total (mem w) ->
  balanced len w w1 0.
Proof.
  intros H1 H2 H3. unfold balanced. rewrite H1, H2, H3.
  split; [done|split; lia].
Qed.

Lemma balanced_same len w w1 w2 n :
  live (mem w2) = live (mem w1) ->
  allocated_total (mem w2) = allocated_total (mem w1) ->
  released_total (mem w2) = released_total (mem w1) ->
  balanced len w w1 n -> balanced len w w2 n.
Proof. intros H1 H2 H3 (?&?&?). unfold balanced. by rewrite H1, H2, H3. Qed.

Lemma releaseMemory_empty w s :
  allocations_ s = [] -> (releaseMemory w s).1 = w.
Proof. intros H. unfold releaseMemory, take_allocations. by rewrite H. Qed.

(** The worker, started with nothing recorded, leaves the heap balanced
    whatever passes its two phases make. *)
Lemma memory_worker_balanced w s :
  allocations_ s = [] ->
  exists n, balanced (chunk_size (config_ s)) w (workerFunction w s).1 n
            /\ allocations_ (workerFunction w s).2 = []
            /\ allocatedBytes_ (workerFunction w s).2 = 0
            /\ config_ (workerFunction w s).2 = config_ s.
Proof.
  intros Hnone. unfold workerFunction.
  destruct (next_run w) as [passes w0] eqn:En.
  assert (Hw0 : live (mem w0) = live (mem w)
                /\ allocated_total (mem w0) = allocated_total (mem w)
                /\ released_total (mem w0) = released_total (mem w)).
  { revert En. unfold next_run. destruct (mem_runs (mem w)); by intros [= <- <-]. }
  destruct Hw0 as (Hl0 & Ha0 & Hr0).
  destruct (phase1 _ _ passes (w0, s)) as [rest ws1] eqn:E1.
  assert (H0 : heap_inv (chunk_size (config_ s)) w0 (w0, s).1 (allocations_ (w0, s).2)).
  { simpl. rewrite Hnone. apply heap_inv_start. }
  destruct (heap_inv_phase1 _ _ _ _ _ _ E1 H0) as [H1 Hc1].
  destruct (heap_inv_phase2 _ _ rest _ H1) as [H2 Hc2].
  destruct (foldl _ ws1 rest) as [w2 s2]. simpl in H2, Hc2, Hc1.
  destruct H2 as (Hnd & Hfresh & Hlive & Ha & Hr).
  exists (length (allocations_ s2)).
  unfold releaseMemory, take_allocations. cbn [fst snd].
  replace (config_ (set_base (StressorBase.markStopped (base s2)) s2)) with (config_ s)
    by (simpl; by rewrite Hc2, Hc1).
  replace (allocations_ (set_base (StressorBase.markStopped (base s2)) s2))
    with (allocations_ s2) by done.
  destruct (release_all (config_ s) w0 (allocations_ s2) w2 Hnd Hfresh Hlive)
    as (Hl3 & Ha3 & Hr3).
  split; [|by rewrite <- Hc1, <- Hc2].
  unfold balanced. rewrite Hl3, Ha3, Hr3, Ha, Hr, Hl0, Ha0, Hr0.
  split; [done|split; lia].
Qed.

Lemma memory_stop_balanced w s :
  allocations_ s = [] ->
  exists n, balanced (chunk_size (config_ s)) w (stop w s).1 n
            /\ allocations_ (stop w s).2 = []
            /\ allocatedBytes_ (stop w s).2 = 0.
Proof.
  intros Hnone. unfold stop.
  destruct (memory_request_stop s) as (_ & Ht & Hal & Hcf).
  rewrite Hnone in Hal. unfold join. rewrite Ht.
  destruct (workerThread_ s) as [[|]|].
  - destruct (memory_worker_balanced w (request_stop s) Hal) as (n & Hb & Ha & Hz & _).
    rewrite Hcf in Hb.
    destruct (workerFunction w (request_stop s)) as [w1 s1]. cbn [fst snd] in *.
    exists n. rewrite releaseMemory_empty by done. split; [|done].
    by eapply balanced_same; [..|exact Hb].
  - exists 0%nat. rewrite releaseMemory_empty by done. split; [|done].
    by apply balanced_refl.
  - exists 0%nat. rewrite releaseMemory_empty by done. split; [|done].
    by apply balanced_refl.
Qed.

Lemma release_states_last cfg l w s1 :
  last (release_states cfg w s1 l) = Some (foldl (release_one cfg) w l, s1).
Proof.
  revert w. induction l as [|p l IH]; intros w; [done|].
  cbn [release_states foldl]. rewrite <- IH. by destruct l.
Qed.

Lemma balanced_trans len w w1 w2 n m :
  balanced len w w1 n -> balanced len w1 w2 m -> balanced len w w2 (n + m).
Proof.
  intros (Hl1 & Ha1 & Hr1) (Hl2 & Ha2 & Hr2). unfold balanced.
  rewrite Hl2, Hl1. split; [done|]. rewrite Nat2Z.inj_add. split; lia.
Qed.

Lemma releaseMemory_states_order w s :
  exists rest,
    releaseMemory_states w s = (w, set_allocations [] 0 s) :: rest
    /\ last (releaseMemory_states w s) = Some (releaseMemory w s).
Proof.
  unfold releaseMemory_states, releaseMemory, take_allocations.
  rewrite release_states_last. destruct (allocations_ s); by eexists.
Qed.

(** C4 (what the code does).  Memory generator.  [releaseMemory] first moves
    the allocation list out and clears it, the device untouched, and only
    then gives the regions back one by one.  For every run started with
    nothing recorded, whatever passes the two phases make before the stop
    flag or the deadline ends them, and whether [stop] finds the worker
    still pending or already exited by itself: once [stop] has returned, the
    bytes given back since the start equal the bytes obtained (one chunk per
    recorded region), the regions owned are those from before the start, the
    allocation list is empty and the counter is zero. *)
Theorem memory_run_is_balanced :
  (forall w s, exists rest,
      releaseMemory_states w s = (w, set_allocations [] 0 s) :: rest
      /\ last (releaseMemory_states w s) = Some (releaseMemory w s))
  /\ (forall config w s,
      StressorBase.isRunning (base s) = false ->
      workerThread_ s = None ->
      allocations_ s = [] ->
      exists s1,
        start config w s = Some (true, w, s1)
        /\ (exists n, balanced (chunk_size config) w (stop w s1).1 n
                      /\ allocations_ (stop w s1).2 = []
                      /\ allocatedBytes_ (stop w s1).2 = 0)
        /\ (exists n, balanced (chunk_size config) w
                        (stop (worker_exit w s1).1 (worker_exit w s1).2).1 n
                      /\ allocations_ (stop (worker_exit w s1).1 (worker_exit w s1).2).2 = []
                      /\ allocatedBytes_ (stop (worker_exit w s1).1 (worker_exit w s1).2).2 = 0)).
Proof.
  split.
  - apply releaseMemory_states_order.
  - intros config w s Hidle Hth Hnone. unfold start. rewrite Hidle. simpl. rewrite Hth.
    eexists. split; [done|].
    set (s1 := set_thread _ _).
    assert (Hs1 : allocations_ s1 = []) by done.
    assert (Hc1 : config_ s1 = config) by done.
    split.
    + destruct (memory_stop_balanced w s1 Hs1) as (n & Hb & Ha & Hz).
      rewrite Hc1 in Hb. by exists n.
    + unfold worker_exit. replace (workerThread_ s1) with (Some Spawned) by done.
      destruct (memory_worker_balanced w s1 Hs1) as (n & Hb & Ha & Hz & Hc).
      destruct (workerFunction w s1) as [we se]. cbn [fst snd] in *.
      assert (Hse : allocations_ (set_thread (Some Exited) se) = []) by done.
      destruct (memory_stop_balanced we _ Hse) as (m & Hb2 & Ha2 & Hz2).
      replace (config_ (set_thread (Some Exited) se)) with config in Hb2
        by (simpl; by rewrite Hc, Hc1).
      rewrite Hc1 in Hb.
      exists (n + m)%nat. split; [|done]. by eapply balanced_trans.
Qed.

(** On the example device the run records two chunks of 10 MB and gives
    both back. *)
Lemma memory_run_is_balanced_witness :
  exists s1,
    start default_config Example.device init = Some (true, Example.device, s1)
    /\ balanced (chunk_size default_config) Example.device (stop Example.device s1).1 2
    /\ allocations_ (stop Example.device s1).2 = [].
Proof.
  destruct memory_run_is_balanced as [_ Hrun].
  destruct (Hrun default_config Example.device init) as (s1 & Hs & (n & Hb & Ha & _) & _);
    [reflexivity..|].
  exists s1. split; [exact Hs|]. split; [|exact Ha].
  injection Hs as <-.
  vm_compute. repeat split.
Defined.

(** C4 (the claim as stated fails).  After phase 1 on the example device two
    regions are recorded; the first state [releaseMemory] goes through has
    the list cleared while both regions are still owned. *)
Lemma memory_list_cleared_before_release :
  ~ released_before_cleared memory_after_phase1.1 memory_after_phase1.2.
Proof.
  intros H.
  specialize (H (memory_after_phase1.1,
                 set_allocations [] 0 memory_after_phase1.2)).
  assert (Hin : (memory_after_phase1.1, set_allocations [] 0 memory_after_phase1.2)
                ∈ releaseMemory_states memory_after_phase1.1 memory_after_phase1.2).
  { destruct (releaseMemory_states_order memory_after_phase1.1 memory_after_phase1.2)
      as (rest & -> & _).
    by left. }
  specialize (H Hin eq_refl 4096).
  assert (Hrec : 4096 ∈ allocations_ memory_after_phase1.2).
  { vm_compute. by left. }
  specialize (H Hrec). vm_compute in H. discriminate H.
Qed.

End MemoryRun.

(* --------------------------------------------------------------------- *)
(** ** The event log under the generators                                 *)
(* --------------------------------------------------------------------- *)

Section Log.

Lemma extends_refl w : extends w w.
Proof. exists []. split; [by rewrite app_nil_r|constructor]. Qed.

Lemma extends_trans w1 w2 w3 : extends w1 w2 -> extends w2 w3 -> extends w1 w3.
Proof.
  intros (e1 & H1 & F1) (e2 & H2 & F2). exists (e1 ++ e2). split.
  - by rewrite H2, H1, app_assoc.
  - by apply Forall_app.
Qed.

Lemma extends_log w w1 : log w1 = log w -> extends w w1.
Proof. intros H. exists []. split; [by rewrite app_nil_r|constructor]. Qed.

Lemma extends_emit w w1 e :
  log w1 = log w -> blocking e = true -> extends w (emit e w1).
Proof.
  intros H He. exists [e]. split; [simpl; by rewrite H|].
  by constructor.
Qed.

Lemma joins_in_joined owner w w1 :
  extends w w1 -> joins_in owner w (joined owner w1).
Proof.
  intros (evs & H & F). exists (evs ++ [EvJoin owner]). split; [split|].
  - simpl. by rewrite H, app_assoc.
  - apply Forall_app. split; [done|]. by constructor.
  - apply elem_of_app. right. by left.
Qed.

Lemma joins_in_extends_r owner w w1 w2 :
  joins_in owner w w1 -> extends w1 w2 -> joins_in owner w w2.
Proof.
  intros (e1 & [H1 F1] & Hin) (e2 & H2 & F2). exists (e1 ++ e2). split; [split|].
  - by rewrite H2, H1, app_assoc.
  - by apply Forall_app.
  - apply elem_of_app. by left.
Qed.

Lemma joins_in_extends_l owner w w1 w2 :
  extends w w1 -> joins_in owner w1 w2 -> joins_in owner w w2.
Proof.
  intros (e1 & H1 & F1) (e2 & [H2 F2] & Hin). exists (e1 ++ e2). split; [split|].
  - by rewrite H2, H1, app_assoc.
  - by apply Forall_app.
  - apply elem_of_app. by right.
Qed.

Lemma joins_in_extends owner w w1 : joins_in owner w w1 -> extends w w1.
Proof. intros (evs & H & _). by exists evs. Qed.

Lemma foldl_extends {A B} (proj : A -> World) (f : A -> B -> A) :
  (forall a x, extends (proj a) (proj (f a x))) ->
  forall l a, extends (proj a) (proj (foldl f a l)).
Proof.
  intros Hf l. induction l as [|x l IH]; intros a; simpl.
  - apply extends_refl.
  - eapply extends_trans; [apply Hf|apply IH].
Qed.

Lemma foldlM_extends {A B} (proj : A -> World) (f : A -> B -> option A) :
  (forall a x a1, f a x = Some a1 -> extends (proj a) (proj a1)) ->
  forall l a a1, foldlM f a l = Some a1 -> extends (proj a) (proj a1).
Proof.
  intros Hf l. induction l as [|x l IH]; intros a a1; simpl.
  - intros [= <-]. apply extends_refl.
  - destruct (f a x) as [a2|] eqn:E; [|done].
    intros H. eapply extends_trans; [by eapply Hf|by apply IH].
Qed.

Lemma writeSysFile_extends path value w : extends w (writeSysFile path value w).2.
Proof.
  unfold writeSysFile. destruct (writable path w); simpl.
  - by apply extends_emit.
  - apply extends_refl.
Qed.

Lemma foldl_write_back_extends l w : extends w (foldl write_back w l).
Proof.
  apply (foldl_extends (fun w => w)). intros a x. apply writeSysFile_extends.
Qed.

End Log.

Section NetworkLog.
Import NetworkStressor.

Lemma executeCommand_extends c w : extends w (executeCommand c w).2.
Proof.
  unfold executeCommand, run_command.
  destruct c; simpl;
    repeat match goal with
           | |- context [match ?x with _ => _ end] => destruct x; simpl
           end;
    by apply extends_emit.
Qed.

Lemma removeTcRules_extends w s : extends w (removeTcRules w s).1.
Proof.
  unfold removeTcRules. destruct (tcRulesApplied_ s); cbn [negb]; [|apply extends_refl].
  pose proof (executeCommand_extends (TcDelRoot (targetInterface (config_ s))) w) as H.
  by destruct (executeCommand _ w) as [[? ?] ?].
Qed.

Lemma apply_netem_extends w s : extends w (apply_netem w s).1.2.
Proof.
  unfold apply_netem. destruct (_ || _); [|apply extends_refl].
  pose proof (executeCommand_extends
                (TcAddNetem (targetInterface (config_ s))
                            (0 <? bandwidthLimitKbps (config_ s))
                            (latencyMs (config_ s)) (packetLossPercent (config_ s))) w) as H.
  destruct (executeCommand (TcAddNetem _ _ _ _) w) as [[ok out] w1].
  cbn [fst snd] in H. destruct ok; cbn [negb fst snd]; [done|].
  pose proof (removeTcRules_extends w1 s) as H1.
  destruct (removeTcRules w1 s) as [w2 s2]. cbn [fst snd] in *. by eapply extends_trans.
Qed.

Lemma applyTcRules_extends w s : extends w (applyTcRules w s).1.2.
Proof.
  unfold applyTcRules.
  pose proof (removeTcRules_extends w s) as H0.
  destruct (removeTcRules w s) as [w0 s0]. cbn [fst snd] in H0.
  destruct (_ && _); [done|].
  destruct (0 <? _).
  - pose proof (executeCommand_extends (TcAddHtbRoot (targetInterface (config_ s))) w0) as H1.
    destruct (executeCommand (TcAddHtbRoot (targetInterface (config_ s))) w0)
      as [[ok1 out1] w1].
    cbn [fst snd] in H1. destruct ok1; cbn [negb fst snd]; [|by eapply extends_trans].
    pose proof (executeCommand_extends
                  (TcAddHtbClass (targetInterface (config_ s))
                                 (bandwidthLimitKbps (config_ s))) w1) as H2.
    destruct (executeCommand (TcAddHtbClass _ _) w1) as [[ok2 out2] w2].
    cbn [fst snd] in H2. destruct ok2; cbn [negb fst snd].
    + eapply extends_trans; [exact H0|]. eapply extends_trans; [exact H1|].
      eapply extends_trans; [exact H2|]. apply apply_netem_extends.
    + pose proof (removeTcRules_extends w2 s0) as H3.
      destruct (removeTcRules w2 s0) as [w3 s3]. cbn [fst snd] in *.
      eapply extends_trans; [exact H0|]. eapply extends_trans; [exact H1|].
      by eapply extends_trans.
  - eapply extends_trans; [exact H0|]. apply apply_netem_extends.
Qed.

Lemma net_workerFunction_extends w s : extends w (workerFunction w s).1.
Proof.
  unfold workerFunction. pose proof (applyTcRules_extends w s) as H.
  destruct (applyTcRules w s) as [[ok w1] s1]. cbn [fst snd] in H.
  destruct ok; cbn [negb fst snd]; [|done].
  eapply extends_trans; [exact H|]. apply removeTcRules_extends.
Qed.

Lemma net_stop_log w s :
  extends w (stop w s).1
  /\ (workerThread_ s <> None -> joins_in "network" w (stop w s).1).
Proof.
  unfold stop. destruct (net_request_stop s) as [_ Ht].
  assert (Hj : extends w (join w (request_stop s)).1
               /\ (workerThread_ s <> None ->
                   joins_in "network" w (join w (request_stop s)).1)).
  { unfold join. rewrite Ht. destruct (workerThread_ s) as [[|]|].
    - pose proof (net_workerFunction_extends w (request_stop s)) as H.
      destruct (workerFunction w (request_stop s)) as [w1 s1]. simpl in *.
      assert (J : joins_in "network" w (joined "network" w1)) by by apply joins_in_joined.
      split; [by eapply joins_in_extends|done].
    - simpl.
      assert (J : joins_in "network" w (joined "network" w))
        by (apply joins_in_joined, extends_refl).
      split; [by eapply joins_in_extends|done].
    - simpl. split; [apply extends_refl|done]. }
  destruct (join w (request_stop s)) as [w2 s2]. simpl in Hj.
  destruct Hj as [He Hj]. pose proof (removeTcRules_extends w2 s2) as Hr. split.
  - by eapply extends_trans.
  - intros Hth. eapply joins_in_extends_r; [by apply Hj|done].
Qed.

Lemma net_start_log config w s r w1 s1 :
  start config w s = Some (r, w1, s1) -> extends w w1.
Proof.
  unfold start. destruct (StressorBase.isRunning (base s)).
  - intros [= <- <- <-]. apply extends_refl.
  - destruct (checkTcAvailable_world w) as (probes & Hw & Hp).
    destruct (checkTcAvailable w) as [avail wa]. simpl in Hw. subst wa.
    assert (He : extends w (set_log (log w ++ probes) w)).
    { exists probes. split; [done|]. eapply Forall_impl; [exact Hp|].
      by intros e [->| ->]. }
    destruct avail; simpl.
    + destruct (workerThread_ _); [done|]. by intros [= <- <- <-].
    + by intros [= <- <- <-].
Qed.

End NetworkLog.

Section ThermalLog.
Import ThermalStressor.

Lemma setCoreOnline_extends cpu online w : extends w (setCoreOnline cpu online w).2.
Proof.
  unfold setCoreOnline. destruct (cpu =? 0); [apply extends_refl|].
  apply writeSysFile_extends.
Qed.

Lemma force_online_extends ws cpu : extends ws.1 (force_online ws cpu).1.
Proof. destruct ws as [w s]. apply setCoreOnline_extends. Qed.

Lemma pin_frequency_extends pct ws cpu ws1 :
  pin_frequency pct ws cpu = Some ws1 -> extends ws.1 ws1.1.
Proof.
  destruct ws as [w s]. unfold pin_frequency.
  destruct (isCoreOnline cpu w); cbn [negb]; [|intros [= <-]; apply extends_refl].
  pose proof (writeSysFile_extends (governor_path cpu) "performance" w) as Hg.
  unfold setCpuGovernor.
  destruct (getMaxFrequency cpu _) as [maxFreq|]; [|done].
  destruct (getMinFrequency cpu _) as [minFreq|]; [|done].
  destruct (_ && _); intros [= <-]; cbn [fst]; [|done].
  eapply extends_trans; [exact Hg|]. apply writeSysFile_extends.
Qed.

Lemma applySettings_extends w s w1 s1 :
  applySettings w s = Some (w1, s1) -> extends w w1.
Proof.
  unfold applySettings. intros H.
  apply (foldlM_extends fst) in H; [|intros a x a1; apply pin_frequency_extends].
  eapply extends_trans; [|exact H].
  destruct (forceAllCoresOnline (config_ s)); [|apply extends_refl].
  apply (foldl_extends fst _ force_online_extends _ (w, s)).
Qed.

Lemma reonline_extends w cpu : extends w (reonline w cpu).
Proof.
  unfold reonline. destruct (isCoreOnline cpu w); cbn [negb]; [apply extends_refl|].
  apply setCoreOnline_extends.
Qed.

Lemma monitor_extends ws changes : extends ws.1 (monitor ws changes).1.
Proof.
  destruct ws as [w s]. unfold monitor.
  assert (Hsys : extends w (foldl system_sets w changes)).
  { apply (foldl_extends (fun w => w)). intros a x. by apply extends_log. }
  destruct (_ && _); cbn [fst]; [|done].
  eapply extends_trans; [exact Hsys|].
  apply (foldl_extends (fun w => w)). apply reonline_extends.
Qed.

Lemma thermal_workerFunction_extends w s w1 s1 :
  workerFunction w s = Some (w1, s1) -> extends w w1.
Proof.
  unfold workerFunction. destruct (applySettings w s) as [[wa sa]|] eqn:Ea; [|done].
  apply applySettings_extends in Ea.
  assert (Hn : extends wa (next_run wa).2).
  { unfold next_run. destruct (drift (sys wa)); [apply extends_refl|by apply extends_log]. }
  destruct (next_run wa) as [passes w2]. cbn [snd] in Hn.
  pose proof (foldl_extends fst monitor monitor_extends passes (w2, sa)) as Hm.
  destruct (foldl monitor (w2, sa) passes) as [w3 s3]. cbn [fst] in Hm.
  intros [= <- <-]. eapply extends_trans; [exact Ea|]. by eapply extends_trans.
Qed.

Lemma thermal_stop_log w s w1 s1 :
  stop w s = Some (w1, s1) ->
  extends w w1 /\ (workerThread_ s <> None -> joins_in "thermal" w w1).
Proof.
  unfold stop. destruct (thermal_request_stop s) as [_ Ht].
  destruct (join w (request_stop s)) as [[w2 s2]|] eqn:Ej; [|done].
  assert (Hj : extends w w2 /\ (workerThread_ s <> None -> joins_in "thermal" w w2)).
  { revert Ej. unfold join. rewrite Ht. destruct (workerThread_ s) as [[|]|].
    - destruct (workerFunction w (request_stop s)) as [[wf sf]|] eqn:Ew; [|done].
      apply thermal_workerFunction_extends in Ew. intros [= <- <-].
      assert (J : joins_in "thermal" w (joined "thermal" wf)) by by apply joins_in_joined.
      split; [by eapply joins_in_extends|done].
    - intros [= <- <-].
      assert (J : joins_in "thermal" w (joined "thermal" w))
        by (apply joins_in_joined, extends_refl).
      split; [by eapply joins_in_extends|done].
    - intros [= <- <-]. split; [apply extends_refl|done]. }
  destruct Hj as [He Hj]. intros [= <- <-]. unfold restoreSettings. cbn [fst].
  pose proof (foldl_write_back_extends (map_items (originalSettings_ s2)) w2) as Hr.
  split.
  - by eapply extends_trans.
  - intros Hth. eapply joins_in_extends_r; [by apply Hj|done].
Qed.

Lemma thermal_start_log config w s r w1 s1 :
  start config w s = Some (r, w1, s1) -> extends w w1.
Proof.
  unfold start. destruct (StressorBase.isRunning (base s)).
  - intros [= <- <- <-]. apply extends_refl.
  - cbn. destruct (workerThread_ s); [done|]. intros [= <- <- <-]. apply extends_refl.
Qed.

End ThermalLog.

Section MemoryLog.
Import MemoryStressor.

Lemma allocateChunk_extends len answer w : extends w (allocateChunk len answer w).2.
Proof.
  unfold allocateChunk. destruct answer as [p|]; [|apply extends_refl].
  destruct (live (mem w) !! p); [apply extends_refl|]. by apply extends_emit.
Qed.

Lemma record_chunk_extends ptr len lock ws :
  extends ws.1 (record_chunk ptr len lock ws).1.
Proof.
  destruct ws as [w s]. unfold record_chunk. cbn [fst].
  destruct lock; [by apply extends_emit|apply extends_refl].
Qed.

Lemma phase1_extends cfg len passes ws :
  extends ws.1 (phase1 cfg len passes ws).2.1.
Proof.
  revert ws. induction passes as [|[availableMB answer] passes IH]; intros ws;
    cbn [phase1]; [apply extends_refl|].
  destruct (availableMB <=? targetFreeMB cfg); [apply extends_refl|].
  pose proof (allocateChunk_extends len answer ws.1) as Ha.
  destruct (allocateChunk len answer ws.1) as [[ptr|] w1]; cbn [snd] in Ha.
  - eapply extends_trans; [exact Ha|].
    eapply extends_trans; [|apply IH].
    apply (record_chunk_extends ptr len (lockMemory cfg) (w1, ws.2)).
  - eapply extends_trans; [exact Ha|]. apply (IH (w1, ws.2)).
Qed.

Lemma phase2_extends cfg len ws pass : extends ws.1 (phase2 cfg len ws pass).1.
Proof.
  unfold phase2. destruct pass as [availableMB answer].
  destruct (_ <? availableMB); [|apply extends_refl].
  pose proof (allocateChunk_extends len answer ws.1) as Ha.
  destruct (allocateChunk len answer ws.1) as [[ptr|] w1]; cbn [snd] in Ha; [|done].
  eapply extends_trans; [exact Ha|].
  apply (record_chunk_extends ptr len (lockMemory cfg) (w1, ws.2)).
Qed.

Lemma munmap_extends ptr len w : extends w (munmap ptr len w).
Proof.
  unfold munmap. destruct (live (mem w) !! ptr); [by apply extends_emit|apply extends_refl].
Qed.

Lemma free_extends ptr w : extends w (free ptr w).
Proof.
  unfold free. destruct (live (mem w) !! ptr); [by apply extends_emit|apply extends_refl].
Qed.

Lemma release_one_extends cfg w ptr : extends w (release_one cfg w ptr).
Proof.
  unfold release_one.
  assert (H : extends w (if lockMemory cfg
                         then emit (EvMunlock ptr (chunk_size cfg)) w else w)).
  { destruct (lockMemory cfg); [by apply extends_emit|apply extends_refl]. }
  eapply extends_trans; [exact H|].
  destruct (useAnonymousMmap cfg); [apply munmap_extends|apply free_extends].
Qed.

Lemma releaseMemory_extends w s : extends w (releaseMemory w s).1.
Proof.
  unfold releaseMemory, take_allocations. cbn [fst].
  apply (foldl_extends (fun w => w)). apply release_one_extends.
Qed.

Lemma memory_workerFunction_extends w s : extends w (workerFunction w s).1.
Proof.
  unfold workerFunction.
  assert (Hn : extends w (next_run w).2).
  { unfold next_run. destruct (mem_runs (mem w)); [apply extends_refl|by apply extends_log]. }
  destruct (next_run w) as [passes w0]. cbn [snd] in Hn.
  pose proof (phase1_extends (config_ s) (chunk_size (config_ s)) passes (w0, s)) as H1.
  destruct (phase1 _ _ passes (w0, s)) as [rest ws1]. cbn [fst snd] in H1.
  pose proof (foldl_extends fst _ (phase2_extends (config_ s) (chunk_size (config_ s)))
                rest ws1) as H2.
  destruct (foldl _ ws1 rest) as [w2 s2]. cbn [fst] in H2.
  eapply extends_trans; [exact Hn|]. eapply extends_trans; [exact H1|].
  eapply extends_trans; [exact H2|]. apply releaseMemory_extends.
Qed.

Lemma memory_stop_log w s :
  extends w (stop w s).1
  /\ (workerThread_ s <> None -> joins_in "memory" w (stop w s).1).
Proof.
  unfold stop. destruct (memory_request_stop s) as (_ & Ht & _).
  assert (Hj : extends w (join w (request_stop s)).1
               /\ (workerThread_ s <> None ->
                   joins_in "memory" w (join w (request_stop s)).1)).
  { unfold join. rewrite Ht. destruct (workerThread_ s) as [[|]|].
    - pose proof (memory_workerFunction_extends w (request_stop s)) as H.
      destruct (workerFunction w (request_stop s)) as [w1 s1]. cbn [fst] in *.
      assert (J : joins_in "memory" w (joined "memory" w1)) by by apply joins_in_joined.
      split; [by eapply joins_in_extends|done].
    - cbn [fst].
      assert (J : joins_in "memory" w (joined "memory" w))
        by (apply joins_in_joined, extends_refl).
      split; [by eapply joins_in_extends|done].
    - cbn [fst]. split; [apply extends_refl|done]. }
  destruct (join w (request_stop s)) as [w2 s2]. cbn [fst] in Hj.
  destruct Hj as [He Hj]. pose proof (releaseMemory_extends w2 s2) as Hr. split.
  - by eapply extends_trans.
  - intros Hth. eapply joins_in_extends_r; [by apply Hj|done].
Qed.

Lemma memory_start_log config w s r w1 s1 :
  start config w s = Some (r, w1, s1) -> extends w w1.
Proof.
  unfold start. destruct (StressorBase.isRunning (base s)).
  - intros [= <- <- <-]. apply extends_refl.
  - cbn. destruct (workerThread_ s); [done|]. intros [= <- <- <-]. apply extends_refl.
Qed.

End MemoryLog.

Section DiskLog.
Import DiskStressor.

Lemma ensureDirectory_extends path w : extends w (ensureDirectory path w).2.
Proof.
  unfold ensureDirectory.
  destruct (stat path w) as [[|]|]; try apply extends_refl.
  destruct (mkdir_disk path w) as [d ->]. by apply extends_log.
Qed.

Lemma open_create_extends dir name allowed w :
  extends w (open_create dir name allowed w).2.
Proof.
  unfold open_create. destruct (entries dir w) as [es|]; [|apply extends_refl].
  destruct (es !! name) as [[|]|]; try apply extends_refl.
  destruct allowed; [by apply extends_emit|apply extends_refl].
Qed.

Lemma unlink_extends dir name w : extends w (unlink dir name w).
Proof.
  unfold unlink. destruct (entries dir w) as [es|]; [|apply extends_refl].
  destruct (es !! name) as [[|]|]; try apply extends_refl. by apply extends_emit.
Qed.

Lemma cycle_extends cfg acc p acc1 :
  cycle cfg acc p = Some acc1 -> extends acc.2.1 acc1.2.1.
Proof.
  destruct acc as [l [w s]]. unfold cycle.
  pose proof (open_create_extends (testPath cfg)
                ("stress_" +:+ Str.to_string (fileCounter l) +:+ ".tmp")
                (open_w_ok p) w) as Ho.
  destruct (open_create _ _ _ w) as [opened w1]. cbn [snd] in Ho.
  destruct opened; cbn [negb fst snd]; [|by intros [= <-]].
  destruct (_ && _); [done|]. intros [= <-]. cbn [fst snd].
  eapply extends_trans; [exact Ho|]. apply unlink_extends.
Qed.

Lemma cleanup_extends w s : extends w (cleanup w s).
Proof.
  unfold cleanup. destruct (entries _ w) as [es|]; [|apply extends_refl].
  apply (foldl_extends (fun w => w)). intros a x. apply unlink_extends.
Qed.

Lemma disk_workerFunction_extends w s w1 s1 :
  workerFunction w s = Some (w1, s1) -> extends w w1.
Proof.
  unfold workerFunction. destruct (negb _); [done|].
  assert (Hn : extends w (next_run w).2).
  { unfold next_run. destruct (disk_runs (disk w)); [apply extends_refl|by apply extends_log]. }
  destruct (next_run w) as [passes w0]. cbn [snd] in Hn.
  destruct (foldlM _ _ passes) as [[l [wf sf]]|] eqn:Ef; [|done].
  apply (foldlM_extends (fun acc : loop * (World * t) => acc.2.1) _
           (cycle_extends (config_ s))) in Ef. cbn [fst snd] in Ef.
  intros [= <- <-]. eapply extends_trans; [exact Hn|]. eapply extends_trans; [exact Ef|].
  apply cleanup_extends.
Qed.

Lemma disk_stop_log w s w1 s1 :
  stop w s = Some (w1, s1) ->
  extends w w1 /\ (workerThread_ s <> None -> joins_in "disk_io" w w1).
Proof.
  unfold stop. destruct (disk_request_stop s) as [_ Ht].
  destruct (join w (request_stop s)) as [[w2 s2]|] eqn:Ej; [|done].
  assert (Hj : extends w w2 /\ (workerThread_ s <> None -> joins_in "disk_io" w w2)).
  { revert Ej. unfold join. rewrite Ht. destruct (workerThread_ s) as [[|]|].
    - destruct (workerFunction w (request_stop s)) as [[wf sf]|] eqn:Ew; [|done].
      apply disk_workerFunction_extends in Ew. intros [= <- <-].
      assert (J : joins_in "disk_io" w (joined "disk_io" wf)) by by apply joins_in_joined.
      split; [by eapply joins_in_extends|done].
    - intros [= <- <-].
      assert (J : joins_in "disk_io" w (joined "disk_io" w))
        by (apply joins_in_joined, extends_refl).
      split; [by eapply joins_in_extends|done].
    - intros [= <- <-]. split; [apply extends_refl|done]. }
  intros [= <- <-]. destruct Hj as [He Hj].
  pose proof (cleanup_extends w2 s2) as Hr. split.
  - by eapply extends_trans.
  - intros Hth. eapply joins_in_extends_r; [by apply Hj|done].
Qed.

Lemma disk_start_log config w s r w1 s1 :
  start config w s = Some (r, w1, s1) -> extends w w1.
Proof.
  unfold start. destruct (StressorBase.isRunning (base s)).
  - intros [= <- <- <-]. apply extends_refl.
  - pose proof (ensureDirectory_extends (testPath config) w) as He.
    destruct (ensureDirectory (testPath config) w) as [ok wd]. cbn [snd] in He.
    destruct ok; cbn [negb].
    + cbn. destruct (workerThread_ s); [done|]. by intros [= <- <- <-].
    + by intros [= <- <- <-].
Qed.

End DiskLog.

Section CpuLog.
Import CPUStressor.

Lemma cpu_workerFunction_extends w s : extends w (workerFunction w s).1.
Proof.
  unfold workerFunction.
  assert (Hn : extends w (next_batches w).2).
  { unfold next_batches. destruct (cpu_batches w); [apply extends_refl|by apply extends_log]. }
  by destruct (next_batches w) as [n w1].
Qed.

Lemma join_one_joins ws th : joins_in "cpu" ws.1 (join_one ws th).1.
Proof.
  destruct ws as [w s]. unfold join_one. destruct (state th).
  - pose proof (cpu_workerFunction_extends w s) as H.
    destruct (workerFunction w s) as [w1 s1]. cbn [fst] in *. by apply joins_in_joined.
  - cbn [fst]. apply joins_in_joined, extends_refl.
Qed.

Lemma cpu_stop_log w s :
  extends w (stop w s).1
  /\ (workerThreads_ s <> [] -> joins_in "cpu" w (stop w s).1).
Proof.
  unfold stop. destruct (cpu_request_stop s) as (_ & ->).
  assert (Hall : forall ths ws, extends ws.1 (foldl join_one ws ths).1).
  { apply (foldl_extends fst). intros a x. eapply joins_in_extends, join_one_joins. }
  split.
  - pose proof (Hall (workerThreads_ s) (w, request_stop s)) as H.
    by destruct (foldl join_one _ _) as [w2 s2].
  - destruct (workerThreads_ s) as [|th ths]; [done|]. intros _. cbn [foldl].
    pose proof (join_one_joins (w, request_stop s) th) as H1.
    pose proof (Hall ths (join_one (w, request_stop s) th)) as H2.
    destruct (foldl join_one _ ths) as [w2 s2]. cbn [fst] in *.
    by eapply joins_in_extends_r.
Qed.

Lemma cpu_start_log config w s r w1 s1 :
  start config w s = Some (r, w1, s1) -> extends w w1.
Proof.
  unfold start. destruct (StressorBase.isRunning (base s)).
  - intros [= <- <- <-]. apply extends_refl.
  - destruct (workerThreads_ s); [|done]. intros [= <- <- <-]. apply extends_refl.
Qed.

End CpuLog.

(* --------------------------------------------------------------------- *)
(** ** The orchestrator                                                   *)
(* --------------------------------------------------------------------- *)

Section Manager.
Import StressManager.

Lemma stressor_start_log k config w s r w1 s1 :
  Stressor.start k config w s = Some (r, w1, s1) -> extends w w1.
Proof.
  destruct k; simpl.
  - apply cpu_start_log.
  - apply memory_start_log.
  - apply disk_start_log.
  - apply net_start_log.
  - apply thermal_start_log.
Qed.

Lemma stressor_stop_log k w s w1 s1 :
  Stressor.stop k w s = Some (w1, s1) ->
  extends w w1
  /\ (Stressor.threads k s <> [] -> joins_in (Stressor.getType k) w w1).
Proof.
  destruct k; simpl.
  - intros [= Hs]. destruct (cpu_stop_log w s) as [He Hj].
    rewrite Hs in He, Hj. cbn [fst] in He, Hj. split; [done|].
    intros Hth. apply Hj. intros Heq. by rewrite Heq in Hth.
  - intros [= Hs]. destruct (memory_stop_log w s) as [He Hj].
    rewrite Hs in He, Hj. cbn [fst] in He, Hj. split; [done|].
    intros Hth. apply Hj. intros Heq. by rewrite Heq in Hth.
  - intros Hs. destruct (disk_stop_log _ _ _ _ Hs) as [He Hj]. split; [done|].
    intros Hth. apply Hj. intros Heq. by rewrite Heq in Hth.
  - intros [= Hs]. destruct (net_stop_log w s) as [He Hj].
    rewrite Hs in He, Hj. cbn [fst] in He, Hj. split; [done|].
    intros Hth. apply Hj. intros Heq. by rewrite Heq in Hth.
  - intros Hs. destruct (thermal_stop_log _ _ _ _ Hs) as [He Hj]. split; [done|].
    intros Hth. apply Hj. intros Heq. by rewrite Heq in Hth.
Qed.

(** The log of a call made under [lock_guard]: the lock, the events of the
    delegated work, the unlock. *)
Lemma locked_log w w1 evs :
  appends (lock w) w1 evs ->
  log (unlock w1) = log w ++ EvLock :: evs ++ [EvUnlock].
Proof.
  intros [H _]. simpl. rewrite H. simpl. by rewrite <- !app_assoc.
Qed.

(** The five stops of [stopAll], one after the other. *)
Lemma stop_all_log w m w1 m1 :
  foldlM stop_next (w, m) [Cpu; Memory; DiskIo; Network; Thermal] = Some (w1, m1) ->
  extends w w1
  /\ (forall k, Stressor.threads k (get k m) <> [] -> joins_in (Stressor.getType k) w w1).
Proof.
  cbn [foldlM]. unfold stop_next. cbn [fst snd].
  destruct (Stressor.stop Cpu w (get Cpu m)) as [[wa sa]|] eqn:Ea; [|done].
  cbn [fst snd].
  change (get Memory (set Cpu sa m)) with (get Memory m).
  destruct (Stressor.stop Memory wa (get Memory m)) as [[wb sb]|] eqn:Eb; [|done].
  cbn [fst snd].
  change (get DiskIo (set Memory sb (set Cpu sa m))) with (get DiskIo m).
  destruct (Stressor.stop DiskIo wb (get DiskIo m)) as [[wc sc]|] eqn:Ec; [|done].
  cbn [fst snd].
  change (get Network (set DiskIo sc (set Memory sb (set Cpu sa m))))
    with (get Network m).
  destruct (Stressor.stop Network wc (get Network m)) as [[wd sd]|] eqn:Ed; [|done].
  cbn [fst snd].
  change (get Thermal (set Network sd (set DiskIo sc (set Memory sb (set Cpu sa m)))))
    with (get Thermal m).
  destruct (Stressor.stop Thermal wd (get Thermal m)) as [[we se]|] eqn:Ee; [|done].
  intros [= <- <-].
  apply stressor_stop_log in Ea as [Xa Ja]. apply stressor_stop_log in Eb as [Xb Jb].
  apply stressor_stop_log in Ec as [Xc Jc]. apply stressor_stop_log in Ed as [Xd Jd].
  apply stressor_stop_log in Ee as [Xe Je].
  assert (Xde : extends wc we) by (eapply extends_trans; [exact Xd|exact Xe]).
  assert (Xce : extends wb we) by (eapply extends_trans; [exact Xc|exact Xde]).
  assert (Xbe : extends wa we) by (eapply extends_trans; [exact Xb|exact Xce]).
  assert (Xab : extends w wb) by (eapply extends_trans; [exact Xa|exact Xb]).
  assert (Xac : extends w wc) by (eapply extends_trans; [exact Xab|exact Xc]).
  assert (Xad : extends w wd) by (eapply extends_trans; [exact Xac|exact Xd]).
  split; [by eapply extends_trans; [exact Xa|exact Xbe]|].
  intros k Hk. destruct k.
  - eapply joins_in_extends_r; [by apply Ja|exact Xbe].
  - eapply joins_in_extends_l; [exact Xa|].
    eapply joins_in_extends_r; [by apply Jb|exact Xce].
  - eapply joins_in_extends_l; [exact Xab|].
    eapply joins_in_extends_r; [by apply Jc|exact Xde].
  - eapply joins_in_extends_l; [exact Xac|].
    eapply joins_in_extends_r; [by apply Jd|exact Xe].
  - eapply joins_in_extends_l; [exact Xad|]. by apply Je.
Qed.

(** C9 (what the code does).  Orchestrator: every control call takes the
    coordination lock first and releases it only after the delegated
    generator call has returned; no lock operation happens in between, so
    the lock is held across everything the generator does in that call.  For
    a stop (and for [stopAll]) this includes the joins of the worker
    threads, when there are threads to join.  A status query logs nothing
    but its own lock and unlock. *)
Theorem lock_held_across_delegated_call :
  (forall k config w m r w1 m1,
      start_stress k config w m = Some (r, w1, m1) ->
      exists evs, log w1 = log w ++ EvLock :: evs ++ [EvUnlock]
                  /\ Forall (fun e => blocking e = true) evs)
  /\ (forall k w m w1 m1,
      stop_stress k w m = Some (w1, m1) ->
      exists evs, log w1 = log w ++ EvLock :: evs ++ [EvUnlock]
                  /\ Forall (fun e => blocking e = true) evs
                  /\ (Stressor.threads k (get k m) <> [] ->
                      EvJoin (Stressor.getType k) ∈ evs))
  /\ (forall w m w1 m1,
      stopAll w m = Some (w1, m1) ->
      exists evs, log w1 = log w ++ EvLock :: evs ++ [EvUnlock]
                  /\ Forall (fun e => blocking e = true) evs
                  /\ (forall k, Stressor.threads k (get k m) <> [] ->
                                EvJoin (Stressor.getType k) ∈ evs))
  /\ (forall k w m, log (get_status k w m).2 = log w ++ [EvLock; EvUnlock])
  /\ (forall w m, log (isAnyRunning w m).2 = log w ++ [EvLock; EvUnlock]).
Proof.
  split; [|split; [|split; [|split]]].
  - intros k config w m r w1 m1. unfold start_stress.
    destruct (Stressor.start k config (lock w) (get k m)) as [[[r0 w0] s0]|] eqn:Es; [|done].
    intros [= <- <- <-]. apply stressor_start_log in Es as (evs & Ha).
    exists evs. split; [by apply locked_log|by destruct Ha].
  - intros k w m w1 m1. unfold stop_stress.
    destruct (Stressor.stop k (lock w) (get k m)) as [[w0 s0]|] eqn:Es; [|done].
    intros [= <- <-]. apply stressor_stop_log in Es as [(evs & Ha) Hj].
    exists evs. split; [by apply locked_log|]. split; [by destruct Ha|].
    intros Hth. destruct (Hj Hth) as (evs1 & [H1 _] & Hin).
    destruct Ha as [H0 _]. rewrite H0 in H1. by apply app_inv_head in H1 as ->.
  - intros w m w1 m1. unfold stopAll.
    destruct (foldlM stop_next (lock w, m) _) as [[w0 m0]|] eqn:Es; [|done].
    intros [= <- <-]. apply stop_all_log in Es as [(evs & Ha) Hj].
    exists evs. split; [by apply locked_log|]. split; [by destruct Ha|].
    intros k Hth. destruct (Hj k Hth) as (evs1 & [H1 _] & Hin).
    destruct Ha as [H0 _]. rewrite H0 in H1. by apply app_inv_head in H1 as ->.
  - intros k w m. simpl. by rewrite <- app_assoc.
  - intros w m. simpl. by rewrite <- app_assoc.
Qed.

(** The CPU generator of the example device with its one worker: stopping
    it through the orchestrator logs the join between lock and unlock. *)
Lemma lock_held_across_delegated_call_witness :
  exists w1 m1 evs,
    stopCpuStress manager_cpu_started.1 manager_cpu_started.2 = Some (w1, m1)
    /\ log w1 = log manager_cpu_started.1 ++ EvLock :: evs ++ [EvUnlock]
    /\ EvJoin "cpu" ∈ evs.
Proof.
  destruct lock_held_across_delegated_call as (_ & Hstop & _).
  destruct (stopCpuStress manager_cpu_started.1 manager_cpu_started.2)
    as [[w1 m1]|] eqn:Es; [|by vm_compute in Es].
  destruct (Hstop Cpu _ _ _ _ Es) as (evs & Hlog & _ & Hjoin).
  exists w1, m1, evs. split; [done|]. split; [done|].
  apply Hjoin. by vm_compute.
Defined.

(** C9 (the claim as stated fails).  On the example device with the CPU
    generator running one worker, [stopCpuStress] joins the worker while the
    orchestrator's lock is held. *)
Lemma stop_joins_under_lock :
  ~ lock_only_dispatches Cpu manager_cpu_started.1 manager_cpu_started.2.
Proof.
  intros H.
  destruct (stop_stress Cpu manager_cpu_started.1 manager_cpu_started.2)
    as [[w1 m1]|] eqn:Es; [|by vm_compute in Es].
  specialize (H w1 m1 Es).
  vm_compute in Es. injection Es as <- <-.
  vm_compute in H. discriminate H.
Qed.

End Manager.

(* ===================================================================== *)
(** * Further properties of the code                                      *)
(* ===================================================================== *)

(** Invariants of the loops. *)
Lemma foldl_inv {A B} (P : A -> Prop) (f : A -> B -> A) l a :
  P a -> (forall a x, P a -> P (f a x)) -> P (foldl f a l).
Proof.
  intros Ha Hf. revert a Ha. induction l as [|x l IH]; intros a Ha; [done|].
  cbn [foldl]. by apply IH, Hf.
Qed.

Lemma foldlM_inv {A B} (P : A -> Prop) (f : A -> B -> option A) l a a1 :
  P a -> (forall a x a1, P a -> f a x = Some a1 -> P a1) ->
  foldlM f a l = Some a1 -> P a1.
Proof.
  intros Ha Hf. revert a Ha. induction l as [|x l IH]; intros a Ha; cbn [foldlM].
  - by intros [= <-].
  - destruct (f a x) as [a2|] eqn:E; [|done]. apply IH. by eapply Hf.
Qed.

(* --------------------------------------------------------------------- *)
(** ** Network generator: what [applyTcRules] installs                    *)
Lemma wrap_long_id z : in_long z -> wrap_long z = z.
Proof.
  unfold in_long, wrap_long, Str.LONG_MIN, Str.LONG_MAX. intros H.
  rewrite Z.mod_small; lia.
Qed.

(* --------------------------------------------------------------------- *)

Section NetworkRules.
Import NetworkStressor.

Lemma rules_on_emit iface e w : rules_on iface (emit e w) = rules_on iface w.
Proof. done. Qed.

Lemma rules_on_install iface c w :
  rules_on iface (install iface c w) = rules_on iface w ++ [c].
Proof. unfold rules_on, install. simpl. by rewrite lookup_insert_eq. Qed.

Lemma rules_on_install_ne iface iface1 c w :
  iface <> iface1 -> rules_on iface (install iface1 c w) = rules_on iface w.
Proof. intros H. unfold rules_on, install. simpl. by rewrite lookup_insert_ne. Qed.

(** A tc add on the generator's interface: accepted, it appends its rule;
    refused, it changes nothing. *)
Lemma executeCommand_add c iface w :
  c = TcAddHtbRoot iface \/ (exists k, c = TcAddHtbClass iface k)
  \/ (exists u d l, c = TcAddNetem iface u d l) ->
  (executeCommand c w).1.1 = tc_accepts (net w) c
  /\ rules_on iface (executeCommand c w).2
     = rules_on iface w ++ (if tc_accepts (net w) c then [c] else [])
  /\ tc_accepts (net (executeCommand c w).2) = tc_accepts (net w).
Proof.
  intros Hc. unfold executeCommand.
  destruct Hc as [->|[[k ->]|(u & d & l & ->)]]; cbn [run_command];
    change (tc_accepts (net (emit _ w))) with (tc_accepts (net w));
    destruct (tc_accepts (net w) _); cbn [fst snd];
    rewrite ?rules_on_install, ?rules_on_emit, ?app_nil_r; done.
Qed.

Lemma removeTcRules_clear w s :
  tcRulesApplied_ s = true ->
  rules_on (targetInterface (config_ s)) (removeTcRules w s).1 = []
  /\ tcRulesApplied_ (removeTcRules w s).2 = false.
Proof.
  intros Hf. unfold removeTcRules. rewrite Hf. cbn [negb].
  unfold executeCommand. cbn [run_command].
  rewrite rules_on_emit.
  destruct (rules_on (targetInterface (config_ s)) w) eqn:Hr; cbn [fst snd].
  - by rewrite rules_on_emit.
  - split; [|done]. unfold rules_on. simpl. by rewrite lookup_delete_eq.
Qed.

(** The outcome of [applyTcRules] over [prefix], the rules it had installed
    before its last stage, when that stage runs the commands [stage]. *)
Lemma apply_netem_outcome w s :
  tcRulesApplied_ s = false ->
  let cfg := config_ s in
  let stage :=
    if (0 <? latencyMs cfg) || (0 <? packetLossPercent cfg)
    then [TcAddNetem (targetInterface cfg) (0 <? bandwidthLimitKbps cfg)
                     (latencyMs cfg) (packetLossPercent cfg)]
    else [] in
  let r := apply_netem w s in
  config_ r.2 = cfg
  /\ if r.1.1
     then rules_on (targetInterface cfg) r.1.2 = rules_on (targetInterface cfg) w ++ stage
          /\ Forall (fun c => tc_accepts (net w) c = true) stage
          /\ tcRulesApplied_ r.2 = true
     else rules_on (targetInterface cfg) r.1.2 = rules_on (targetInterface cfg) w
          /\ tcRulesApplied_ r.2 = false
          /\ exists c, stage = [c] /\ tc_accepts (net w) c = false.
Proof.
  intros Hf cfg stage r. subst r stage. unfold apply_netem. fold cfg.
  destruct ((0 <? latencyMs cfg) || (0 <? packetLossPercent cfg)).
  - set (c := TcAddNetem _ _ _ _).
    destruct (executeCommand_add c (targetInterface cfg) w) as (Hok & Hr & _).
    { right. right. by eexists _, _, _. }
    destruct (executeCommand c w) as [[ok out] w1]. cbn [fst snd] in Hok, Hr. subst ok.
    destruct (tc_accepts (net w) c) eqn:Hacc; cbn [negb fst snd].
    + split; [done|]. split; [done|]. split; [|done]. by constructor.
    + rewrite app_nil_r in Hr. unfold removeTcRules. rewrite Hf. cbn [negb fst snd].
      split; [done|]. split; [done|]. split; [done|]. by exists c.
  - cbn [fst snd]. rewrite app_nil_r. split; [done|]. split; [done|]. split; [constructor|done].
Qed.

(** X1.  [applyTcRules] on a generator whose rules are not marked applied issues
    the commands of the configured pipeline in order and stops at the first
    one the kernel refuses.  When all are accepted the interface holds its
    former rules followed by the pipeline and the rules are marked applied.
    When one is refused the call returns false, the rules accepted before it
    stay on the interface and are not marked applied. *)
Theorem applyTcRules_installs_pipeline w s :
  tcRulesApplied_ s = false ->
  let cfg := config_ s in
  let r := applyTcRules w s in
  exists n,
    rules_on (targetInterface cfg) r.1.2
    = rules_on (targetInterface cfg) w ++ take n (tc_pipeline cfg)
    /\ Forall (fun c => tc_accepts (net w) c = true) (take n (tc_pipeline cfg))
    /\ if r.1.1
       then n = length (tc_pipeline cfg) /\ tcRulesApplied_ r.2 = true
       else tcRulesApplied_ r.2 = false
            /\ exists c, tc_pipeline cfg !! n = Some c /\ tc_accepts (net w) c = false.
Proof.
  intros Hf cfg r. subst r. unfold applyTcRules, tc_pipeline.
  rewrite (net_removeTcRules_idle w s Hf). fold cfg.
  destruct ((bandwidthLimitKbps cfg =? 0) && (latencyMs cfg =? 0)
            && (packetLossPercent cfg =? 0)) eqn:Hzero.
  - apply andb_prop in Hzero as [Hz Hl]. apply andb_prop in Hz as [Hb Hd].
    apply Z.eqb_eq in Hb, Hd, Hl. rewrite Hb, Hd, Hl. cbn.
    exists 0%nat. rewrite app_nil_r. by repeat split.
  - destruct (0 <? bandwidthLimitKbps cfg) eqn:Hbw.
    + set (c1 := TcAddHtbRoot (targetInterface cfg)).
      set (c2 := TcAddHtbClass (targetInterface cfg) (bandwidthLimitKbps cfg)).
      destruct (executeCommand_add c1 (targetInterface cfg) w) as (Hok1 & Hr1 & Ha1);
        [by left|].
      destruct (executeCommand c1 w) as [[ok1 out1] w1]. cbn [fst snd] in Hok1, Hr1, Ha1.
      subst ok1. destruct (tc_accepts (net w) c1) eqn:Hacc1; cbn [negb fst snd].
      * destruct (executeCommand_add c2 (targetInterface cfg) w1) as (Hok2 & Hr2 & Ha2);
          [right; left; by eexists|].
        destruct (executeCommand c2 w1) as [[ok2 out2] w2].
        cbn [fst snd] in Hok2, Hr2, Ha2. subst ok2. rewrite Ha1 in *.
        destruct (tc_accepts (net w) c2) eqn:Hacc2; cbn [negb fst snd].
        -- destruct (apply_netem_outcome w2 s Hf) as [_ Hn]. fold cfg in Hn.
           cbn zeta in Hn. rewrite Ha2, Hbw in Hn.
           destruct ((apply_netem w2 s).1.1).
           ++ destruct Hn as (Hr3 & Hall & Hflag).
              eexists. rewrite firstn_all. split; [|split; [|by split]].
              ** rewrite Hr3, Hr2, Hr1. by rewrite <- !app_assoc.
              ** by repeat (constructor; [done|]).
           ++ destruct Hn as (Hr3 & Hflag & c & Hst & Hacc).
              exists 2%nat. rewrite Hst. cbn [take app].
              split; [by rewrite Hr3, Hr2, Hr1, <- app_assoc|].
              split; [by repeat constructor|]. split; [done|]. by exists c.
        -- rewrite app_nil_r in Hr2. unfold removeTcRules. rewrite Hf. cbn [negb fst snd].
           exists 1%nat. cbn [take app]. split; [by rewrite Hr2, Hr1|].
           split; [by repeat constructor|]. split; [done|]. by exists c2.
      * rewrite app_nil_r in Hr1. exists 0%nat. cbn [take app].
        rewrite app_nil_r. split; [done|]. split; [constructor|]. split; [done|].
        by exists c1.
    + destruct (apply_netem_outcome w s Hf) as [_ Hn]. fold cfg in Hn.
      cbn zeta in Hn. rewrite Hbw in *. cbn [app].
      destruct ((apply_netem w s).1.1).
      * destruct Hn as (Hr3 & Hall & Hflag).
        eexists. rewrite firstn_all. by repeat split.
      * destruct Hn as (Hr3 & Hflag & c & Hst & Hacc).
        exists 0%nat. rewrite Hst. cbn [take]. rewrite app_nil_r.
        split; [done|]. split; [constructor|]. split; [done|]. by exists c.
Qed.

Lemma applyTcRules_installs_pipeline_witness :
  exists n,
    rules_on "wlan0" (applyTcRules device_shaped network_pending).1.2
    = rules_on "wlan0" device_shaped ++ take n (tc_pipeline (config_ network_pending))
    /\ n = 3%nat.
Proof.
  destruct (applyTcRules_installs_pipeline device_shaped network_pending eq_refl)
    as (n & Hr & _ & Hok).
  exists n. split; [exact Hr|].
  replace ((applyTcRules device_shaped network_pending).1.1) with true in Hok
    by (vm_compute; reflexivity).
  by destruct Hok as [-> _].
Defined.

Lemma apply_netem_state w s :
  config_ (apply_netem w s).2 = config_ s
  /\ ((apply_netem w s).1.1 = true -> tcRulesApplied_ (apply_netem w s).2 = true).
Proof.
  unfold apply_netem. destruct (_ || _); [|done].
  destruct (executeCommand _ w) as [[ok out] w1]. destruct ok; cbn [negb fst snd]; [done|].
  unfold removeTcRules. destruct (tcRulesApplied_ s); cbn [negb]; [|done].
  by destruct (executeCommand _ w1) as [[? ?] ?].
Qed.

Lemma removeTcRules_config w s : config_ (removeTcRules w s).2 = config_ s.
Proof.
  unfold removeTcRules. destruct (tcRulesApplied_ s); cbn [negb]; [|done].
  by destruct (executeCommand _ w) as [[? ?] ?].
Qed.

Lemma applyTcRules_state w s :
  config_ (applyTcRules w s).2 = config_ s
  /\ ((applyTcRules w s).1.1 = true -> tcRulesApplied_ (applyTcRules w s).2 = true).
Proof.
  unfold applyTcRules.
  pose proof (removeTcRules_config w s) as Hc0.
  destruct (removeTcRules w s) as [w0 s0]. cbn [snd] in Hc0.
  destruct (_ && _); [done|].
  destruct (0 <? _).
  - destruct (executeCommand _ w0) as [[ok1 out1] w1].
    destruct ok1; cbn [negb fst snd]; [|done].
    destruct (executeCommand _ w1) as [[ok2 out2] w2].
    destruct ok2; cbn [negb fst snd].
    + destruct (apply_netem_state w2 s0) as [Hc Hf]. split; [by rewrite Hc|done].
    + pose proof (removeTcRules_config w2 s0) as Hc3.
      destruct (removeTcRules w2 s0) as [w3 s3]. cbn [fst snd] in *.
      split; [by rewrite Hc3|done].
  - destruct (apply_netem_state w0 s0) as [Hc Hf]. split; [by rewrite Hc|done].
Qed.

(** When every command of the pipeline was accepted, the worker ends by
    deleting the root qdisc of the interface: nothing is left on it, neither
    the rules of the run nor rules that were there before. *)
Lemma net_workerFunction_clean w s :
  (applyTcRules w s).1.1 = true ->
  rules_on (targetInterface (config_ s)) (workerFunction w s).1 = []
  /\ tcRulesApplied_ (workerFunction w s).2 = false
  /\ config_ (workerFunction w s).2 = config_ s.
Proof.
  intros Hok. unfold workerFunction.
  destruct (applyTcRules_state w s) as [Hc Hf]. specialize (Hf Hok).
  destruct (applyTcRules w s) as [[ok w1] s1]. cbn [fst snd] in *. subst ok.
  cbn [negb].
  set (s2 := set_base _ s1).
  destruct (removeTcRules_clear w1 s2 Hf) as [Hr Hflag].
  replace (config_ s2) with (config_ s) in Hr by done.
  split; [done|]. split; [done|]. by rewrite removeTcRules_config.
Qed.

(** X2.  Network generator: a run whose tc commands were all accepted leaves no
    rule on the target interface once [stop] has returned, whether [stop]
    finds the worker pending or already exited by itself.  The final
    [tc qdisc del ... root] also removes rules that were on the interface
    before the run. *)
Theorem network_stop_after_success_leaves_no_rule w s :
  workerThread_ s = Some Spawned ->
  (applyTcRules w (request_stop s)).1.1 = true ->
  (applyTcRules w s).1.1 = true ->
  rules_on (targetInterface (config_ s)) (stop w s).1 = []
  /\ rules_on (targetInterface (config_ s))
       (stop (worker_exit w s).1 (worker_exit w s).2).1 = []
  /\ tcRulesApplied_ (stop w s).2 = false.
Proof.
  intros Hth Hok1 Hok2.
  assert (Hcfg : config_ (request_stop s) = config_ s).
  { unfold request_stop. by destruct (StressorBase.isRunning (base s)). }
  assert (Hthr : workerThread_ (request_stop s) = Some Spawned).
  { by destruct (net_request_stop s) as [_ ->]. }
  split; [|split].
  - unfold stop, join. rewrite Hthr.
    destruct (net_workerFunction_clean w (request_stop s) Hok1) as (Hr & Hf & Hc).
    destruct (workerFunction w (request_stop s)) as [w1 s1]. cbn [fst snd] in *.
    rewrite net_removeTcRules_idle by done. cbn [fst]. by rewrite <- Hcfg.
  - unfold worker_exit. rewrite Hth.
    destruct (net_workerFunction_clean w s Hok2) as (Hr & Hf & Hc).
    pose proof (net_workerFunction_stopped w s) as Hs.
    destruct (workerFunction w s) as [w1 s1]. cbn [fst snd] in *.
    unfold stop, request_stop, StressorBase.isRunning, join. cbn.
    rewrite Hs. cbn. by rewrite net_removeTcRules_idle.
  - by destruct (net_stop_post w s) as (_ & _ & ->).
Qed.

Lemma network_stop_after_success_leaves_no_rule_witness :
  rules_on "wlan0" device_shaped = [TcAddNetem "wlan0" false 5 0]
  /\ rules_on (targetInterface (config_ network_pending))
       (stop device_shaped network_pending).1 = [].
Proof.
  split; [reflexivity|].
  assert (H1 : workerThread_ network_pending = Some Spawned) by reflexivity.
  assert (H2 : (applyTcRules device_shaped (request_stop network_pending)).1.1 = true)
    by (vm_compute; reflexivity).
  assert (H3 : (applyTcRules device_shaped network_pending).1.1 = true)
    by (vm_compute; reflexivity).
  destruct (network_stop_after_success_leaves_no_rule
              device_shaped network_pending H1 H2 H3) as [H _].
  exact H.
Defined.

(** X3.  Network generator, no restriction configured (bandwidth, latency and
    loss all 0): the worker applies nothing but marks the rules applied, so
    the one tc command of the run is the final deletion of the interface's
    root qdisc. *)
Theorem unrestricted_run_only_deletes w s :
  tcRulesApplied_ s = false ->
  bandwidthLimitKbps (config_ s) = 0 ->
  latencyMs (config_ s) = 0 ->
  packetLossPercent (config_ s) = 0 ->
  log (workerFunction w s).1
  = log w ++ [EvExec (cmd_string (TcDelRoot (targetInterface (config_ s))))]
  /\ rules_on (targetInterface (config_ s)) (workerFunction w s).1 = [].
Proof.
  intros Hf Hb Hl Hp. unfold workerFunction, applyTcRules.
  rewrite (net_removeTcRules_idle w s Hf), Hb, Hl, Hp. cbn [Z.eqb andb negb].
  unfold removeTcRules. cbn [tcRulesApplied_ set_applied set_base negb config_].
  unfold executeCommand. cbn [run_command]. rewrite rules_on_emit.
  destruct (rules_on (targetInterface (config_ s)) w) eqn:Hr; cbn [fst snd].
  - split; [done|]. by rewrite rules_on_emit.
  - split; [done|]. unfold rules_on. simpl. by rewrite lookup_delete_eq.
Qed.

Lemma unrestricted_run_only_deletes_witness :
  log (workerFunction device_shaped init).1
  = log device_shaped
    ++ [EvExec (cmd_string (TcDelRoot (targetInterface (config_ init))))]
  /\ rules_on (targetInterface (config_ init)) (workerFunction device_shaped init).1 = [].
Proof.
  exact (unrestricted_run_only_deletes device_shaped init
           eq_refl eq_refl eq_refl eq_refl).
Defined.

End NetworkRules.

(* --------------------------------------------------------------------- *)
(** ** Decimal text: [std::to_string] against [std::stol] and the trimming *)
(* --------------------------------------------------------------------- *)

Section Decimal.
Import Str.

Lemma pretty_N_char_digit x : (x < 10)%N -> digit (pretty_N_char x) = Some (Z.of_N x).
Proof.
  intros H. destruct x as [|p]; [reflexivity|].
  do 4 (destruct p as [p|p|]; try reflexivity; try lia).
Qed.

Lemma pretty_N_go_all x s :
  string_all is_digit s = true -> string_all is_digit (pretty_N_go x s) = true.
Proof.
  revert s. induction (N.lt_wf_0 x) as [x _ IH]; intros s Hs.
  destruct (decide (x = 0%N)) as [->|Hx]; [by rewrite pretty_N_go_0|].
  rewrite pretty_N_go_step by lia. apply IH; [apply N.div_lt; lia|].
  cbn [string_all]. rewrite Hs, andb_true_r. unfold is_digit.
  rewrite pretty_N_char_digit; [done|]. apply N.mod_lt. lia.
Qed.

Lemma pretty_N_go_value x :
  exists k, 0 <= k /\ forall acc s,
    digits acc (pretty_N_go x s) = digits (acc * 10 ^ k + Z.of_N x) s.
Proof.
  induction (N.lt_wf_0 x) as [x _ IH].
  destruct (decide (x = 0%N)) as [->|Hx].
  - exists 0. split; [done|]. intros acc s. rewrite pretty_N_go_0. f_equal. lia.
  - destruct (IH (x `div` 10)%N) as (k & Hk & Hgo); [apply N.div_lt; lia|].
    exists (k + 1). split; [lia|]. intros acc s.
    rewrite pretty_N_go_step, Hgo by lia. cbn [digits].
    rewrite pretty_N_char_digit by (apply N.mod_lt; lia).
    f_equal. rewrite Z.pow_add_r, Z.pow_1_r by lia.
    pose proof (N.div_mod x 10 ltac:(lia)) as Hdm. lia.
Qed.

Lemma pretty_N_go_nonempty x s : (0 < x)%N -> exists c r, pretty_N_go x s = String c r.
Proof.
  revert s. induction (N.lt_wf_0 x) as [x _ IH]; intros s Hx.
  rewrite pretty_N_go_step by done.
  destruct (decide (x `div` 10 = 0)%N) as [E|E].
  - rewrite E, pretty_N_go_0. eauto.
  - apply IH; [apply N.div_lt; lia|by apply N.neq_0_lt_0].
Qed.

Lemma pretty_pos_shape (p : positive) :
  exists c r, pretty (N.pos p) = String c r
    /\ is_digit c = true /\ string_all is_digit r = true
    /\ digits 0 (String c r) = Z.pos p.
Proof.
  unfold pretty, pretty_N. rewrite decide_False by done.
  destruct (pretty_N_go_nonempty (N.pos p) EmptyString) as (c & r & E); [lia|].
  pose proof (pretty_N_go_all (N.pos p) EmptyString eq_refl) as Hall.
  destruct (pretty_N_go_value (N.pos p)) as (k & _ & Hv).
  specialize (Hv 0 EmptyString). rewrite E in Hall, Hv |- *.
  cbn [string_all] in Hall. apply andb_prop in Hall as [Hc Hr].
  exists c, r. split; [done|]. split; [done|]. split; [done|].
  rewrite Hv. cbn [digits]. lia.
Qed.

Lemma is_digit_code c : is_digit c = true -> 48 <= code c <= 57.
Proof.
  unfold is_digit, digit. destruct (_ && _) eqn:E; [|done]. intros _.
  apply andb_prop in E as [?%Z.leb_le ?%Z.leb_le]. lia.
Qed.

Lemma to_string_numeric z : string_all is_numeric (to_string z) = true.
Proof.
  assert (Hd : forall s, string_all is_digit s = true -> string_all is_numeric s = true).
  { induction s as [|c s IH]; [done|]. cbn [string_all].
    intros [Hc Hs]%andb_prop. rewrite (IH Hs), andb_true_r.
    unfold is_numeric. by rewrite Hc. }
  unfold to_string, pretty, pretty_Z. destruct z as [|p|p]; [done| |].
  - destruct (pretty_pos_shape p) as (c & r & E & Hc & Hr & _).
    change (pretty p) with (pretty (N.pos p)). rewrite E. apply Hd.
    cbn [string_all]. by rewrite Hc, Hr.
  - destruct (pretty_pos_shape p) as (c & r & E & Hc & Hr & _).
    change (pretty p) with (pretty (N.pos p)). rewrite E.
    change (is_numeric "-" && string_all is_numeric (String c r) = true).
    apply andb_true_intro. split; [done|]. apply Hd.
    cbn [string_all]. by rewrite Hc, Hr.
Qed.

Lemma to_string_nonempty z : empty (to_string z) = false.
Proof.
  unfold to_string, pretty, pretty_Z. destruct z as [|p|p]; [done| |done].
  destruct (pretty_pos_shape p) as (c & r & E & _).
  change (pretty p) with (pretty (N.pos p)). by rewrite E.
Qed.

(** [std::stol] reads back what [std::to_string] wrote. *)
Lemma stol_to_string z : LONG_MIN <= z <= LONG_MAX -> stol (to_string z) = Some z.
Proof.
  intros Hz. unfold to_string, pretty, pretty_Z. destruct z as [|p|p]; [done| |].
  - destruct (pretty_pos_shape p) as (c & r & E & Hc & Hr & Hv).
    change (pretty p) with (pretty (N.pos p)). rewrite E.
    pose proof (is_digit_code c Hc) as Hcode.
    unfold stol. cbn [drop_while].
    replace (is_space c) with false
      by (unfold is_space; symmetry; apply orb_false_iff; split;
          [apply Z.eqb_neq; lia|apply andb_false_iff; right; apply Z.leb_gt; lia]).
    replace (code c =? 45) with false by (symmetry; apply Z.eqb_neq; lia).
    replace (code c =? 43) with false by (symmetry; apply Z.eqb_neq; lia).
    unfold is_digit in Hc. destruct (digit c) eqn:Ed; [|done].
    rewrite Hv. destruct (_ && _) eqn:Er; [done|].
    apply andb_false_iff in Er as [?%Z.leb_gt|?%Z.leb_gt]; lia.
  - destruct (pretty_pos_shape p) as (c & r & E & Hc & Hr & Hv).
    change (pretty p) with (pretty (N.pos p)). rewrite E.
    change ("-" +:+ String c r) with (String "-" (String c r)).
    unfold stol. cbn [drop_while].
    rewrite (eq_refl : is_space "-"%char = false).
    rewrite (eq_refl : (code "-"%char =? 45) = true). cbv iota beta.
    unfold is_digit in Hc. destruct (digit c) eqn:Ed; [|done].
    rewrite Hv. destruct (_ && _) eqn:Er; [done|].
    apply andb_false_iff in Er as [?%Z.leb_gt|?%Z.leb_gt]; lia.
Qed.

Lemma is_numeric_not_blank c : is_numeric c = true -> is_blank c = false.
Proof.
  unfold is_numeric, is_blank. intros [Hd| ->%Z.eqb_eq]%orb_prop; [|done].
  apply is_digit_code in Hd.
  repeat (apply orb_false_iff; split); apply Z.eqb_neq; lia.
Qed.

Lemma getline_numeric s : string_all is_numeric s = true -> getline s = s.
Proof.
  induction s as [|c s IH]; [done|]. cbn [string_all getline].
  intros [Hc Hs]%andb_prop. apply is_numeric_not_blank in Hc.
  unfold is_blank in Hc. repeat apply orb_false_iff in Hc as [Hc ?].
  replace (code c =? 10) with false by done. by rewrite IH.
Qed.

Lemma string_all_rev_app p a b :
  string_all p (String.rev_app a b) = string_all p a && string_all p b.
Proof.
  revert b. induction a as [|c a IH]; intros b; [done|].
  cbn [String.rev_app string_all]. rewrite IH. cbn [string_all].
  by destruct (p c), (string_all p a), (string_all p b).
Qed.

Lemma append_cons c a l : String c a +:+ l = String c (a +:+ l).
Proof. reflexivity. Qed.

Lemma append_empty_l l : EmptyString +:+ l = l.
Proof. reflexivity. Qed.

Lemma append_empty_r s : s +:+ EmptyString = s.
Proof. induction s as [|c s IH]; [done|]. by rewrite append_cons, IH. Qed.

Lemma rev_app_rev_app a b c :
  String.rev_app (String.rev_app a b) c = String.rev_app b (a +:+ c).
Proof.
  revert b. induction a as [|x a IH]; intros b; [done|].
  cbn [String.rev_app]. by rewrite IH.
Qed.

Lemma rev_rev s : String.rev (String.rev s) = s.
Proof.
  unfold String.rev. rewrite rev_app_rev_app. cbn [String.rev_app]. apply append_empty_r.
Qed.

Lemma drop_while_head p s :
  string_all (fun c => negb (p c)) s = true -> drop_while p s = s.
Proof.
  destruct s as [|c s]; [done|]. cbn [string_all drop_while].
  intros [Hc _]%andb_prop. by destruct (p c).
Qed.

Lemma string_all_impl (p q : ascii -> bool) s :
  (forall c, p c = true -> q c = true) ->
  string_all p s = true -> string_all q s = true.
Proof.
  intros Hpq. induction s as [|c s IH]; [done|]. cbn [string_all].
  intros [Hc Hs]%andb_prop. by rewrite (Hpq c Hc), IH.
Qed.

Lemma trim_numeric s : string_all is_numeric s = true -> trim s = s.
Proof.
  intros Hs.
  assert (Hnb : string_all (fun c => negb (is_blank c)) s = true).
  { eapply string_all_impl, Hs. intros c Hc. by rewrite is_numeric_not_blank. }
  unfold trim. rewrite (drop_while_head _ s Hnb).
  rewrite drop_while_head; [apply rev_rev|].
  unfold String.rev. by rewrite string_all_rev_app, Hnb.
Qed.

(** Two numbers followed by path components: the text determines both. *)
Lemma numeric_prefix_inj a a' l l' :
  string_all is_numeric a = true -> string_all is_numeric a' = true ->
  is_leaf l = true -> is_leaf l' = true ->
  a +:+ l = a' +:+ l' -> a = a' /\ l = l'.
Proof.
  revert a'. induction a as [|c a IH]; intros a' Ha Ha' Hl Hl' E.
  - destruct a' as [|c' a']; [done|]. exfalso.
    rewrite append_empty_l, append_cons in E.
    destruct l as [|x l]; [done|]. injection E as -> _.
    cbn [string_all] in Ha'. apply andb_prop in Ha' as [Hc _].
    cbn [is_leaf] in Hl. by rewrite Hc in Hl.
  - destruct a' as [|c' a'].
    + exfalso. rewrite append_empty_l, append_cons in E.
      destruct l' as [|x l']; [done|]. injection E as -> _.
      cbn [string_all] in Ha. apply andb_prop in Ha as [Hc _].
      cbn [is_leaf] in Hl'. by rewrite Hc in Hl'.
    + rewrite !append_cons in E. injection E as -> E.
      cbn [string_all] in Ha, Ha'.
      apply andb_prop in Ha as [_ Ha]. apply andb_prop in Ha' as [_ Ha'].
      destruct (IH a' Ha Ha' Hl Hl' E) as [-> ->]. done.
Qed.

Lemma cpu_path_inj c c' l l' :
  is_leaf l = true -> is_leaf l' = true ->
  cpu_path c l = cpu_path c' l' -> c = c' /\ l = l'.
Proof.
  intros Hl Hl' E. unfold cpu_path in E.
  apply (inj (String.app _)) in E.
  apply numeric_prefix_inj in E as [E ->]; try done; try apply to_string_numeric.
  split; [|done]. by apply (inj pretty).
Qed.

End Decimal.

(* --------------------------------------------------------------------- *)
(** ** The frequency throttle: what is written is what is read            *)
(* --------------------------------------------------------------------- *)

Section ThrottleReadBack.
Import CPUFreqManager.

Lemma read_freq_numeric path f w :
  Str.LONG_MIN <= f <= Str.LONG_MAX ->
  attrs (sys w) !! path = Some (Str.to_string f) -> read_freq path w = f.
Proof.
  intros Hf Ha. unfold read_freq, readSysFile. rewrite Ha.
  rewrite getline_numeric, trim_numeric by apply to_string_numeric.
  by rewrite to_string_nonempty, stol_to_string.
Qed.

Lemma read_freq_same path w w1 :
  attrs (sys w1) !! path = attrs (sys w) !! path -> read_freq path w1 = read_freq path w.
Proof. unfold read_freq, readSysFile. by intros ->. Qed.

Lemma writeSysFile_lookup path value w :
  writable path w = true ->
  attrs (sys (writeSysFile path value w).2) !! path = Some value.
Proof. intros Hw. unfold writeSysFile. rewrite Hw. apply lookup_insert_eq. Qed.

Lemma writeSysFile_other path value w p :
  path <> p -> attrs (sys (writeSysFile path value w).2) !! p = attrs (sys w) !! p.
Proof.
  intros Hne. unfold writeSysFile. destruct (writable path w); [|done].
  by apply lookup_insert_ne.
Qed.

Lemma writeSysFile_holds path v w p :
  attrs (sys w) !! p = Some v -> attrs (sys (writeSysFile path v w).2) !! p = Some v.
Proof.
  intros Hp. destruct (decide (path = p)) as [->|Hne].
  - unfold writeSysFile. destruct (writable p w); [apply lookup_insert_eq|done].
  - by rewrite writeSysFile_other.
Qed.

Lemma writeSysFile_fst path value w : (writeSysFile path value w).1 = writable path w.
Proof. unfold writeSysFile. by destruct (writable path w). Qed.

Lemma read_back_after_set cpu f w :
  writable (scaling_max_freq cpu) w = true ->
  Str.LONG_MIN <= f <= Str.LONG_MAX ->
  getCurrentMaxFreq cpu (setCpuMaxFreq cpu f w).2 = f.
Proof.
  intros Hw Hf. unfold setCpuMaxFreq, getCurrentMaxFreq.
  apply read_freq_numeric; [done|]. by apply writeSysFile_lookup.
Qed.

(** X4.  Throttle: a ceiling written by [setCpuMaxFreq] to a file that takes
    writes is the value [getCurrentMaxFreq] reads back, for every [long]. *)
Theorem setCpuMaxFreq_read_back cpu f w :
  writable (scaling_max_freq cpu) w = true ->
  Str.LONG_MIN <= f <= Str.LONG_MAX ->
  (setCpuMaxFreq cpu f w).1 = true
  /\ getCurrentMaxFreq cpu (setCpuMaxFreq cpu f w).2 = f.
Proof.
  intros Hw Hf. unfold setCpuMaxFreq, getCurrentMaxFreq.
  rewrite writeSysFile_fst. split; [done|].
  apply read_freq_numeric; [done|]. by apply writeSysFile_lookup.
Qed.

Lemma setCpuMaxFreq_read_back_witness :
  getCurrentMaxFreq 0 (setCpuMaxFreq 0 (-1) device_two_cores).2 = -1.
Proof.
  apply (setCpuMaxFreq_read_back 0 (-1) device_two_cores); [reflexivity|].
  unfold Str.LONG_MIN, Str.LONG_MAX. lia.
Defined.

Lemma forallb_eq {A} (f g : A -> bool) l :
  (forall a, f a = g a) -> forallb f l = forallb g l.
Proof. intros H. induction l as [|a l IH]; [done|]. cbn [forallb]. by rewrite H, IH. Qed.

Lemma apply_one_result F acc cpu :
  (apply_one F acc cpu).1 = acc.1 && writable (scaling_max_freq cpu) acc.2.
Proof.
  unfold apply_one, setCpuMaxFreq.
  pose proof (writeSysFile_fst (scaling_max_freq cpu) (Str.to_string F) acc.2) as H.
  destruct (writeSysFile _ _ _) as [ok w1]. cbn [fst snd] in *. by rewrite H.
Qed.

Lemma foldl_apply_one_result F cores acc :
  (foldl (apply_one F) acc cores).1
  = acc.1 && forallb (fun cpu => writable (scaling_max_freq cpu) acc.2) cores.
Proof.
  revert acc. induction cores as [|c cores IH]; intros acc; cbn [foldl forallb].
  - by rewrite andb_true_r.
  - rewrite IH, apply_one_result, <- andb_assoc. do 2 f_equal.
    apply forallb_eq. intros a. apply apply_one_writable.
Qed.

Lemma apply_one_holds F acc cpu p :
  attrs (sys acc.2) !! p = Some (Str.to_string F) ->
  attrs (sys (apply_one F acc cpu).2) !! p = Some (Str.to_string F).
Proof.
  intros Hp. unfold apply_one, setCpuMaxFreq.
  pose proof (writeSysFile_holds (scaling_max_freq cpu) (Str.to_string F) acc.2 p Hp) as H.
  by destruct (writeSysFile _ _ _) as [ok w1].
Qed.

Lemma foldl_apply_one_holds F cores acc p :
  attrs (sys acc.2) !! p = Some (Str.to_string F) ->
  attrs (sys (foldl (apply_one F) acc cores).2) !! p = Some (Str.to_string F).
Proof.
  revert acc. induction cores as [|c cores IH]; intros acc Hp; [done|].
  cbn [foldl]. by apply IH, apply_one_holds.
Qed.

Lemma foldl_apply_one_written F cores acc cpu :
  cpu ∈ cores -> writable (scaling_max_freq cpu) acc.2 = true ->
  attrs (sys (foldl (apply_one F) acc cores).2) !! scaling_max_freq cpu
  = Some (Str.to_string F).
Proof.
  revert acc. induction cores as [|c cores IH]; intros acc Hin Hw.
  - by apply elem_of_nil in Hin.
  - cbn [foldl]. apply elem_of_cons in Hin as [->|Hin].
    + apply foldl_apply_one_holds. unfold apply_one, setCpuMaxFreq.
      pose proof (writeSysFile_lookup _ (Str.to_string F) _ Hw) as H.
      by destruct (writeSysFile _ _ _) as [ok w1].
    + apply IH; [done|]. by rewrite apply_one_writable.
Qed.

(** X5.  Throttle: [setMaxFrequency] returns true when the file of every
    target core takes the write, and whatever it returns, every target core
    whose file takes writes reads the requested ceiling afterwards. *)
Theorem setMaxFrequency_applies f cores ar w m :
  Str.LONG_MIN <= f <= Str.LONG_MAX ->
  let r := setMaxFrequency f cores ar w m in
  (forallb (fun cpu => writable (scaling_max_freq cpu) w) (target_cores cores w) = true ->
   r.1.1 = true)
  /\ forall cpu, cpu ∈ target_cores cores w ->
       writable (scaling_max_freq cpu) w = true ->
       getCurrentMaxFreq cpu r.1.2 = f.
Proof.
  intros Hf r. subst r. unfold setMaxFrequency.
  pose proof (foldl_apply_one_result f (target_cores cores w) (true, w)) as Hres.
  assert (Hcore : forall cpu, cpu ∈ target_cores cores w ->
            writable (scaling_max_freq cpu) w = true ->
            attrs (sys (foldl (apply_one f) (true, w) (target_cores cores w)).2)
              !! scaling_max_freq cpu = Some (Str.to_string f)).
  { intros cpu Hin Hw. by apply foldl_apply_one_written. }
  destruct (foldl (apply_one f) (true, w) (target_cores cores w)) as [ok wa].
  cbn [fst snd andb] in Hres, Hcore. rewrite <- Hres. clear Hres.
  destruct ok.
  - match goal with |- context [if ?b then (wa, ?m2) else startWorker wa ?m2'] =>
      pose proof (startWorker_world wa m2 EmptyString) as (Hsw & _);
      destruct b; [|destruct (startWorker wa m2) as [w2 m3]] end;
    cbn [fst snd] in *; (split; [done|]); intros cpu Hin Hw;
    apply read_freq_numeric; try done; [|rewrite Hsw]; by apply Hcore.
  - cbn [fst snd]. split; [by intros <-|]. intros cpu Hin Hw.
    apply read_freq_numeric; [done|]. by apply Hcore.
Qed.

(** On the device of two cores the ceiling of core 1 is read-only: core 0
    takes the ceiling all the same. *)
Lemma setMaxFrequency_applies_witness :
  getCurrentMaxFreq 0 (setMaxFrequency 900000 [] 0 device_two_cores throttle_idle).1.2
  = 900000.
Proof.
  assert (Hf : Str.LONG_MIN <= 900000 <= Str.LONG_MAX)
    by (unfold Str.LONG_MIN, Str.LONG_MAX; lia).
  destruct (setMaxFrequency_applies 900000 [] 0 device_two_cores throttle_idle Hf)
    as [Hr Hc].
  apply Hc; vm_compute; [|reflexivity]. apply list_elem_of_here.
Defined.

(** X6.  Throttle: a [setMaxFrequency] that fails on a manager that was not
    limiting leaves it not limiting, so the following [restore] writes
    nothing: the cores that did take the ceiling keep it. *)
Theorem failed_setMaxFrequency_is_not_undone f cores ar w m :
  isLimited_ m = false ->
  let r := setMaxFrequency f cores ar w m in
  r.1.1 = false ->
  isLimited_ r.2 = false
  /\ (forall cpu, cpu ∈ target_cores cores w ->
        writable (scaling_max_freq cpu) w = true ->
        attrs (sys r.1.2) !! scaling_max_freq cpu = Some (Str.to_string f))
  /\ sys (restore r.1.2 r.2).1.2 = sys r.1.2.
Proof.
  intros Hlim r. subst r. unfold setMaxFrequency. rewrite Hlim.
  assert (Hcore : forall cpu, cpu ∈ target_cores cores w ->
            writable (scaling_max_freq cpu) w = true ->
            attrs (sys (foldl (apply_one f) (true, w) (target_cores cores w)).2)
              !! scaling_max_freq cpu = Some (Str.to_string f)).
  { intros cpu Hin Hw. by apply foldl_apply_one_written. }
  destruct (foldl (apply_one f) (true, w) (target_cores cores w)) as [ok wa].
  cbn [fst snd] in Hcore. destruct ok.
  - match goal with |- context [if ?b then _ else _] => destruct b end;
      [|destruct (startWorker _ _) as [w2 m3]]; cbn [fst snd]; done.
  - cbn [fst snd]. intros _. split; [done|]. split; [done|].
    unfold restore, stopWorker. cbn [set_original workerRunning_ workerThread_].
    destruct (workerRunning_ m); cbn [negb]; [destruct (workerThread_ m)|];
      unfold set_thread, set_original; cbn [isLimited_]; rewrite Hlim; done.
Qed.

Lemma failed_setMaxFrequency_is_not_undone_witness :
  attrs (sys (setMaxFrequency 900000 [] 0 device_two_cores throttle_idle).1.2)
    !! scaling_max_freq 0 = Some (Str.to_string 900000)
  /\ sys (restore (setMaxFrequency 900000 [] 0 device_two_cores throttle_idle).1.2
                  (setMaxFrequency 900000 [] 0 device_two_cores throttle_idle).2).1.2
     = sys (setMaxFrequency 900000 [] 0 device_two_cores throttle_idle).1.2.
Proof.
  destruct (failed_setMaxFrequency_is_not_undone 900000 [] 0 device_two_cores
              throttle_idle eq_refl) as (_ & Hc & Hs).
  - vm_compute. reflexivity.
  - split; [|exact Hs]. apply Hc; vm_compute; [|reflexivity]. apply list_elem_of_here.
Defined.

Lemma restore_idle w m :
  workerRunning_ m = false -> isLimited_ m = false -> restore w m = (true, w, m).
Proof. intros Hr Hl. unfold restore, stopWorker. rewrite Hr. cbn [negb]. by rewrite Hl. Qed.

Lemma restore_post w m :
  isLimited_ (restore w m).2 = false /\ workerRunning_ (restore w m).2 = false.
Proof.
  unfold restore.
  assert (Hs : workerRunning_ (stopWorker w m).2 = false).
  { unfold stopWorker. destruct (workerRunning_ m) eqn:Hr; cbn [negb]; [|done].
    by destruct (workerThread_ m). }
  destruct (stopWorker w m) as [w1 m1]. cbn [snd] in Hs.
  destruct (isLimited_ m1) eqn:Hl; cbn [negb snd]; [done|]. by rewrite Hl.
Qed.

(** X7.  Throttle: a second [restore] changes nothing, neither the device nor
    the manager; after any [restore] the manager is not limiting and its
    worker flag is down. *)
Theorem restore_is_idempotent w m :
  let r := restore w m in
  restore r.1.2 r.2 = (true, r.1.2, r.2)
  /\ isLimited_ r.2 = false /\ workerRunning_ r.2 = false.
Proof.
  intros r. destruct (restore_post w m) as [Hl Hr]. fold r in Hl, Hr.
  split; [|done]. destruct r as [[ok w1] m1]. cbn [fst snd] in *.
  by apply restore_idle.
Qed.

Lemma reapply_writable T w cpu p : writable p (reapply T w cpu) = writable p w.
Proof.
  unfold reapply, setCpuMaxFreq. destruct (negb _); [|done].
  apply writeSysFile_writable.
Qed.

Lemma reapply_keeps T w cpu c :
  Str.LONG_MIN <= T <= Str.LONG_MAX ->
  getCurrentMaxFreq c w = T -> getCurrentMaxFreq c (reapply T w cpu) = T.
Proof.
  intros HT Hc. unfold reapply. destruct (negb _); [|done].
  unfold setCpuMaxFreq, getCurrentMaxFreq in *.
  destruct (decide (scaling_max_freq cpu = scaling_max_freq c)) as [E|Hne].
  - rewrite E. unfold writeSysFile.
    destruct (writable (scaling_max_freq c) w) eqn:Hw; [|done].
    apply read_freq_numeric; [done|]. apply lookup_insert_eq.
  - rewrite <- Hc. apply read_freq_same. by apply writeSysFile_other.
Qed.

Lemma foldl_reapply_keeps T cores w c :
  Str.LONG_MIN <= T <= Str.LONG_MAX ->
  getCurrentMaxFreq c w = T -> getCurrentMaxFreq c (foldl (reapply T) w cores) = T.
Proof.
  intros HT. revert w. induction cores as [|x cores IH]; intros w Hc; [done|].
  cbn [foldl]. by apply IH, reapply_keeps.
Qed.

Lemma foldl_reapply_sets T cores w c :
  Str.LONG_MIN <= T <= Str.LONG_MAX ->
  c ∈ cores -> writable (scaling_max_freq c) w = true ->
  getCurrentMaxFreq c (foldl (reapply T) w cores) = T.
Proof.
  intros HT. revert w. induction cores as [|x cores IH]; intros w Hin Hw.
  - by apply elem_of_nil in Hin.
  - cbn [foldl]. apply elem_of_cons in Hin as [->|Hin].
    + apply foldl_reapply_keeps; [done|]. unfold reapply.
      destruct (getCurrentMaxFreq x w =? T) eqn:E; cbn [negb].
      * by apply Z.eqb_eq.
      * by apply read_back_after_set.
    + apply IH; [done|]. by rewrite reapply_writable.
Qed.

Lemma restore_by_other w m : restore_by false w m = Some (restore w m).
Proof.
  unfold restore_by, restore, stopWorker_by, stopWorker.
  destruct (workerRunning_ m); cbn [negb]; [destruct (workerThread_ m)|];
    by destruct (negb _).
Qed.

(** X8.  Throttle, [tick] before the auto-restore deadline (or with none set):
    the manager is unchanged and every target core whose file takes writes
    reads the target ceiling afterwards, whatever the system had set. *)
Theorem tick_reapplies_target self w m :
  isLimited_ m = true ->
  autoRestoreMs_ m <= 0 \/ getCurrentTimeMs w - limitStartTimeMs_ m < autoRestoreMs_ m ->
  Str.LONG_MIN <= targetMaxFreq_ m <= Str.LONG_MAX ->
  exists w1,
    tick self w m = Some (w1, m)
    /\ forall cpu, cpu ∈ targetCores_ m ->
         writable (scaling_max_freq cpu) w = true ->
         getCurrentMaxFreq cpu w1 = targetMaxFreq_ m.
Proof.
  intros Hl Hdl HT. unfold tick. rewrite Hl. cbn [negb].
  replace ((0 <? autoRestoreMs_ m)
           && (autoRestoreMs_ m <=? getCurrentTimeMs w - limitStartTimeMs_ m))
    with false.
  - eexists. split; [done|]. intros cpu Hin Hw. by apply foldl_reapply_sets.
  - symmetry. apply andb_false_iff. destruct Hdl; [left; apply Z.ltb_ge|right; apply Z.leb_gt]; lia.
Qed.

Lemma tick_reapplies_target_witness :
  exists w1,
    tick true (system_sets_freq device_two_cores) (throttle_on 0)
    = Some (w1, throttle_on 0)
    /\ getCurrentMaxFreq 0 w1 = 900000.
Proof.
  assert (HT : Str.LONG_MIN <= targetMaxFreq_ (throttle_on 0) <= Str.LONG_MAX)
    by (unfold Str.LONG_MIN, Str.LONG_MAX; cbn; lia).
  destruct (tick_reapplies_target true (system_sets_freq device_two_cores) (throttle_on 0)
              eq_refl (or_introl (Z.le_refl 0)) HT) as (w1 & Ht & Hc).
  exists w1. split; [exact Ht|]. apply Hc; [apply list_elem_of_here|reflexivity].
Defined.

(** X9.  Throttle, [tick] at or after the auto-restore deadline: run by another
    thread it is [restore]; run by the worker thread, [restore] joins the
    calling thread itself and the process ends instead of restoring. *)
Theorem tick_at_deadline w m :
  isLimited_ m = true ->
  0 < autoRestoreMs_ m <= getCurrentTimeMs w - limitStartTimeMs_ m ->
  workerRunning_ m = true ->
  is_Some (workerThread_ m) ->
  tick false w m = Some ((restore w m).1.2, (restore w m).2)
  /\ tick true w m = None.
Proof.
  intros Hl [Hpos Hdl] Hr [th Hth]. unfold tick. rewrite Hl. cbn [negb].
  replace ((0 <? autoRestoreMs_ m)
           && (autoRestoreMs_ m <=? getCurrentTimeMs w - limitStartTimeMs_ m))
    with true
    by (symmetry; apply andb_true_intro; split; [apply Z.ltb_lt|apply Z.leb_le]; lia).
  split.
  - rewrite restore_by_other. by destruct (restore w m) as [[? ?] ?].
  - unfold restore_by, stopWorker_by. by rewrite Hr, Hth.
Qed.

Lemma tick_at_deadline_witness :
  tick true (set_wall 5000 device_two_cores) (throttle_on 5000) = None.
Proof.
  apply (tick_at_deadline (set_wall 5000 device_two_cores) (throttle_on 5000));
    [reflexivity|cbn; lia|reflexivity|by eexists].
Defined.

End ThrottleReadBack.

(* --------------------------------------------------------------------- *)
(** ** Launching a run                                                    *)
(* --------------------------------------------------------------------- *)

Section Launch.

Lemma ensureDirectory_now p w : now (DiskStressor.ensureDirectory p w).2 = now w.
Proof.
  unfold DiskStressor.ensureDirectory.
  destruct (DiskStressor.stat p w) as [[|]|]; try done.
  by destruct (mkdir_disk p w) as [d ->].
Qed.

Lemma checkTcAvailable_now w : now (NetworkStressor.checkTcAvailable w).2 = now w.
Proof. destruct (checkTcAvailable_world w) as (probes & -> & _). done. Qed.

Lemma cpu_threads_spawned (f : Z -> Z) n :
  CPUStressor.state <$>
    ((fun i => {| CPUStressor.state := Spawned; CPUStressor.threadId := i;
                  CPUStressor.coreId := f i |}) <$> seqZ 0 n)
  = replicate (Z.to_nat n) Spawned.
Proof.
  rewrite <- list_fmap_compose.
  rewrite (const_fmap _ (seqZ 0 n) Spawned) by done.
  by rewrite length_seqZ.
Qed.

(** X10.  Every generator: [start] on a generator that is not running but still
    owns a joinable worker thread (the run reached its deadline and [stop]
    was not called) never launches a run.  When the environment check of
    [start] passes, the new thread is assigned over the joinable one and the
    process ends; when the check fails, [start] returns false. *)
Theorem start_over_unjoined_worker
    (k : StressorKind) (cfg : Stressor.config k) (w : World) (s : Stressor.state k) :
  Stressor.isRunning k s = false ->
  Stressor.threads k s <> [] ->
  if start_check k cfg w
  then Stressor.start k cfg w s = None
  else exists w1 s1, Stressor.start k cfg w s = Some (false, w1, s1).
Proof.
  destruct k; unfold Stressor.isRunning, StressorBase.isRunning;
    cbn [Stressor.base Stressor.threads Stressor.start start_check]; intros Hr Ht.
  - unfold CPUStressor.start, StressorBase.isRunning. rewrite Hr.
    by destruct (CPUStressor.workerThreads_ s).
  - unfold MemoryStressor.start, StressorBase.isRunning. rewrite Hr.
    cbn [MemoryStressor.workerThread_]. by destruct (MemoryStressor.workerThread_ s).
  - unfold DiskStressor.start, StressorBase.isRunning. rewrite Hr.
    destruct (DiskStressor.ensureDirectory _ w) as [ok w1]. cbn [fst negb].
    destruct ok; cbn [negb]; [|by eauto].
    cbn [DiskStressor.workerThread_ DiskStressor.set_config].
    by destruct (DiskStressor.workerThread_ s).
  - unfold NetworkStressor.start, StressorBase.isRunning. rewrite Hr.
    destruct (NetworkStressor.checkTcAvailable w) as [ok w1]. cbn [fst].
    destruct ok; cbn [negb]; [|by eauto].
    cbn [NetworkStressor.workerThread_ NetworkStressor.set_base
         NetworkStressor.set_config].
    by destruct (NetworkStressor.workerThread_ s).
  - unfold ThermalStressor.start, StressorBase.isRunning. rewrite Hr.
    cbn [ThermalStressor.workerThread_]. by destruct (ThermalStressor.workerThread_ s).
Qed.

Lemma start_over_unjoined_worker_witness :
  Stressor.start Memory MemoryStressor.default_config Example.bare memory_expired = None.
Proof.
  assert (Ht : Stressor.threads Memory memory_expired <> []) by done.
  exact (start_over_unjoined_worker Memory MemoryStressor.default_config
           Example.bare memory_expired eq_refl Ht).
Defined.

(** X11.  Every generator: [start] on a generator that is not running and owns no
    joinable thread (as [stop] leaves it) launches the run when the
    environment check passes: it returns true, the generator runs with the
    new configuration, the start time is now and the duration the configured
    one, and the configured number of workers is pending. *)
Theorem start_launches
    (k : StressorKind) (cfg : Stressor.config k) (w : World) (s : Stressor.state k) :
  Stressor.isRunning k s = false ->
  Stressor.threads k s = [] ->
  start_check k cfg w = true ->
  exists w1 s1,
    Stressor.start k cfg w s = Some (true, w1, s1)
    /\ Stressor.base k s1
       = {| StressorBase.running_ := true; StressorBase.startTimeMs_ := now w;
            StressorBase.durationMs_ := duration_of k cfg |}
    /\ Stressor.config_ k s1 = cfg
    /\ Stressor.threads k s1 = replicate (workers_of k cfg) Spawned.
Proof.
  destruct k; unfold Stressor.isRunning, StressorBase.isRunning;
    cbn [Stressor.base Stressor.threads Stressor.start start_check Stressor.config_
         duration_of workers_of]; intros Hr Ht Hc.
  - unfold CPUStressor.start, StressorBase.isRunning. rewrite Hr.
    apply fmap_nil_inv in Ht. rewrite Ht.
    eexists _, _. split; [done|]. cbn [CPUStressor.base CPUStressor.config_
      CPUStressor.workerThreads_]. split; [done|]. split; [done|].
    apply cpu_threads_spawned.
  - unfold MemoryStressor.start, StressorBase.isRunning. rewrite Hr.
    cbn [MemoryStressor.workerThread_].
    destruct (MemoryStressor.workerThread_ s); [done|]. by eexists _, _.
  - unfold DiskStressor.start, StressorBase.isRunning. rewrite Hr.
    pose proof (ensureDirectory_now (DiskStressor.testPath cfg) w) as Hnow.
    destruct (DiskStressor.ensureDirectory _ w) as [ok w1]. cbn [fst snd] in *.
    subst ok. cbn [negb DiskStressor.workerThread_ DiskStressor.set_config].
    destruct (DiskStressor.workerThread_ s); [done|].
    eexists _, _. split; [done|]. cbn.
    unfold StressorBase.markStarted, StressorBase.getCurrentTimeMs. cbn.
    by rewrite Hnow.
  - unfold NetworkStressor.start, StressorBase.isRunning. rewrite Hr.
    pose proof (checkTcAvailable_now w) as Hnow.
    destruct (NetworkStressor.checkTcAvailable w) as [ok w1]. cbn [fst snd] in *.
    subst ok. cbn [negb NetworkStressor.workerThread_ NetworkStressor.set_base
                   NetworkStressor.set_config].
    destruct (NetworkStressor.workerThread_ s); [done|].
    eexists _, _. split; [done|]. cbn.
    unfold StressorBase.markStarted, StressorBase.getCurrentTimeMs. cbn.
    by rewrite Hnow.
  - unfold ThermalStressor.start, StressorBase.isRunning. rewrite Hr.
    cbn [ThermalStressor.workerThread_].
    destruct (ThermalStressor.workerThread_ s); [done|]. by eexists _, _.
Qed.

Lemma start_launches_witness :
  exists w1 s1,
    Stressor.start Cpu CPUStressor.default_config Example.bare CPUStressor.init
    = Some (true, w1, s1)
    /\ Stressor.threads Cpu s1 = replicate 4 Spawned.
Proof.
  destruct (start_launches Cpu CPUStressor.default_config Example.bare CPUStressor.init
              eq_refl eq_refl eq_refl) as (w1 & s1 & Hs & _ & _ & Ht).
  by exists w1, s1.
Defined.

End Launch.

(* --------------------------------------------------------------------- *)
(** ** The CPU generator                                                  *)
(* --------------------------------------------------------------------- *)

Section CpuLoad.
Import CPUStressor.



Lemma core_for_range config numCores i :
  0 <= i -> 0 < numCores ->
  if pinToCores config
  then if bool_decide (targetCores config = [])
       then 0 <= core_for config numCores i < numCores
       else core_for config numCores i ∈ targetCores config
  else core_for config numCores i = -1.
Proof.
  intros Hi Hn. unfold core_for. destruct (pinToCores config); [|done]. cbn [andb].
  destruct (bool_decide_reflect (targetCores config = [])) as [E|E]; cbn [negb].
  - rewrite Z.rem_mod_nonneg by lia. by apply Z.mod_pos_bound.
  - assert (Hlen : (0 < length (targetCores config))%nat)
      by (destruct (targetCores config); [done|cbn; lia]).
    rewrite Z.rem_mod_nonneg by lia.
    pose proof (Z.mod_pos_bound i (Z.of_nat (length (targetCores config))) ltac:(lia)) as Hb.
    destruct (lookup_lt_is_Some_2 (targetCores config)
                (Z.to_nat (i `mod` Z.of_nat (length (targetCores config)))) ltac:(lia))
      as [c Hc].
    rewrite Hc. cbn. by eapply list_elem_of_lookup_2.
Qed.

(** X13.  CPU generator: every worker that [start] creates is given a core
    according to the configuration: none (-1) without pinning, one of the
    listed target cores when a list is given, and otherwise a core number
    below the number of cores; the workers are numbered from 0. *)
Theorem start_core_assignment config w s s1 w1 :
  start config w s = Some (true, w1, s1) ->
  forall th, th ∈ workerThreads_ s1 ->
    0 <= threadId th < threadCount config
    /\ if pinToCores config
       then if bool_decide (targetCores config = [])
            then 0 <= coreId th < getNumCores w
            else coreId th ∈ targetCores config
       else coreId th = -1.
Proof.
  unfold start. destruct (StressorBase.isRunning (base s)); [done|].
  destruct (workerThreads_ s); [|done].
  intros H; inversion H; subst; clear H. cbn [workerThreads_].
  intros th [i [-> Hin]]%list_elem_of_fmap. cbn [threadId coreId].
  apply elem_of_seqZ in Hin. split; [lia|].
  apply core_for_range; [lia|].
  unfold getNumCores. destruct (Z.ltb_spec 0 (nprocessors_onln (sys w1))); lia.
Qed.

Lemma start_core_assignment_witness :
  0 <= threadId cpu_second_thread < 3 /\ coreId cpu_second_thread ∈ [2; 5].
Proof.
  assert (Hin : cpu_second_thread ∈ workerThreads_ cpu_pinned_run)
    by (apply list_elem_of_further, list_elem_of_here).
  exact (start_core_assignment cpu_pinned_config Example.bare init cpu_pinned_run
           Example.bare eq_refl cpu_second_thread Hin).
Defined.

(** X14.  CPU generator: with a thread count of 0 or less [start] still returns
    true and marks the generator running, but creates no worker; as only a
    worker or [stop] clears the flag, the generator reports a running test
    at any later time until [stop] is called. *)
Theorem start_without_threads config w s :
  StressorBase.isRunning (base s) = false ->
  workerThreads_ s = [] ->
  threadCount config <= 0 ->
  exists s1,
    start config w s = Some (true, w, s1)
    /\ workerThreads_ s1 = []
    /\ forall w', worker_exit w' s1 = (w', s1)
                  /\ StressStatus.isRunning (getStatus w' s1) = true.
Proof.
  intros Hr Ht Hn. unfold start. rewrite Hr, Ht.
  rewrite seqZ_nil by lia. eexists. split; [done|]. split; [done|].
  intros w'. split; [|done]. unfold worker_exit. cbn [workerThreads_ foldl fmap list_fmap].
  done.
Qed.

Lemma start_without_threads_witness :
  exists s1,
    start cpu_no_thread_config Example.bare init = Some (true, Example.bare, s1)
    /\ StressStatus.isRunning (getStatus (set_now 1000000000 Example.bare) s1) = true.
Proof.
  assert (Hn : threadCount cpu_no_thread_config <= 0) by (cbn; lia).
  destruct (start_without_threads cpu_no_thread_config Example.bare init
              eq_refl eq_refl Hn) as (s1 & Hs & _ & Hl).
  exists s1. split; [exact Hs|]. apply Hl.
Defined.

End CpuLoad.

(* --------------------------------------------------------------------- *)
(** ** The memory generator                                               *)
(* --------------------------------------------------------------------- *)

Section MemoryFloor.
Import MemoryStressor.


Lemma phase1_at_floor cfg cs passes ws :
  Forall (fun p => p.1 <= targetFreeMB cfg) passes ->
  exists rest, phase1 cfg cs passes ws = (rest, ws)
               /\ Forall (fun p => p.1 <= targetFreeMB cfg) rest.
Proof.
  intros Hall. destruct passes as [|[availableMB answer] rest]; cbn [phase1].
  - by exists [].
  - apply Forall_cons in Hall as [Hle Hrest]. cbn [fst] in Hle.
    destruct (Z.leb_spec availableMB (targetFreeMB cfg)); [|lia]. by exists rest.
Qed.

Lemma phase2_at_floor cfg cs passes ws :
  0 <= chunkSizeMB cfg ->
  Forall (fun p => p.1 <= targetFreeMB cfg) passes ->
  foldl (phase2 cfg cs) ws passes = ws.
Proof.
  intros Hc Hall. induction Hall as [|[availableMB answer] rest Hle _ IH]; [done|].
  cbn [foldl phase2 fst] in *.
  destruct (Z.ltb_spec (targetFreeMB cfg + chunkSizeMB cfg) availableMB); [lia|done].
Qed.

(** X15.  Memory generator: a run during which every reading of the available
    memory is at or below the configured floor obtains no region at all:
    the heap, the byte counts and the event log are as before the run.  The
    chunk size must not be negative (phase 2 compares against floor + chunk
    size, a sum that has to fit an [int]). *)
Theorem memory_run_at_floor_allocates_nothing w s passes later :
  mem_runs (mem w) = passes :: later ->
  Forall (fun p => p.1 <= targetFreeMB (config_ s)) passes ->
  0 <= chunkSizeMB (config_ s) ->
  targetFreeMB (config_ s) + chunkSizeMB (config_ s) <= 2 ^ 31 - 1 ->
  allocations_ s = [] ->
  live (mem (workerFunction w s).1) = live (mem w)
  /\ allocated_total (mem (workerFunction w s).1) = allocated_total (mem w)
  /\ released_total (mem (workerFunction w s).1) = released_total (mem w)
  /\ log (workerFunction w s).1 = log w
  /\ mem_runs (mem (workerFunction w s).1) = later.
Proof.
  intros Hruns Hall Hc _ Hnone. unfold workerFunction, next_run. rewrite Hruns.
  set (w0 := set_mem _ w).
  destruct (phase1_at_floor (config_ s) (chunk_size (config_ s)) passes (w0, s) Hall)
    as (rest & -> & Hrest).
  rewrite phase2_at_floor by done.
  rewrite surjective_pairing with (p := releaseMemory _ _) at 1.
  replace (releaseMemory w0 (set_base (StressorBase.markStopped (base s)) s)).1 with w0
    by (symmetry; by apply releaseMemory_empty).
  done.
Qed.

Lemma memory_run_at_floor_allocates_nothing_witness :
  log (workerFunction device_low_memory init).1 = log device_low_memory
  /\ live (mem (workerFunction device_low_memory init).1) = live (mem device_low_memory).
Proof.
  assert (Hall : Forall (fun p : Z * option Z => p.1 <= targetFreeMB (config_ init))
                   [(100, Some 4096); (60, Some 8192)]).
  { repeat constructor; cbn; lia. }
  assert (Hc : 0 <= chunkSizeMB (config_ init)) by (cbn; lia).
  assert (Hi : targetFreeMB (config_ init) + chunkSizeMB (config_ init) <= 2 ^ 31 - 1)
    by (cbn; lia).
  destruct (memory_run_at_floor_allocates_nothing device_low_memory init
              [(100, Some 4096); (60, Some 8192)] [] eq_refl Hall Hc Hi eq_refl)
    as (Hl & _ & _ & Hlog & _).
  by split.
Defined.

Lemma wrap_long_add a c : wrap_long (wrap_long a + c) = wrap_long (a + c).
Proof.
  unfold wrap_long. f_equal.
  replace ((a + 2 ^ 63) mod 2 ^ 64 - 2 ^ 63 + c + 2 ^ 63)
    with ((a + 2 ^ 63) mod 2 ^ 64 + c) by lia.
  rewrite Zplus_mod_idemp_l. f_equal. lia.
Qed.

Lemma record_chunk_counter cs ptr lock w s :
  allocatedBytes_ s = wrap_long (cs * Z.of_nat (length (allocations_ s))) ->
  allocatedBytes_ (record_chunk ptr cs lock (w, s)).2
  = wrap_long (cs * Z.of_nat (length (allocations_ (record_chunk ptr cs lock (w, s)).2))).
Proof.
  intros H. cbn [record_chunk snd set_allocations allocatedBytes_ allocations_].
  rewrite H, wrap_long_add, length_app. cbn [length]. f_equal. lia.
Qed.

Lemma phase1_counter cfg cs passes ws :
  allocatedBytes_ ws.2 = wrap_long (cs * Z.of_nat (length (allocations_ ws.2))) ->
  allocatedBytes_ (phase1 cfg cs passes ws).2.2
  = wrap_long (cs * Z.of_nat (length (allocations_ (phase1 cfg cs passes ws).2.2))).
Proof.
  revert ws. induction passes as [|[availableMB answer] rest IH]; intros ws H; [done|].
  cbn [phase1]. destruct (availableMB <=? targetFreeMB cfg); [done|].
  destruct (allocateChunk cs answer ws.1) as [[ptr|] w1]; apply IH; [|done].
  by apply record_chunk_counter.
Qed.

Lemma phase2_counter cfg cs passes ws :
  allocatedBytes_ ws.2 = wrap_long (cs * Z.of_nat (length (allocations_ ws.2))) ->
  allocatedBytes_ (foldl (phase2 cfg cs) ws passes).2
  = wrap_long (cs * Z.of_nat
                      (length (allocations_ (foldl (phase2 cfg cs) ws passes).2))).
Proof.
  intros H.
  apply (foldl_inv (fun a : World * t =>
           allocatedBytes_ a.2 = wrap_long (cs * Z.of_nat (length (allocations_ a.2)))));
    [done|].
  intros a [availableMB answer] Ha. cbn [phase2].
  destruct (_ <? availableMB); [|done].
  destruct (allocateChunk cs answer a.1) as [[ptr|] w1]; [|done].
  by apply record_chunk_counter.
Qed.

(** X16.  Memory generator, the counter behind [allocatedMB] in the status: at
    the end of the two phases of a run started with nothing recorded, the
    byte counter is the chunk size times the number of recorded regions
    (in 64-bit arithmetic); as long as that product fits a [long], the
    status shows the configured chunk size in MB times that number. *)
Theorem memory_counter_tracks_chunks cfg passes w s :
  allocations_ s = [] ->
  allocatedBytes_ s = 0 ->
  let r1 := phase1 cfg (chunk_size cfg) passes (w, s) in
  let s2 := (foldl (phase2 cfg (chunk_size cfg)) r1.2 r1.1).2 in
  let n := Z.of_nat (length (allocations_ s2)) in
  allocatedBytes_ s2 = wrap_long (chunk_size cfg * n)
  /\ (0 <= chunkSizeMB cfg -> chunkSizeMB cfg * 1048576 * n < 2 ^ 63 ->
      Z.quot (allocatedBytes_ s2) (1024 * 1024) = chunkSizeMB cfg * n).
Proof.
  intros Hnone Hzero r1 s2 n.
  assert (Hinv : allocatedBytes_ s2 = wrap_long (chunk_size cfg * n)).
  { apply phase2_counter, phase1_counter. cbn [snd]. rewrite Hnone, Hzero. cbn.
    by rewrite Z.mul_0_r. }
  split; [done|]. intros Hmb Hfit. rewrite Hinv.
  destruct (decide (n = 0)) as [->|Hn].
  - rewrite !Z.mul_0_r. done.
  - assert (Hcs : chunk_size cfg = chunkSizeMB cfg * 1048576).
    { unfold chunk_size, wrap_size.
      assert (chunkSizeMB cfg * 1048576 < 2 ^ 63) by nia.
      rewrite (Z.mod_small (chunkSizeMB cfg)) by lia.
      rewrite Z.mod_small by lia. lia. }
    rewrite Hcs. unfold wrap_long.
    rewrite Z.mod_small by nia.
    replace (chunkSizeMB cfg * 1048576 * n + 2 ^ 63 - 2 ^ 63)
      with (chunkSizeMB cfg * n * (1024 * 1024)) by lia.
    rewrite Z.quot_div_nonneg by nia. by rewrite Z.div_mul.
Qed.

Lemma memory_counter_tracks_chunks_witness :
  allocatedBytes_ memory_after_phases
  = wrap_long (chunk_size default_config
               * Z.of_nat (length (allocations_ memory_after_phases))).
Proof.
  exact (proj1 (memory_counter_tracks_chunks default_config
                  [(900, Some 4096); (500, Some 8192); (90, None); (300, Some 12288)]
                  Example.bare init eq_refl eq_refl)).
Defined.

End MemoryFloor.

(* --------------------------------------------------------------------- *)
(** ** The orchestrator                                                   *)
(* --------------------------------------------------------------------- *)

Section StopAll.
Import StressManager.

(** X17.  Orchestrator: when [stopAll] returns, every one of the five generators
    is stopped and has no joinable worker thread left, so [isAnyRunning]
    answers false. *)
Theorem stopAll_stops_everything w m w1 m1 :
  stopAll w m = Some (w1, m1) ->
  (forall k, Stressor.threads k (get k m1) = []
             /\ Stressor.isRunning k (get k m1) = false)
  /\ (isAnyRunning w1 m1).1 = false.
Proof.
  unfold stopAll. cbn [foldlM]. unfold stop_next at 1. cbn [Stressor.stop fst snd].
  pose proof (cpu_stop_post (lock w) (get Cpu m)) as [Hc1 Hc2].
  destruct (CPUStressor.stop (lock w) (get Cpu m)) as [wa sa]. cbn [fst snd] in *.
  unfold stop_next at 1. cbn [Stressor.stop fst snd get set cpuStressor_ memoryStressor_].
  pose proof (memory_stop_post wa (memoryStressor_ m)) as (Hm1 & Hm2 & _).
  destruct (MemoryStressor.stop wa (memoryStressor_ m)) as [wb sb]. cbn [fst snd] in *.
  unfold stop_next at 1. cbn [Stressor.stop fst snd get set diskStressor_].
  destruct (DiskStressor.stop wb (diskStressor_ m)) as [[wc sc]|] eqn:Ed; [|done].
  destruct (disk_stop_post _ _ _ _ Ed) as (Hd1 & Hd2 & _). cbn [fst snd] in *.
  unfold stop_next at 1. cbn [Stressor.stop fst snd get set networkStressor_].
  pose proof (net_stop_post wc (networkStressor_ m)) as (Hn1 & Hn2 & _).
  destruct (NetworkStressor.stop wc (networkStressor_ m)) as [wd sd]. cbn [fst snd] in *.
  unfold stop_next at 1. cbn [Stressor.stop fst snd get set thermalStressor_].
  destruct (ThermalStressor.stop wd (thermalStressor_ m)) as [[we se]|] eqn:Et; [|done].
  destruct (thermal_stop_post _ _ _ _ Et) as (Ht1 & Ht2 & _).
  intros H; inversion H; subst; clear H.
  assert (Hall : forall k,
            Stressor.threads k (get k (set Thermal se (set Network sd (set DiskIo sc
                                  (set Memory sb (set Cpu sa m)))))) = []
            /\ Stressor.isRunning k (get k (set Thermal se (set Network sd (set DiskIo sc
                                  (set Memory sb (set Cpu sa m)))))) = false).
  { intros k. destruct k; unfold Stressor.isRunning, StressorBase.isRunning;
      cbn [get set Stressor.threads Stressor.base cpuStressor_ memoryStressor_
           diskStressor_ networkStressor_ thermalStressor_].
    - by rewrite Hc1, Hc2.
    - by rewrite Hm1, Hm2.
    - by rewrite Hd1, Hd2.
    - by rewrite Hn1, Hn2.
    - by rewrite Ht1, Ht2. }
  split; [exact Hall|].
  unfold isAnyRunning. cbn [fst].
  repeat apply orb_false_intro;
    [exact (proj2 (Hall Cpu))|exact (proj2 (Hall Memory))|exact (proj2 (Hall DiskIo))
    |exact (proj2 (Hall Network))|exact (proj2 (Hall Thermal))].
Qed.

Lemma stopAll_stops_everything_witness :
  (isAnyRunning (stopAll_result).1 (stopAll_result).2).1 = false.
Proof.
  assert (H : stopAll Example.bare manager_two_running
              = Some ((stopAll_result).1, (stopAll_result).2)).
  { unfold stopAll_result.
    by destruct (stopAll Example.bare manager_two_running) as [[w1 m1]|] eqn:E;
      [|vm_compute in E]. }
  exact (proj2 (stopAll_stops_everything _ _ _ _ H)).
Defined.

End StopAll.

(* --------------------------------------------------------------------- *)
(** ** The disk generator                                                 *)
(* --------------------------------------------------------------------- *)

Section DiskFiles.
Import DiskStressor.

Lemma unlink_other dir name w d :
  d <> dir -> entries d (unlink dir name w) = entries d w.
Proof.
  intros Hne. unfold unlink. destruct (entries dir w) as [es|]; [|done].
  destruct (es !! name) as [[|]|]; try done.
  unfold entries. cbn. by rewrite lookup_insert_ne.
Qed.

Lemma foldl_unlink_other dir names w d :
  d <> dir -> entries d (foldl (fun w1 name => unlink dir name w1) w names) = entries d w.
Proof.
  intros Hne. revert w. induction names as [|a names IH]; intros w; [done|].
  cbn [foldl]. by rewrite IH, unlink_other.
Qed.

(** X18.  Disk generator: [cleanup] removes from the test directory exactly the
    regular files whose name contains both [stress_] and [.tmp], whoever
    created them; every other entry of the directory (other names,
    sub-directories of any name) and every other directory is as before.
    When the directory cannot be opened nothing happens. *)
Theorem cleanup_removes_exactly w s :
  match entries (testPath (config_ s)) w with
  | None => cleanup w s = w
  | Some es =>
      (exists es1,
         entries (testPath (config_ s)) (cleanup w s) = Some es1
         /\ forall n, es1 !! n
                      = match es !! n with
                        | Some RegularFile => if is_temp n then None else Some RegularFile
                        | other => other
                        end)
      /\ forall d, d <> testPath (config_ s) -> entries d (cleanup w s) = entries d w
  end.
Proof.
  unfold cleanup. destruct (entries (testPath (config_ s)) w) as [es|] eqn:He; [|done].
  split; [|intros d Hd; by apply foldl_unlink_other].
  destruct (foldl_unlink_entries (testPath (config_ s))
              (filter (fun name => is_temp name = true) (map_items es).*1) w es He)
    as (es1 & He1 & Hgone & Hkept).
  exists es1. split; [done|]. intros n.
  destruct (es !! n) as [[|]|] eqn:Hn.
  - destruct (is_temp n) eqn:Ht.
    + apply Hgone; [|done]. apply temp_names_elem. split; [done|]. by rewrite Hn.
    + rewrite <- Hn. apply Hkept. left. rewrite temp_names_elem.
      intros [Ht' _]. by rewrite Ht in Ht'.
  - rewrite <- Hn. apply Hkept. right. by rewrite Hn.
  - rewrite <- Hn. apply Hkept. right. by rewrite Hn.
Qed.

Lemma contains_cons needle b s :
  Str.contains needle s = true -> Str.contains needle (String b s) = true.
Proof.
  unfold Str.contains. cbn [String.index].
  destruct (String.prefix needle (String b s)); [done|].
  by destruct (String.index 0 needle s).
Qed.

Lemma contains_app_r needle c s :
  Str.contains needle s = true -> Str.contains needle (c +:+ s) = true.
Proof.
  intros H. induction c as [|b c IH]; [done|].
  rewrite append_cons. by apply contains_cons.
Qed.

Lemma prefix_app s x : String.prefix s (s +:+ x) = true.
Proof.
  induction s as [|a s IH]; [by destruct x|].
  rewrite append_cons. cbn [String.prefix].
  by destruct (ascii_dec a a).
Qed.

Lemma contains_app_l needle x : Str.contains needle (needle +:+ x) = true.
Proof.
  unfold Str.contains. pose proof (prefix_app needle x) as Hp.
  destruct (needle +:+ x) as [|b r] eqn:E.
  - destruct needle; [done|]. by rewrite append_cons in E.
  - cbn [String.index]. by rewrite Hp.
Qed.

(** The names the worker gives its files pass the test of [cleanup]. *)
Lemma is_temp_worker_file n :
  is_temp ("stress_" +:+ Str.to_string n +:+ ".tmp") = true.
Proof.
  unfold is_temp. apply andb_true_intro. split; [apply contains_app_l|].
  do 2 apply contains_app_r. reflexivity.
Qed.

Lemma open_create_entries dir name allowed w es :
  entries dir w = Some es ->
  exists es1, entries dir (open_create dir name allowed w).2 = Some es1
              /\ forall n, n <> name -> es1 !! n = es !! n.
Proof.
  intros He. unfold open_create. rewrite He.
  destruct (es !! name) as [[|]|]; cbn [snd]; try (by exists es).
  destruct allowed; cbn [snd]; [|by exists es].
  exists (<[name := RegularFile]> es). split.
  - unfold entries. cbn. apply lookup_insert_eq.
  - intros n Hn. by rewrite lookup_insert_ne.
Qed.

Lemma open_create_other dir name allowed w d :
  d <> dir -> entries d (open_create dir name allowed w).2 = entries d w.
Proof.
  intros Hne. unfold open_create. destruct (entries dir w) as [es|]; [|done].
  destruct (es !! name) as [[|]|]; try done.
  destruct allowed; [|done]. unfold entries. cbn. by rewrite lookup_insert_ne.
Qed.

Lemma cycle_entries cfg acc p acc1 es :
  cycle cfg acc p = Some acc1 ->
  entries (testPath cfg) acc.2.1 = Some es ->
  exists es1, entries (testPath cfg) acc1.2.1 = Some es1
              /\ forall n, is_temp n = false -> es1 !! n = es !! n.
Proof.
  destruct acc as [l [w s]]. cbn [fst snd]. unfold cycle. intros Hc He. revert Hc.
  set (name := "stress_" +:+ Str.to_string (fileCounter l) +:+ ".tmp").
  assert (Hname : forall n, is_temp n = false -> n <> name).
  { intros n Hn ->. unfold name in Hn. by rewrite is_temp_worker_file in Hn. }
  destruct (open_create_entries (testPath cfg) name (open_w_ok p) w es He)
    as (es1 & He1 & Hk1).
  destruct (open_create (testPath cfg) name (open_w_ok p) w) as [opened w1].
  cbn [snd] in He1. destruct opened; cbn [negb fst snd].
  - destruct (_ && _); [done|]. intros [= <-]. cbn [fst snd].
    pose proof (unlink_entries (testPath cfg) name w1 es1 He1) as Hu.
    eexists. split; [exact Hu|]. intros n Hn.
    rewrite <- (Hk1 n) by by apply Hname.
    destruct (es1 !! name) as [[|]|]; try done.
    apply lookup_delete_ne. intros ->. by apply (Hname n).
  - intros [= <-]. exists es1. split; [done|]. intros n Hn. by apply Hk1, Hname.
Qed.

Lemma cycle_other cfg acc p acc1 d :
  cycle cfg acc p = Some acc1 ->
  d <> testPath cfg -> entries d acc1.2.1 = entries d acc.2.1.
Proof.
  destruct acc as [l [w s]]. cbn [fst snd]. unfold cycle. intros Hc Hne. revert Hc.
  pose proof (open_create_other (testPath cfg)
                ("stress_" +:+ Str.to_string (fileCounter l) +:+ ".tmp")
                (open_w_ok p) w d Hne) as Ho.
  destruct (open_create _ _ _ w) as [opened w1]. cbn [snd] in Ho.
  destruct opened; cbn [negb fst snd]; [|by intros [= <-]].
  destruct (_ && _); [done|]. intros [= <-]. cbn [fst snd]. by rewrite unlink_other.
Qed.

Lemma cycle_config cfg acc p acc1 :
  cycle cfg acc p = Some acc1 -> config_ acc1.2.2 = config_ acc.2.2.
Proof.
  destruct acc as [l [w s]]. unfold cycle.
  destruct (open_create _ _ _ w) as [opened w1].
  destruct opened; cbn [negb]; [|by intros [= <-]].
  destruct (_ && _); [done|]. by intros [= <-].
Qed.

(** A pass ends the worker only in the division by a target of 0. *)
Lemma cycle_returns cfg acc p :
  targetBytesPerSecond cfg <> 0 -> exists acc1, cycle cfg acc p = Some acc1.
Proof.
  intros Ht. destruct acc as [l [w s]]. unfold cycle.
  destruct (open_create _ _ _ w) as [opened w1].
  destruct opened; cbn [negb]; [|by eexists].
  apply Z.eqb_neq in Ht. rewrite Ht, andb_false_r. by eexists.
Qed.

Lemma foldlM_cycle_entries cfg passes acc acc1 es :
  foldlM (cycle cfg) acc passes = Some acc1 ->
  entries (testPath cfg) acc.2.1 = Some es ->
  exists es1, entries (testPath cfg) acc1.2.1 = Some es1
              /\ forall n, is_temp n = false -> es1 !! n = es !! n.
Proof.
  revert acc es. induction passes as [|p passes IH]; intros acc es; cbn [foldlM].
  - intros [= <-] He. by exists es.
  - destruct (cycle cfg acc p) as [acc2|] eqn:Ec; [|done]. intros Hf He.
    destruct (cycle_entries _ _ _ _ _ Ec He) as (es1 & He1 & Hk1).
    destruct (IH _ _ Hf He1) as (es2 & He2 & Hk2).
    exists es2. split; [done|]. intros n Hn. by rewrite Hk2, Hk1.
Qed.

Lemma foldlM_cycle_other cfg passes acc acc1 d :
  foldlM (cycle cfg) acc passes = Some acc1 ->
  d <> testPath cfg -> entries d acc1.2.1 = entries d acc.2.1.
Proof.
  intros Hf Hne. revert acc Hf.
  induction passes as [|p passes IH]; intros acc; cbn [foldlM].
  - by intros [= <-].
  - destruct (cycle cfg acc p) as [acc2|] eqn:Ec; [|done]. intros Hf.
    by rewrite (IH _ Hf), (cycle_other _ _ _ _ _ Ec).
Qed.

Lemma foldlM_cycle_config cfg passes acc acc1 :
  foldlM (cycle cfg) acc passes = Some acc1 -> config_ acc1.2.2 = config_ acc.2.2.
Proof.
  revert acc. induction passes as [|p passes IH]; intros acc; cbn [foldlM].
  - by intros [= <-].
  - destruct (cycle cfg acc p) as [acc2|] eqn:Ec; [|done]. intros Hf.
    by rewrite (IH _ Hf), (cycle_config _ _ _ _ Ec).
Qed.

Lemma foldlM_cycle_returns cfg passes acc :
  targetBytesPerSecond cfg <> 0 -> exists acc1, foldlM (cycle cfg) acc passes = Some acc1.
Proof.
  intros Ht. revert acc. induction passes as [|p passes IH]; intros acc; cbn [foldlM].
  - by eexists.
  - destruct (cycle_returns cfg acc p Ht) as [acc2 ->]. apply IH.
Qed.

(** X19.  Disk generator: a worker that is granted its buffer and whose
    throughput target is not 0 bytes per second runs to its end, whatever
    its passes do; and a worker run that reaches its end leaves in the test
    directory no regular file whose name contains [stress_] and [.tmp], and
    it leaves every entry with another name, and every other directory, as
    it found them. *)
Theorem disk_run_touches_only_temp_files w s es :
  entries (testPath (config_ s)) w = Some es ->
  (allocate_buffer (config_ s) w = true ->
   targetBytesPerSecond (config_ s) <> 0 ->
   exists w1 s1, workerFunction w s = Some (w1, s1))
  /\ forall w1 s1,
       workerFunction w s = Some (w1, s1) ->
       (exists es1,
          entries (testPath (config_ s)) w1 = Some es1
          /\ (forall n, is_temp n = false -> es1 !! n = es !! n)
          /\ (forall n, is_temp n = true -> es1 !! n <> Some RegularFile))
       /\ forall d, d <> testPath (config_ s) -> entries d w1 = entries d w.
Proof.
  intros He. unfold workerFunction, next_run.
  set (w0 := match disk_runs (disk w) with [] => _ | _ => _ end).
  assert (Hw0 : forall d, entries d w0.2 = entries d w).
  { intros d. unfold w0. by destruct (disk_runs (disk w)). }
  destruct w0 as [passes w0']. cbn [snd] in Hw0.
  set (acc0 := ({| fileCounter := 0; bytesThisCycle := 0 |}, (w0', s))).
  split.
  - intros -> Ht. cbn [negb].
    destruct (foldlM_cycle_returns (config_ s) passes acc0 Ht) as [[l [w1 s1]] ->].
    by eexists _, _.
  - intros w2 s2'. destruct (negb _); [done|].
    destruct (foldlM (cycle (config_ s)) acc0 passes) as [[l [w1 s1]]|] eqn:Ef; [|done].
    assert (He0 : entries (testPath (config_ s)) acc0.2.1 = Some es)
      by (cbn [fst snd]; by rewrite Hw0).
    destruct (foldlM_cycle_entries _ _ _ _ _ Ef He0) as (es1 & He1 & Hk1).
    pose proof (fun d => foldlM_cycle_other _ _ _ _ d Ef) as Ho.
    pose proof (foldlM_cycle_config _ _ _ _ Ef) as Hc.
    cbn [fst snd] in *.
    set (s2 := set_base _ s1). intros [= <- <-].
    assert (Hc2 : testPath (config_ s2) = testPath (config_ s)) by (cbn; by rewrite Hc).
    pose proof (cleanup_removes_exactly w1 s2) as Hcl. rewrite Hc2, He1 in Hcl.
    destruct Hcl as [(es2 & He2 & Hk2) Ho2].
    split.
    + exists es2. split; [done|]. split.
      * intros m Hm. rewrite Hk2, Hm, <- (Hk1 m Hm). by destruct (es1 !! m) as [[|]|].
      * intros m Hm. rewrite Hk2, Hm. by destruct (es1 !! m) as [[|]|].
    + intros d Hd. by rewrite Ho2, Ho, Hw0.
Qed.

Lemma disk_run_touches_only_temp_files_witness :
  exists w1 s1 es1,
    workerFunction device_with_files init = Some (w1, s1)
    /\ entries "/data/local/tmp/danr_stress" w1 = Some es1
    /\ es1 !! "notes.txt" = Some RegularFile
    /\ es1 !! "old_stress_1.tmp.bak" <> Some RegularFile.
Proof.
  destruct (disk_run_touches_only_temp_files device_with_files init
              {[ "notes.txt" := RegularFile; "old_stress_1.tmp.bak" := RegularFile ]}
              eq_refl) as [Hret Hpost].
  destruct Hret as (w1 & s1 & Hw); [reflexivity|by vm_compute|].
  destruct (Hpost w1 s1 Hw) as [(es1 & He & Hk & Hg) _].
  exists w1, s1, es1. split; [exact Hw|]. split; [exact He|]. split.
  - by rewrite Hk.
  - by apply Hg.
Defined.

(** X29.  Disk generator: with a negative [chunkSizeKB] the worker asks for
    a buffer of more than [PTRDIFF_MAX] bytes and ends the process before
    its first pass; [stop] on such a run does not return. *)
Theorem negative_chunk_size_ends_the_process w s :
  - 2 ^ 31 <= chunkSizeKB (config_ s) < 0 ->
  workerFunction w s = None
  /\ (workerThread_ s = Some Spawned -> stop w s = None).
Proof.
  intros Hk.
  assert (Hb : forall w1 s1, config_ s1 = config_ s -> workerFunction w1 s1 = None).
  { intros w1 s1 Hc. unfold workerFunction, allocate_buffer, chunkSize. rewrite Hc.
    replace (chunkSizeKB (config_ s)) with (chunkSizeKB (config_ s) + 0) by lia.
    assert (E : wrap_size (wrap_size (chunkSizeKB (config_ s) + 0) * 1024)
                = 2 ^ 64 + chunkSizeKB (config_ s) * 1024).
    { unfold wrap_size. rewrite Z.mul_mod_idemp_l by lia.
      rewrite <- (Z.mod_add _ 1 (2 ^ 64)) by lia.
      rewrite Z.mod_small; lia. }
    rewrite E. unfold PTRDIFF_MAX.
    destruct (Z.leb_spec (2 ^ 64 + chunkSizeKB (config_ s) * 1024) (2 ^ 63 - 1)); [lia|].
    done. }
  split; [by apply Hb|].
  intros Ht. unfold stop, join.
  assert (Hr : workerThread_ (request_stop s) = Some Spawned
               /\ config_ (request_stop s) = config_ s).
  { unfold request_stop. by destruct (StressorBase.isRunning (base s)). }
  destruct Hr as [-> Hc]. by rewrite (Hb w _ Hc).
Qed.

(** The default configuration with [chunkSizeKB] -1, on the example device. *)
Lemma negative_chunk_size_ends_the_process_witness :
  stop Example.device
       (set_thread (Some Spawned)
          (set_config {| throughputMBps := 5; chunkSizeKB := -1; durationMs := 300000;
                         testPath := "/data/local/tmp/danr_stress";
                         useDirectIO := false; syncWrites := false |} init))
  = None.
Proof.
  apply (negative_chunk_size_ends_the_process Example.device
           (set_thread (Some Spawned)
              (set_config {| throughputMBps := 5; chunkSizeKB := -1;
                             durationMs := 300000;
                             testPath := "/data/local/tmp/danr_stress";
                             useDirectIO := false; syncWrites := false |} init))).
  - cbn. lia.
  - reflexivity.
Defined.



(** X20.  Disk generator: [ensureDirectory] answers true exactly when the
    path is a directory afterwards, and when it answers false, or the path
    named something before, the device is untouched.  When it creates the
    directory, the directory is empty, the directory that holds it has
    exactly one entry more, the new name, which was free, and the entries
    of every other directory are as they were. *)
Theorem ensureDirectory_post path w :
  ((ensureDirectory path w).1 = true
   <-> stat path (ensureDirectory path w).2 = Some Directory)
  /\ ((ensureDirectory path w).1 = false -> (ensureDirectory path w).2 = w)
  /\ (stat path w <> None -> (ensureDirectory path w).2 = w)
  /\ (stat path w = None -> (ensureDirectory path w).1 = true ->
        entries path (ensureDirectory path w).2 = Some ∅
        /\ exists parent name es,
             parent_dir path = Some (parent, name)
             /\ entries parent w = Some es
             /\ es !! name = None
             /\ entries parent (ensureDirectory path w).2
                = Some (<[name := Directory]> es)
             /\ forall d, d <> path -> d <> parent ->
                  entries d (ensureDirectory path w).2 = entries d w).
Proof.
  unfold ensureDirectory.
  destruct (stat path w) as [[|]|] eqn:Hs; cbn [fst snd]; rewrite ?Hs.
  - by repeat split.
  - by repeat split.
  - assert (Hfail : (((false, w).1 = true <-> stat path (false, w).2 = Some Directory)
             /\ ((false, w).1 = false -> (false, w).2 = w)
             /\ (@None kind <> None -> (false, w).2 = w)
             /\ (@None kind = None -> (false, w).1 = true ->
                   entries path (false, w).2 = Some ∅
                   /\ exists parent name es,
                        parent_dir path = Some (parent, name)
                        /\ entries parent w = Some es
                        /\ es !! name = None
                        /\ entries parent (false, w).2 = Some (<[name := Directory]> es)
                        /\ forall d, d <> path -> d <> parent ->
                             entries d (false, w).2 = entries d w))).
    { cbn [fst snd]. rewrite Hs. by repeat split. }
    unfold mkdir. rewrite Hs.
    destruct (parent_dir path) as [[parent name]|] eqn:Hp; [|exact Hfail].
    destruct (dirs (disk w) !! parent) as [es|] eqn:Hd; [|exact Hfail].
    destruct (es !! name) eqn:Hn; [exact Hfail|].
    destruct (_ && _); [|exact Hfail]. clear Hfail. cbn [fst snd].
    assert (Hne : parent <> path).
    { intros ->. unfold stat in Hs. rewrite bool_decide_eq_true_2 in Hs; [done|].
      apply elem_of_dom. by eexists. }
    split; [|split; [done|split; [done|]]].
    + split; [intros _|done]. unfold stat. cbn. rewrite bool_decide_eq_true_2; [done|].
      apply elem_of_dom. rewrite lookup_insert_eq. by eexists.
    + intros _ _. split; [unfold entries; cbn; apply lookup_insert_eq|].
      exists parent, name, es. split; [done|]. split; [done|]. split; [done|]. split.
      * unfold entries. cbn. rewrite lookup_insert_ne by done. apply lookup_insert_eq.
      * intros d H1 H2. unfold entries. cbn. by rewrite !lookup_insert_ne.
Qed.

(** On the example device the test directory is created in
    [/data/local/tmp], next to [notes]. *)
Lemma ensureDirectory_post_witness :
  entries "/data/local/tmp"
          (ensureDirectory "/data/local/tmp/danr_stress" Example.device).2
  = Some {[ "danr_stress" := Directory; "notes" := RegularFile ]}
  /\ entries "/data/local/tmp/danr_stress"
             (ensureDirectory "/data/local/tmp/danr_stress" Example.device).2
     = Some ∅.
Proof.
  destruct (ensureDirectory_post "/data/local/tmp/danr_stress" Example.device)
    as (_ & _ & _ & H).
  destruct H as (He & parent & name & es & Hp & Hes & _ & Hnew & _);
    [reflexivity|reflexivity|].
  split; [|exact He].
  assert (Hpn : parent = "/data/local/tmp"%string /\ name = "danr_stress"%string).
  { vm_compute in Hp. by inversion Hp. }
  destruct Hpn as [-> ->]. rewrite Hnew. f_equal.
  assert (Hes' : es = {[ "notes" := RegularFile ]}).
  { vm_compute in Hes. inversion Hes. reflexivity. }
  by rewrite Hes'.
Defined.

End DiskFiles.

(* --------------------------------------------------------------------- *)
(** ** The thermal generator: what a run changes and what it puts back    *)
(* --------------------------------------------------------------------- *)

Section ThermalRoundTrip.
Import ThermalStressor.

Lemma governor_path_inj c c' : governor_path c = governor_path c' -> c = c'.
Proof. intros E. by apply cpu_path_inj in E as [E _]. Qed.

Lemma governor_ne_online c c' : governor_path c <> online_path c'.
Proof. intros E. by apply cpu_path_inj in E as [_ E]. Qed.

Lemma governor_ne_scaling c c' : governor_path c <> scaling_max_freq c'.
Proof. intros E. by apply cpu_path_inj in E as [_ E]. Qed.

Lemma scaling_ne_online c c' : scaling_max_freq c <> online_path c'.
Proof. intros E. by apply cpu_path_inj in E as [_ E]. Qed.

Lemma cpuinfo_max_ne_governor c c' : cpuinfo_max_freq c <> governor_path c'.
Proof. intros E. by apply cpu_path_inj in E as [_ E]. Qed.

Lemma cpuinfo_min_ne_governor c c' : cpuinfo_min_freq c <> governor_path c'.
Proof. intros E. by apply cpu_path_inj in E as [_ E]. Qed.

Lemma readSysFile_same p w w1 :
  attrs (sys w1) !! p = attrs (sys w) !! p -> readSysFile p w1 = readSysFile p w.
Proof. unfold readSysFile. by intros ->. Qed.

Lemma setCoreOnline_frame cpu b w p :
  p <> online_path cpu ->
  attrs (sys (setCoreOnline cpu b w).2) !! p = attrs (sys w) !! p.
Proof.
  intros Hne. unfold setCoreOnline. destruct (cpu =? 0); [done|].
  by apply writeSysFile_other.
Qed.

Lemma setCoreOnline_writable cpu b w q :
  writable q (setCoreOnline cpu b w).2 = writable q w.
Proof.
  unfold setCoreOnline. destruct (cpu =? 0); [done|]. apply writeSysFile_writable.
Qed.

Lemma force_online_frame ws cpu p :
  p <> online_path cpu ->
  attrs (sys (force_online ws cpu).1) !! p = attrs (sys ws.1) !! p
  /\ originalSettings_ (force_online ws cpu).2 !! p = originalSettings_ ws.2 !! p.
Proof.
  destruct ws as [w s]. intros Hne. cbn [force_online fst snd]. split.
  - by apply setCoreOnline_frame.
  - destruct (negb _); [|done]. cbn. by rewrite lookup_insert_ne.
Qed.

Lemma force_online_writable ws cpu q :
  writable q (force_online ws cpu).1 = writable q ws.1.
Proof. destruct ws as [w s]. apply setCoreOnline_writable. Qed.

Lemma pin_frequency_frame pct ws cpu ws' p :
  pin_frequency pct ws cpu = Some ws' ->
  p <> governor_path cpu ->
  p <> scaling_max_freq cpu \/ 100 <= pct ->
  attrs (sys ws'.1) !! p = attrs (sys ws.1) !! p
  /\ originalSettings_ ws'.2 !! p = originalSettings_ ws.2 !! p.
Proof.
  destruct ws as [w s]. unfold pin_frequency. intros H Hg Hs.
  destruct (isCoreOnline cpu w); cbn [negb] in H; [|by inversion H].
  assert (Hw1 : attrs (sys (setCpuGovernor cpu "performance" w).2) !! p
                = attrs (sys w) !! p) by (by apply writeSysFile_other).
  assert (Hs1 : originalSettings_
                  (if negb (Str.empty (getCpuGovernor cpu w))
                   then set_original (<[governor_path cpu := getCpuGovernor cpu w]>
                                        (originalSettings_ s)) s
                   else s) !! p = originalSettings_ s !! p).
  { destruct (negb _); [|done]. cbn. by rewrite lookup_insert_ne. }
  destruct (getMaxFrequency cpu _) as [maxFreq|]; [|done].
  destruct (getMinFrequency cpu _) as [minFreq|]; [|done].
  destruct (0 <? maxFreq); cbn [andb] in H; [|by inversion H].
  destruct (Z.ltb_spec pct 100) as [Hlt|Hge]; [|by inversion H].
  destruct Hs as [Hs|Hs]; [|lia].
  inversion H; subst; clear H. cbn [fst snd]. split.
  - unfold setMaxFrequency. by rewrite writeSysFile_other.
  - cbn [set_original originalSettings_]. by rewrite lookup_insert_ne.
Qed.

Lemma pin_frequency_writable pct ws cpu ws' q :
  pin_frequency pct ws cpu = Some ws' -> writable q ws'.1 = writable q ws.1.
Proof.
  destruct ws as [w s]. unfold pin_frequency. intros H.
  destruct (isCoreOnline cpu w); cbn [negb] in H; [|by inversion H].
  assert (Hw1 : writable q (setCpuGovernor cpu "performance" w).2 = writable q w)
    by apply writeSysFile_writable.
  destruct (getMaxFrequency cpu _) as [maxFreq|]; [|done].
  destruct (getMinFrequency cpu _) as [minFreq|]; [|done].
  destruct (_ && _); inversion H; subst; clear H; cbn [fst]; [|done].
  unfold setMaxFrequency. by rewrite writeSysFile_writable.
Qed.

(** What one pass of the second loop records for the governor of its core. *)
Lemma pin_frequency_governor pct w s cpu w' s' :
  pin_frequency pct (w, s) cpu = Some (w', s') ->
  if isCoreOnline cpu w
  then originalSettings_ s' !! governor_path cpu
       = (if Str.empty (getCpuGovernor cpu w)
          then originalSettings_ s !! governor_path cpu
          else Some (getCpuGovernor cpu w))
  else w' = w /\ s' = s.
Proof.
  unfold pin_frequency. intros H.
  destruct (isCoreOnline cpu w); cbn [negb] in H; [|by inversion H].
  destruct (getMaxFrequency cpu _) as [maxFreq|]; [|done].
  destruct (getMinFrequency cpu _) as [minFreq|]; [|done].
  destruct (_ && _); inversion H; subst; clear H.
  - cbn [set_original originalSettings_].
    rewrite lookup_insert_ne by (apply not_eq_sym, governor_ne_scaling).
    destruct (Str.empty (getCpuGovernor cpu w)); cbn [negb]; [done|].
    cbn. apply lookup_insert_eq.
  - destruct (Str.empty (getCpuGovernor cpu w)); cbn [negb]; [done|].
    cbn. apply lookup_insert_eq.
Qed.

Lemma foldl_write_back_frozen l w p :
  writable p w = false -> attrs (sys (foldl write_back w l)) !! p = attrs (sys w) !! p.
Proof.
  revert w. induction l as [|kv l IH]; intros w Hw; [done|]. cbn [foldl].
  rewrite IH by (by rewrite write_back_writable).
  unfold write_back. destruct (decide (kv.1 = p)) as [E|E].
  - unfold writeSysFile. by rewrite E, Hw.
  - by apply writeSysFile_other.
Qed.

Lemma restoreSettings_lookup w s p :
  (forall v, originalSettings_ s !! p = Some v -> writable p w = true ->
     attrs (sys (restoreSettings w s).1) !! p = Some v)
  /\ (originalSettings_ s !! p = None ->
      attrs (sys (restoreSettings w s).1) !! p = attrs (sys w) !! p).
Proof.
  unfold restoreSettings. cbn [fst]. split.
  - intros v Hp Hw. apply foldl_write_back_lookup; [apply map_items_NoDup| |done].
    by apply elem_of_map_items.
  - intros Hp. apply foldl_write_back_other. intros [[k v] [-> Hin]]%list_elem_of_fmap.
    apply elem_of_map_items in Hin. cbn in Hp. by rewrite Hp in Hin.
Qed.

(** X21.  Thermal generator: [restoreSettings] gives every file of the snapshot
    that takes writes the value recorded for it, leaves every other file as
    it is, and clears the snapshot. *)
Theorem restoreSettings_effect w s :
  originalSettings_ (restoreSettings w s).2 = ∅
  /\ forall p,
       attrs (sys (restoreSettings w s).1) !! p
       = match originalSettings_ s !! p with
         | Some v => if writable p w then Some v else attrs (sys w) !! p
         | None => attrs (sys w) !! p
         end.
Proof.
  unfold restoreSettings. cbn [fst snd]. split; [done|]. intros p.
  destruct (originalSettings_ s !! p) as [v|] eqn:Hp.
  - destruct (writable p w) eqn:Hw.
    + apply foldl_write_back_lookup; [apply map_items_NoDup| |done].
      by apply elem_of_map_items.
    + by apply foldl_write_back_frozen.
  - apply foldl_write_back_other. intros [[k v] [-> Hin]]%list_elem_of_fmap.
    apply elem_of_map_items in Hin. cbn in Hp. by rewrite Hp in Hin.
Qed.

Lemma pin_loop_frame pct cores p :
  (forall x, x ∈ cores ->
     p <> governor_path x /\ (p <> scaling_max_freq x \/ 100 <= pct)) ->
  forall ws ws',
    foldlM (pin_frequency pct) ws cores = Some ws' ->
    attrs (sys ws'.1) !! p = attrs (sys ws.1) !! p
    /\ originalSettings_ ws'.2 !! p = originalSettings_ ws.2 !! p.
Proof.
  induction cores as [|x cores IH]; intros Hp ws ws' H; cbn [foldlM] in H.
  - by inversion H.
  - destruct (pin_frequency pct ws x) as [ws1|] eqn:E; [|done].
    destruct (Hp x ltac:(left)) as [Hg Hs].
    destruct (pin_frequency_frame _ _ _ _ p E Hg Hs) as [Hf1 Hf2].
    destruct (IH (fun y Hy => Hp y ltac:(by right)) ws1 ws' H) as [Hi1 Hi2].
    by rewrite Hi1, Hi2.
Qed.

Lemma pin_loop_writable pct cores q ws ws' :
  foldlM (pin_frequency pct) ws cores = Some ws' -> writable q ws'.1 = writable q ws.1.
Proof.
  apply foldlM_inv with (P := fun a : World * t => writable q a.1 = writable q ws.1);
    [done|].
  intros a x a1 Ha Hx. by rewrite (pin_frequency_writable _ _ _ _ q Hx).
Qed.

Lemma force_loop_frame cores ws p :
  (forall x, p <> online_path x) ->
  attrs (sys (foldl force_online ws cores).1) !! p = attrs (sys ws.1) !! p
  /\ originalSettings_ (foldl force_online ws cores).2 !! p = originalSettings_ ws.2 !! p.
Proof.
  intros Hp.
  apply (foldl_inv (fun a : World * t =>
           attrs (sys a.1) !! p = attrs (sys ws.1) !! p
           /\ originalSettings_ a.2 !! p = originalSettings_ ws.2 !! p)); [done|].
  intros a x [H1 H2]. destruct (force_online_frame a x p (Hp x)) as [-> ->]. done.
Qed.

Lemma force_loop_writable cores ws q :
  writable q (foldl force_online ws cores).1 = writable q ws.1.
Proof.
  apply (foldl_inv (fun a : World * t => writable q a.1 = writable q ws.1)); [done|].
  intros a x Ha. by rewrite force_online_writable.
Qed.

(** X22.  Thermal generator: with a frequency percentage of 100 or more a run
    writes no [scaling_max_freq] file and records none in its snapshot, so
    [restoreSettings] leaves these files alone as well. *)
Theorem full_frequency_keeps_ceiling w0 s0 w1 s1 c :
  applySettings w0 s0 = Some (w1, s1) ->
  100 <= maxFrequencyPercent (config_ s0) ->
  originalSettings_ s0 = ∅ ->
  attrs (sys w1) !! scaling_max_freq c = attrs (sys w0) !! scaling_max_freq c
  /\ originalSettings_ s1 !! scaling_max_freq c = None
  /\ attrs (sys (restoreSettings w1 s1).1) !! scaling_max_freq c
     = attrs (sys w0) !! scaling_max_freq c.
Proof.
  intros Happly Hpct Hempty. unfold applySettings in Happly.
  set (ws1 := if forceAllCoresOnline (config_ s0) then _ else _) in Happly.
  assert (Hforce : attrs (sys ws1.1) !! scaling_max_freq c
                   = attrs (sys w0) !! scaling_max_freq c
                   /\ originalSettings_ ws1.2 !! scaling_max_freq c = None).
  { unfold ws1. destruct (forceAllCoresOnline (config_ s0)).
    - destruct (force_loop_frame (seqZ 1 (totalCores_ s0 - 1)) (w0, s0)
                  (scaling_max_freq c)) as [H1 H2]; [intros x; apply scaling_ne_online|].
      rewrite H1, H2. cbn [fst snd]. by rewrite Hempty.
    - cbn [fst snd]. by rewrite Hempty. }
  destruct Hforce as [Hf1 Hf2].
  destruct (pin_loop_frame (maxFrequencyPercent (config_ s0)) (seqZ 0 (totalCores_ s0))
              (scaling_max_freq c)) with (ws := ws1) (ws' := (w1, s1)) as [Hp1 Hp2].
  { intros x _. split; [apply not_eq_sym, governor_ne_scaling|by right]. }
  { exact Happly. }
  cbn [fst snd] in *. rewrite Hp1, Hp2, Hf1, Hf2. split; [done|]. split; [done|].
  destruct (restoreSettings_lookup w1 s1 (scaling_max_freq c)) as [_ Hn].
  rewrite Hn by (by rewrite Hp2, Hf2). by rewrite Hp1, Hf1.
Qed.

Lemma full_frequency_keeps_ceiling_witness :
  attrs (sys (thermal_applied 100).1) !! scaling_max_freq 0
  = attrs (sys device_one_core) !! scaling_max_freq 0.
Proof.
  assert (H : applySettings device_one_core (thermal_fresh 100)
              = Some ((thermal_applied 100).1, (thermal_applied 100).2)).
  { unfold thermal_applied.
    by destruct (applySettings device_one_core (thermal_fresh 100)) as [[w1 s1]|] eqn:E;
      [|vm_compute in E]. }
  assert (Hp : 100 <= maxFrequencyPercent (config_ (thermal_fresh 100))) by (cbn; lia).
  exact (proj1 (full_frequency_keeps_ceiling device_one_core (thermal_fresh 100) _ _ 0
                  H Hp eq_refl)).
Defined.

Lemma read_long_same p w w1 :
  attrs (sys w1) !! p = attrs (sys w) !! p -> read_long p w1 = read_long p w.
Proof. intros H. unfold read_long. by rewrite (readSysFile_same _ _ _ H). Qed.

(** What [std::stol] returns is a value of [long]. *)
Lemma stol_in_long s z : Str.stol s = Some z -> in_long z.
Proof.
  unfold Str.stol, in_long.
  destruct (match Str.drop_while Str.is_space s with
            | EmptyString => _ | String c rest => _ end) as [neg s2].
  destruct s2 as [|c rest]; [done|]. destruct (Str.digit c); [|done].
  destruct (_ && _) eqn:E; [|done]. intros [= <-].
  apply andb_prop in E as [E1 E2]. apply Z.leb_le in E1, E2. by split.
Qed.

Lemma read_long_in_long p w z : read_long p w = Some z -> in_long z.
Proof.
  unfold read_long. destruct (Str.empty _); [|apply stol_in_long].
  intros [= <-]. unfold in_long, Str.LONG_MIN, Str.LONG_MAX. lia.
Qed.

(** X23.  Thermal generator, one pass of the frequency loop on an online core
    with a percentage from 0 to 99, a hardware range [mn .. mx] and a
    product [(mx - mn) * percentage] that is a value of [long]: the ceiling
    written is [mn + (mx - mn) * percentage / 100], it lies between the
    hardware minimum and the hardware maximum of the core, and the value
    recorded for the later restoration is the hardware maximum. *)
Theorem pin_frequency_target_in_range pct w s cpu mx mn :
  isCoreOnline cpu w = true ->
  getMaxFrequency cpu w = Some mx ->
  getMinFrequency cpu w = Some mn ->
  0 <= mn <= mx -> 0 < mx ->
  (mx - mn) * pct <= Str.LONG_MAX ->
  0 <= pct < 100 ->
  writable (scaling_max_freq cpu) w = true ->
  exists w' s' f,
    pin_frequency pct (w, s) cpu = Some (w', s')
    /\ f = mn + Z.quot ((mx - mn) * pct) 100
    /\ mn <= f <= mx
    /\ attrs (sys w') !! scaling_max_freq cpu = Some (Str.to_string f)
    /\ originalSettings_ s' !! scaling_max_freq cpu = Some (Str.to_string mx).
Proof.
  intros Hon Hmx Hmn Hrange Hpos Hover Hpct Hw.
  assert (Hlong : mx <= Str.LONG_MAX) by (by destruct (read_long_in_long _ _ _ Hmx)).
  unfold pin_frequency.
  assert (Hq : mn <= mn + Z.quot ((mx - mn) * pct) 100 <= mx).
  { rewrite Z.quot_div_nonneg by nia.
    pose proof (Z.mul_div_le ((mx - mn) * pct) 100 ltac:(lia)).
    assert (0 <= Z.div ((mx - mn) * pct) 100) by (apply Z.div_pos; nia). nia. }
  assert (Hwrap : wrap_long (mn + Z.quot (wrap_long (wrap_long (mx - mn) * pct)) 100)
                  = mn + Z.quot ((mx - mn) * pct) 100).
  { rewrite (wrap_long_id (mx - mn)) by (unfold in_long, Str.LONG_MIN, Str.LONG_MAX in *; lia).
    rewrite (wrap_long_id ((mx - mn) * pct))
      by (unfold in_long, Str.LONG_MIN, Str.LONG_MAX in *; nia).
    apply wrap_long_id. unfold in_long, Str.LONG_MIN, Str.LONG_MAX in *. lia. }
  rewrite Hon. cbn [negb].
  assert (Hg : forall p, p <> governor_path cpu ->
            attrs (sys (setCpuGovernor cpu "performance" w).2) !! p = attrs (sys w) !! p).
  { intros p Hp. by apply writeSysFile_other. }
  unfold getMaxFrequency, getMinFrequency in *.
  rewrite (read_long_same _ w _ (Hg _ (cpuinfo_max_ne_governor cpu cpu))), Hmx.
  rewrite (read_long_same _ w _ (Hg _ (cpuinfo_min_ne_governor cpu cpu))), Hmn.
  replace ((0 <? mx) && (pct <? 100)) with true
    by (symmetry; apply andb_true_intro; split; apply Z.ltb_lt; lia).
  rewrite Hwrap.
  eexists _, _, (mn + Z.quot ((mx - mn) * pct) 100). split; [done|]. split; [done|].
  split; [done|split].
  - unfold setMaxFrequency. apply writeSysFile_lookup.
    unfold setCpuGovernor. by rewrite writeSysFile_writable.
  - cbn [set_original originalSettings_]. apply lookup_insert_eq.
Qed.

Lemma pin_frequency_target_in_range_witness :
  exists w' s' f,
    pin_frequency 50 (device_one_core, thermal_fresh 50) 0 = Some (w', s')
    /\ f = 500000 + Z.quot ((2000000 - 500000) * 50) 100
    /\ 500000 <= f <= 2000000
    /\ attrs (sys w') !! scaling_max_freq 0 = Some (Str.to_string f)
    /\ originalSettings_ s' !! scaling_max_freq 0 = Some (Str.to_string 2000000).
Proof.
  apply (pin_frequency_target_in_range 50 device_one_core (thermal_fresh 50) 0
           2000000 500000);
    try (vm_compute; reflexivity); try lia; unfold Str.LONG_MAX; lia.
Defined.

(** What the first loop records for the online file of core [c]. *)
Lemma force_loop_online c cores :
  NoDup cores -> c ∈ cores ->
  forall ws,
    readSysFile (online_path c) ws.1 <> EmptyString ->
    originalSettings_ (foldl force_online ws cores).2 !! online_path c
    = Some (readSysFile (online_path c) ws.1).
Proof.
  intros Hnd. induction Hnd as [|x cores Hx Hnd IH]; intros Hin ws Hr.
  - by apply elem_of_nil in Hin.
  - cbn [foldl]. destruct (decide (x = c)) as [->|Hxc].
    + assert (Hkeep : forall l a,
                c ∉ l -> originalSettings_ (foldl force_online a l).2 !! online_path c
                         = originalSettings_ a.2 !! online_path c).
      { induction l as [|y l IHl]; intros a Hc; [done|]. cbn [foldl].
        apply not_elem_of_cons in Hc as [Hyc Hc]. rewrite IHl by done.
        apply force_online_frame. intros Eq.
        apply cpu_path_inj in Eq as [Eq _]; [|done|done]. by apply Hyc. }
      rewrite Hkeep by done. destruct ws as [w s]. cbn [force_online fst snd] in *.
      destruct (Str.empty (readSysFile (online_path c) w)) eqn:Ee.
      * by destruct (readSysFile (online_path c) w).
      * cbn. apply lookup_insert_eq.
    + apply elem_of_cons in Hin as [->|Hin]; [done|].
      destruct (force_online_frame ws x (online_path c)) as [Hf _].
      { intros Eq. apply cpu_path_inj in Eq as [Eq _]; [|done|done]. by apply Hxc. }
      rewrite IH; [|done|by rewrite (readSysFile_same _ _ _ Hf)].
      by rewrite (readSysFile_same _ _ _ Hf).
Qed.

(** X24.  Thermal generator, the online round trip: when all cores are forced
    online, the online file of every core but core 0 that could be read
    before the run and takes writes holds, after [applySettings] followed by
    [restoreSettings], the value read before the run: a core that was
    offline is put offline again. *)
Theorem online_is_put_back w0 s0 w1 s1 c :
  applySettings w0 s0 = Some (w1, s1) ->
  forceAllCoresOnline (config_ s0) = true ->
  1 <= c < totalCores_ s0 ->
  readSysFile (online_path c) w0 <> EmptyString ->
  writable (online_path c) w0 = true ->
  attrs (sys (restoreSettings w1 s1).1) !! online_path c
  = Some (readSysFile (online_path c) w0).
Proof.
  intros Happly Hforce Hc Hread Hw. unfold applySettings in Happly.
  rewrite Hforce in Happly.
  pose proof (force_loop_online c (seqZ 1 (totalCores_ s0 - 1))
                (NoDup_seqZ _ _) ltac:(apply elem_of_seqZ; lia) (w0, s0) Hread) as Hsnap.
  pose proof (force_loop_writable (seqZ 1 (totalCores_ s0 - 1)) (w0, s0) (online_path c))
    as Hw0.
  pose proof (pin_loop_writable _ _ (online_path c) _ _ Happly) as Hw1.
  destruct (pin_loop_frame (maxFrequencyPercent (config_ s0)) (seqZ 0 (totalCores_ s0))
              (online_path c)) with (ws := foldl force_online (w0, s0)
                                             (seqZ 1 (totalCores_ s0 - 1)))
                                    (ws' := (w1, s1)) as [_ Hp2].
  { intros x _. split; [apply not_eq_sym, governor_ne_online|].
    left. apply not_eq_sym, scaling_ne_online. }
  { exact Happly. }
  cbn [fst snd] in *.
  destruct (restoreSettings_lookup w1 s1 (online_path c)) as [Hs _].
  apply Hs; [by rewrite Hp2|]. by rewrite Hw1, Hw0.
Qed.

Lemma online_is_put_back_witness :
  attrs (sys (restoreSettings thermal_applied_two.1 thermal_applied_two.2).1)
    !! online_path 1
  = Some (readSysFile (online_path 1) device_core_offline).
Proof.
  assert (H : applySettings device_core_offline thermal_fresh_two
              = Some (thermal_applied_two.1, thermal_applied_two.2)).
  { unfold thermal_applied_two.
    by destruct (applySettings device_core_offline thermal_fresh_two)
      as [[w1 s1]|] eqn:E; [|vm_compute in E]. }
  assert (Hr : readSysFile (online_path 1) device_core_offline <> EmptyString)
    by (vm_compute; discriminate).
  assert (Hc : 1 <= 1 < totalCores_ thermal_fresh_two) by (cbn; lia).
  exact (online_is_put_back device_core_offline thermal_fresh_two _ _ 1 H eq_refl Hc Hr
           eq_refl).
Defined.

Lemma isCoreOnline_same c w w1 :
  attrs (sys w1) !! online_path c = attrs (sys w) !! online_path c ->
  isCoreOnline c w1 = isCoreOnline c w.
Proof.
  intros H. unfold isCoreOnline. destruct (c =? 0); [done|].
  by rewrite (readSysFile_same _ _ _ H).
Qed.

Lemma setCoreOnline_keeps_online x c w :
  isCoreOnline c w = true -> isCoreOnline c (setCoreOnline x true w).2 = true.
Proof.
  intros Hon. unfold setCoreOnline. destruct (x =? 0); [done|].
  destruct (decide (online_path x = online_path c)) as [E|E].
  - rewrite E. unfold writeSysFile.
    destruct (writable (online_path c) w); [|done].
    unfold isCoreOnline. destruct (c =? 0); [done|].
    unfold readSysFile. cbn [snd sys attrs set_sys set_attrs emit set_log].
    by rewrite lookup_insert_eq.
  - rewrite <- Hon. apply isCoreOnline_same. by apply writeSysFile_other.
Qed.

Lemma setCoreOnline_sets_online c w :
  writable (online_path c) w = true -> isCoreOnline c (setCoreOnline c true w).2 = true.
Proof.
  intros Hw. unfold setCoreOnline, isCoreOnline. destruct (c =? 0); [done|].
  unfold writeSysFile. rewrite Hw.
  unfold readSysFile. cbn [snd sys attrs set_sys set_attrs emit set_log].
  by rewrite lookup_insert_eq.
Qed.

Lemma force_loop_keeps_online c cores ws :
  isCoreOnline c ws.1 = true -> isCoreOnline c (foldl force_online ws cores).1 = true.
Proof.
  intros Hon.
  apply (foldl_inv (fun a : World * t => isCoreOnline c a.1 = true)); [done|].
  intros [w s] x Ha. by apply setCoreOnline_keeps_online.
Qed.

Lemma pin_frequency_sets_performance pct w s c w' s' :
  pin_frequency pct (w, s) c = Some (w', s') ->
  isCoreOnline c w = true ->
  writable (governor_path c) w = true ->
  attrs (sys w') !! governor_path c = Some "performance".
Proof.
  unfold pin_frequency. intros H Hon Hw. rewrite Hon in H. cbn [negb] in H.
  assert (Hg : attrs (sys (setCpuGovernor c "performance" w).2) !! governor_path c
               = Some "performance") by (by apply writeSysFile_lookup).
  destruct (getMaxFrequency c _) as [maxFreq|]; [|done].
  destruct (getMinFrequency c _) as [minFreq|]; [|done].
  destruct (_ && _); inversion H; subst; clear H; [|done].
  unfold setMaxFrequency. rewrite writeSysFile_other; [done|].
  apply not_eq_sym, governor_ne_scaling.
Qed.

Lemma pin_loop_sets_performance pct c cores :
  NoDup cores -> c ∈ cores ->
  forall ws ws',
    foldlM (pin_frequency pct) ws cores = Some ws' ->
    isCoreOnline c ws.1 = true ->
    writable (governor_path c) ws.1 = true ->
    attrs (sys ws'.1) !! governor_path c = Some "performance".
Proof.
  intros Hnd. induction Hnd as [|x cores Hx Hnd IH]; intros Hin ws ws' H Hon Hw.
  - by apply elem_of_nil in Hin.
  - cbn [foldlM] in H. destruct (pin_frequency pct ws x) as [ws1|] eqn:E; [|done].
    destruct (decide (x = c)) as [->|Hxc].
    + assert (Hrest : forall y, y ∈ cores ->
                governor_path c <> governor_path y
                /\ (governor_path c <> scaling_max_freq y \/ 100 <= pct)).
      { intros y Hy. split; [|left; apply governor_ne_scaling].
        intros Eq. apply governor_path_inj in Eq. by subst. }
      destruct (pin_loop_frame pct cores _ Hrest ws1 ws' H) as [Hf1 _].
      rewrite Hf1. destruct ws as [w s], ws1 as [w1 s1].
      by eapply pin_frequency_sets_performance.
    + apply elem_of_cons in Hin as [->|Hin]; [done|].
      apply (IH Hin ws1 ws' H).
      * rewrite <- Hon. apply isCoreOnline_same.
        apply (pin_frequency_frame _ _ _ _ (online_path c) E).
        -- apply not_eq_sym, governor_ne_online.
        -- left. apply not_eq_sym, scaling_ne_online.
      * by rewrite (pin_frequency_writable _ _ _ _ _ E).
Qed.

(** What the second loop records for the governor of an online core. *)
Lemma pin_loop_records_governor pct c g w0 cores :
  NoDup cores -> c ∈ cores ->
  forall ws ws',
    foldlM (pin_frequency pct) ws cores = Some ws' ->
    attrs (sys ws.1) !! governor_path c = attrs (sys w0) !! governor_path c ->
    isCoreOnline c ws.1 = true ->
    readSysFile (governor_path c) w0 = g -> g <> EmptyString ->
    originalSettings_ ws'.2 !! governor_path c = Some g.
Proof.
  intros Hnd. induction Hnd as [|x cores Hx Hnd IH]; intros Hin ws ws' H Ha Hon Hg Hne.
  - by apply elem_of_nil in Hin.
  - cbn [foldlM] in H. destruct (pin_frequency pct ws x) as [ws1|] eqn:E; [|done].
    destruct (decide (x = c)) as [->|Hxc].
    + assert (Hrest : forall y, y ∈ cores ->
                governor_path c <> governor_path y
                /\ (governor_path c <> scaling_max_freq y \/ 100 <= pct)).
      { intros y Hy. split; [|left; apply governor_ne_scaling].
        intros Eq. apply governor_path_inj in Eq. by subst. }
      destruct (pin_loop_frame pct cores _ Hrest ws1 ws' H) as [_ Hf2].
      destruct ws as [w s], ws1 as [w1 s1].
      pose proof (pin_frequency_governor _ _ _ _ _ _ E) as Hstep.
      cbn [fst snd] in *. rewrite Hon in Hstep.
      rewrite Hf2, Hstep. unfold getCpuGovernor.
      rewrite (readSysFile_same _ w0 w Ha), Hg. by destruct g.
    + apply elem_of_cons in Hin as [->|Hin]; [done|].
      destruct (pin_frequency_frame _ _ _ _ (governor_path c) E) as [Hf1 _].
      * intros Eq. apply governor_path_inj in Eq. by apply Hxc.
      * left. apply governor_ne_scaling.
      * apply (IH Hin ws1 ws' H); [by rewrite Hf1| |done|done].
        rewrite <- Hon. apply isCoreOnline_same.
        apply (pin_frequency_frame _ _ _ _ (online_path c) E).
        -- apply not_eq_sym, governor_ne_online.
        -- left. apply not_eq_sym, scaling_ne_online.
Qed.

(** [applySettings] on the governor of a core that is online before the
    run: the file holds [performance], the snapshot holds what was read. *)
Lemma apply_records_governor w0 s0 w1 s1 c :
  applySettings w0 s0 = Some (w1, s1) ->
  0 <= c < totalCores_ s0 ->
  isCoreOnline c w0 = true ->
  writable (governor_path c) w0 = true ->
  attrs (sys w1) !! governor_path c = Some "performance"
  /\ writable (governor_path c) w1 = true
  /\ (readSysFile (governor_path c) w0 <> EmptyString ->
      originalSettings_ s1 !! governor_path c
      = Some (readSysFile (governor_path c) w0)).
Proof.
  intros Happly Hc Hon Hw. unfold applySettings in Happly.
  set (ws1 := if forceAllCoresOnline (config_ s0) then _ else _) in Happly.
  assert (Hforce : attrs (sys ws1.1) !! governor_path c = attrs (sys w0) !! governor_path c
                   /\ isCoreOnline c ws1.1 = true
                   /\ writable (governor_path c) ws1.1 = true).
  { unfold ws1. destruct (forceAllCoresOnline (config_ s0)); [|done].
    destruct (force_loop_frame (seqZ 1 (totalCores_ s0 - 1)) (w0, s0) (governor_path c))
      as [H1 _]; [intros x; apply governor_ne_online|].
    split; [done|]. split; [by apply force_loop_keeps_online|].
    by rewrite force_loop_writable. }
  destruct Hforce as (Hf1 & Hf2 & Hf3).
  assert (Hin : c ∈ seqZ 0 (totalCores_ s0)) by (apply elem_of_seqZ; lia).
  pose proof (pin_loop_writable _ _ (governor_path c) _ _ Happly) as Hw1.
  cbn [fst] in Hw1. rewrite Hf3 in Hw1.
  pose proof (pin_loop_sets_performance _ c _ (NoDup_seqZ 0 (totalCores_ s0)) Hin
                ws1 (w1, s1) Happly Hf2 Hf3) as Hp.
  cbn [fst snd] in *. split; [done|]. split; [done|]. intros Hread.
  exact (pin_loop_records_governor _ c _ w0 _ (NoDup_seqZ 0 (totalCores_ s0)) Hin
           ws1 (w1, s1) Happly Hf1 Hf2 eq_refl Hread).
Qed.

Lemma writeSysFile_drift p v w : drift (sys (writeSysFile p v w).2) = drift (sys w).
Proof. unfold writeSysFile. by destruct (writable p w). Qed.

Lemma applySettings_drift w s w1 s1 :
  applySettings w s = Some (w1, s1) -> drift (sys w1) = drift (sys w).
Proof.
  unfold applySettings. intros H.
  set (ws1 := if forceAllCoresOnline (config_ s) then _ else _) in H.
  assert (H1 : drift (sys ws1.1) = drift (sys w)).
  { unfold ws1. destruct (forceAllCoresOnline (config_ s)); [|done].
    apply (foldl_inv (fun a : World * t => drift (sys a.1) = drift (sys w))); [done|].
    intros [wa sa] x Ha. cbn [force_online fst]. unfold setCoreOnline.
    destruct (x =? 0); [done|]. by rewrite writeSysFile_drift. }
  rewrite <- H1. revert H.
  apply foldlM_inv with (P := fun a : World * t => drift (sys a.1) = drift (sys ws1.1));
    [done|].
  intros [wa sa] x [wb sb] Ha Hx. cbn [fst] in *. rewrite <- Ha. clear Ha.
  unfold pin_frequency in Hx. destruct (isCoreOnline x wa); cbn [negb] in Hx;
    [|by inversion Hx].
  destruct (getMaxFrequency x _) as [maxFreq|]; [|done].
  destruct (getMinFrequency x _) as [minFreq|]; [|done].
  destruct (_ && _); inversion Hx; subst; clear Hx;
    unfold setMaxFrequency, setCpuGovernor; by rewrite ?writeSysFile_drift.
Qed.

Lemma joined_attrs owner w : sys (joined owner w) = sys w.
Proof. done. Qed.

Lemma reonline_writable w x q : writable q (reonline w x) = writable q w.
Proof. unfold reonline. destruct (negb _); [|done]. apply setCoreOnline_writable. Qed.

(** What the system writes takes no file away. *)
Lemma system_sets_writable q w kv :
  writable q w = true -> writable q (system_sets w kv) = true.
Proof.
  unfold writable, system_sets. cbn. intros [H1 H2]%andb_prop.
  apply andb_true_intro. split; [|done].
  apply bool_decide_eq_true_1 in H1. apply bool_decide_eq_true_2.
  rewrite dom_insert_L. set_solver.
Qed.

Lemma system_sets_frame p w kv :
  kv.1 <> p -> attrs (sys (system_sets w kv)) !! p = attrs (sys w) !! p.
Proof. intros Hne. unfold system_sets. cbn. by rewrite lookup_insert_ne. Qed.

Lemma reonline_frame w x p :
  p <> online_path x -> attrs (sys (reonline w x)) !! p = attrs (sys w) !! p.
Proof.
  intros Hne. unfold reonline. destruct (negb _); [|done]. by apply setCoreOnline_frame.
Qed.

(** A pass of the monitoring loop keeps the snapshot and the files that
    take writes; it changes a file that is not an online file only when the
    system did. *)
Lemma monitor_keeps ws changes q :
  originalSettings_ (monitor ws changes).2 = originalSettings_ ws.2
  /\ (writable q ws.1 = true -> writable q (monitor ws changes).1 = true)
  /\ ((forall x, q <> online_path x) ->
      Forall (fun kv : string * string => kv.1 <> q) changes ->
      attrs (sys (monitor ws changes).1) !! q = attrs (sys ws.1) !! q).
Proof.
  destruct ws as [w s]. unfold monitor. cbn [fst snd].
  assert (Hw : writable q w = true -> writable q (foldl system_sets w changes) = true).
  { intros H. apply (foldl_inv (fun a => writable q a = true)); [done|].
    intros a kv Ha. by apply system_sets_writable. }
  assert (Hf : Forall (fun kv : string * string => kv.1 <> q) changes ->
               attrs (sys (foldl system_sets w changes)) !! q = attrs (sys w) !! q).
  { clear Hw. revert w. induction changes as [|kv changes IH]; intros w Hc; [done|].
    inversion Hc; subst. cbn [foldl]. rewrite IH by done. by apply system_sets_frame. }
  set (wc := foldl system_sets w changes) in *.
  destruct (_ && _); cbn [fst snd]; (split; [done|]); split; try done.
  - intros H. apply (foldl_inv (fun a => writable q a = true)); [by apply Hw|].
    intros a x Ha. by rewrite reonline_writable.
  - intros Hq Hc. rewrite <- (Hf Hc).
    apply (foldl_inv (fun a => attrs (sys a) !! q = attrs (sys wc) !! q)); [done|].
    intros a x Ha. by rewrite reonline_frame.
Qed.

Lemma monitor_loop_keeps passes ws q :
  originalSettings_ (foldl monitor ws passes).2 = originalSettings_ ws.2
  /\ (writable q ws.1 = true -> writable q (foldl monitor ws passes).1 = true)
  /\ ((forall x, q <> online_path x) ->
      Forall (Forall (fun kv : string * string => kv.1 <> q)) passes ->
      attrs (sys (foldl monitor ws passes).1) !! q = attrs (sys ws.1) !! q).
Proof.
  revert ws. induction passes as [|changes passes IH]; intros ws; [done|].
  cbn [foldl]. destruct (IH (monitor ws changes)) as (I1 & I2 & I3).
  destruct (monitor_keeps ws changes q) as (M1 & M2 & M3).
  split; [by rewrite I1|]. split; [by auto|].
  intros Hq Hp. inversion Hp; subst. by rewrite I3, M3.
Qed.

(** The device that the passes of a run start from differs from the one
    [applySettings] left only by the list of runs to come. *)
Lemma next_run_sys w :
  attrs (sys (next_run w).2) = attrs (sys w)
  /\ (forall q, writable q (next_run w).2 = writable q w)
  /\ (next_run w).1 = hd [] (drift (sys w)).
Proof. unfold next_run. by destruct (drift (sys w)). Qed.



(** X26.  Thermal generator, a run that reaches its deadline: the worker marks
    the generator stopped but restores nothing.  When the system, whatever
    else it changes during the passes of the monitoring loop, leaves the
    governor file of a core alone, and the core was online and its governor
    file takes writes, the governor of the core is still [performance] when
    the worker is gone, and stays so until [stop] is called. *)
Theorem thermal_expiry_keeps_performance w0 s0 w1 s1 c :
  workerThread_ s0 = Some Spawned ->
  untouched (governor_path c) w0 ->
  worker_exit w0 s0 = Some (w1, s1) ->
  0 <= c < totalCores_ s0 ->
  isCoreOnline c w0 = true ->
  writable (governor_path c) w0 = true ->
  attrs (sys w1) !! governor_path c = Some "performance"
  /\ StressorBase.isRunning (base s1) = false
  /\ workerThread_ s1 = Some Exited.
Proof.
  intros Hth Hun Hexit Hc Hon Hw. unfold worker_exit in Hexit. rewrite Hth in Hexit.
  unfold workerFunction in Hexit.
  destruct (applySettings w0 s0) as [[wa sa]|] eqn:Happly; [|done].
  destruct (apply_records_governor w0 s0 wa sa c Happly Hc Hon Hw) as (Hperf & _ & _).
  pose proof (applySettings_drift _ _ _ _ Happly) as Hd.
  unfold untouched in Hun. destruct (next_run_sys w0) as (_ & _ & Hp0). rewrite Hp0 in Hun.
  destruct (next_run_sys wa) as (Ha & _ & Hpa). rewrite Hd in Hpa.
  destruct (next_run wa) as [passes w2]. cbn [fst snd] in *. subst passes.
  destruct (monitor_loop_keeps (hd [] (drift (sys w0))) (w2, sa) (governor_path c))
    as (_ & _ & Mf).
  destruct (foldl monitor (w2, sa) _) as [w3 s3]. cbn [fst snd] in *.
  inversion Hexit; subst; clear Hexit. split; [|done].
  rewrite Mf; [by rewrite Ha| |done]. intros x. apply governor_ne_online.
Qed.

(** The run of the device on which the system lowers the ceiling during the
    monitoring loop. *)
Lemma thermal_expiry_keeps_performance_witness :
  attrs (sys thermal_expired_one.1) !! governor_path 0 = Some "performance"
  /\ StressorBase.isRunning (base thermal_expired_one.2) = false
  /\ workerThread_ thermal_expired_one.2 = Some Exited.
Proof.
  assert (H : worker_exit device_ceiling_moved (thermal_fresh 100)
              = Some (thermal_expired_one.1, thermal_expired_one.2)).
  { unfold thermal_expired_one.
    by destruct (worker_exit device_ceiling_moved (thermal_fresh 100))
      as [[w1 s1]|] eqn:E; [|vm_compute in E]. }
  assert (Hc : 0 <= 0 < totalCores_ (thermal_fresh 100)) by (cbn; lia).
  assert (Hu : untouched (governor_path 0) device_ceiling_moved).
  { unfold untouched. cbn. repeat constructor. cbn. discriminate. }
  exact (thermal_expiry_keeps_performance device_ceiling_moved (thermal_fresh 100) _ _ 0
           eq_refl Hu H Hc eq_refl eq_refl).
Defined.

Lemma length_filter_all {A} (P : A -> Prop) `{!forall x, Decision (P x)} (l : list A) :
  length (filter P l) = length l -> Forall P l.
Proof.
  induction l as [|x l IH]; [done|]. rewrite filter_cons.
  destruct (decide (P x)) as [Hx|Hx]; cbn [length].
  - intros [= Hl]. constructor; [done|]. by apply IH.
  - pose proof (length_filter P l). lia.
Qed.

Lemma reonline_keeps_online w x c :
  isCoreOnline c w = true -> isCoreOnline c (reonline w x) = true.
Proof.
  intros Hon. unfold reonline. destruct (negb _); [|done].
  by apply setCoreOnline_keeps_online.
Qed.

Lemma reonline_loop c cores w :
  c ∈ cores -> writable (online_path c) w = true ->
  isCoreOnline c (foldl reonline w cores) = true.
Proof.
  revert w. induction cores as [|x cores IH]; intros w Hin Hw.
  - by apply elem_of_nil in Hin.
  - cbn [foldl]. apply elem_of_cons in Hin as [->|Hin].
    + apply (foldl_inv (fun a => isCoreOnline x a = true)).
      * unfold reonline. destruct (isCoreOnline x w) eqn:E; cbn [negb]; [done|].
        by apply setCoreOnline_sets_online.
      * intros a y Ha. by apply reonline_keeps_online.
    + apply IH; [done|]. by rewrite reonline_writable.
Qed.

(** X27.  Thermal generator, one pass of the monitoring loop with all cores
    forced online: whatever the system changed since the previous pass,
    after the pass every core whose online file takes writes is online
    again; the count published in the status is the one taken before the
    cores were put back. *)
Theorem monitor_puts_cores_back w0 s changes c :
  forceAllCoresOnline (config_ s) = true ->
  0 <= c < totalCores_ s ->
  let w := foldl system_sets w0 changes in
  writable (online_path c) w = true ->
  isCoreOnline c (monitor (w0, s) changes).1 = true
  /\ coresOnline_ (monitor (w0, s) changes).2
     = Z.of_nat (length (filter (fun cpu => isCoreOnline cpu w = true)
                                (seqZ 0 (totalCores_ s)))).
Proof.
  intros Hforce Hc w Hw. unfold monitor. fold w.
  cbn [set_coresOnline config_]. rewrite Hforce. cbn [andb].
  set (online := Z.of_nat (length (filter _ (seqZ 0 (totalCores_ s))))).
  destruct (Z.ltb_spec online (totalCores_ s)) as [Hlt|Hge]; cbn [fst snd].
  - split; [|done]. destruct (decide (c = 0)) as [->|Hc0].
    + apply (foldl_inv (fun a => isCoreOnline 0 a = true)); [done|].
      intros a y Ha. by apply reonline_keeps_online.
    + apply reonline_loop; [apply elem_of_seqZ; lia|done].
  - split; [|done].
    assert (Hall : Forall (fun cpu => isCoreOnline cpu w = true) (seqZ 0 (totalCores_ s))).
    { apply (length_filter_all (fun cpu => isCoreOnline cpu w = true)).
      pose proof (length_filter (fun cpu => isCoreOnline cpu w = true)
                    (seqZ 0 (totalCores_ s))) as Hle.
      rewrite length_seqZ in *. unfold online in Hge. lia. }
    rewrite Forall_forall in Hall. apply Hall, elem_of_seqZ. lia.
Qed.

Lemma monitor_puts_cores_back_witness :
  isCoreOnline 1 (monitor (device_core_offline, thermal_fresh_two) []).1 = true.
Proof.
  assert (Hc : 0 <= 1 < totalCores_ thermal_fresh_two) by (cbn; lia).
  exact (proj1 (monitor_puts_cores_back device_core_offline thermal_fresh_two [] 1
                  eq_refl Hc eq_refl)).
Defined.

End ThermalRoundTrip.

(* --------------------------------------------------------------------- *)
(** ** The status snapshot                                                *)
(* --------------------------------------------------------------------- *)

Section Snapshot.

(** X28.  For every generator, the snapshot returned by [getStatus] carries
    the type tag and the running flag; while the generator runs and the
    time since the start and the difference of the duration and that time
    are values of [long], its remaining time is [max(0, duration - elapsed)];
    when it is idle the remaining time is 0 and the map of counters is
    empty. *)
Theorem status_snapshot_in_range (k : StressorKind) (w : World) (s : Stressor.state k) :
  let st := Stressor.getStatus k w s in
  let b := Stressor.base k s in
  let elapsed := now w - StressorBase.startTimeMs_ b in
  StressStatus.type st = Stressor.getType k
  /\ StressStatus.isRunning st = Stressor.isRunning k s
  /\ (Stressor.isRunning k s = true ->
        in_long elapsed -> in_long (StressorBase.durationMs_ b - elapsed) ->
        StressStatus.remainingTimeMs st = Z.max 0 (StressorBase.durationMs_ b - elapsed))
  /\ (Stressor.isRunning k s = false ->
        StressStatus.remainingTimeMs st = 0 /\ StressStatus.data st = ∅).
Proof.
  assert (Hrem : forall b, StressorBase.running_ b = true ->
            in_long (now w - StressorBase.startTimeMs_ b) ->
            in_long (StressorBase.durationMs_ b - (now w - StressorBase.startTimeMs_ b)) ->
            StressorBase.getRemainingTimeMs w b
            = Z.max 0 (StressorBase.durationMs_ b - (now w - StressorBase.startTimeMs_ b))).
  { intros b Hb H1 H2.
    unfold StressorBase.getRemainingTimeMs, StressorBase.getCurrentTimeMs.
    rewrite Hb. cbn [negb]. rewrite (wrap_long_id _ H1), (wrap_long_id _ H2).
    destruct (Z.ltb_spec 0 (StressorBase.durationMs_ b
                              - (now w - StressorBase.startTimeMs_ b))); lia. }
  assert (Hidle : forall b, StressorBase.running_ b = false ->
            StressorBase.getRemainingTimeMs w b = 0).
  { intros b Hb. unfold StressorBase.getRemainingTimeMs. by rewrite Hb. }
  destruct k; simpl; unfold Stressor.isRunning, StressorBase.isRunning; simpl;
    (split; [done|]; split; [done|]; split;
      [intros Hb H1 H2; by apply Hrem
      |intros Hb; split; [by apply Hidle|by rewrite Hb]]).
Qed.

(** The memory generator started at time 1000 for 300 s, asked 2 s later. *)
Lemma status_snapshot_in_range_witness :
  StressStatus.remainingTimeMs
    (Stressor.getStatus Memory (set_now 3000 Example.device) memory_running) = 298000
  /\ StressStatus.data (Stressor.getStatus Memory Example.device MemoryStressor.init) = ∅.
Proof.
  split.
  - destruct (status_snapshot_in_range Memory (set_now 3000 Example.device) memory_running)
      as (_ & _ & Hrun & _).
    rewrite Hrun; [reflexivity|reflexivity|by vm_compute|by vm_compute].
  - destruct (status_snapshot_in_range Memory Example.device MemoryStressor.init)
      as (_ & _ & _ & Hidle).
    apply Hidle. reflexivity.
Defined.

End Snapshot.
